(** * Public-transport delay reports: alignment and aggregation engine

    A shallow embedding of the two report scripts of the repository,

    - [export_pt_delay_excel.py]  (stop-delay mode, module [ExportPtDelay]), and
    - [get_table_of_old_methode.py] (vehicle-duration mode, module [OldMethod]),

    together with the properties their specification states about them and
    further properties of file names, discovery, rows and messages.

    Conventions of the embedding.

    - A Python [float] is a value of a type [F] carrying the operations the
      scripts use (class [Scalar]).  The instance [IEEE] is IEEE binary64
      (Rocq's primitive floats, the arithmetic CPython runs).  Structural
      theorems hold for every instance; statements that depend on the
      arithmetic are made for IEEE binary64, and where the reading of
      [float(s)] does not matter, for every reading of it
      ([IEEE.with_float]).
    - A Python [str] is a string of characters with code points below 256
      (a [str] with other characters is outside the embedding).  On these
      the class [\d] of the two file-name patterns and [int] know the ASCII
      digits only, [isdigit] knows the three superscript digits as well, and
      [lower] changes the ASCII and the Latin-1 capitals.
    - A Python [dict] is an association list with distinct keys, in insertion
      order (the order [items()] yields).
    - The XML library, the file system and pandas are outside the repository:
      they are fields of the records [World] and [Pandas].  The simulation
      directory exists and the workbook can be written.
    - [print] appends a line to the returned standard output; [SystemExit] is
      a value of the returned outcome.
    - The scripts are given twice.  [ExportPtDelay] and [OldMethod] are the
      runs in which the parser raises or returns a root element and the
      workbook is closed with a sheet in it; they say what the dicts, rows,
      sheets and lines of such a run are.  [ExportPtDelayExc] and
      [OldMethodExc] add the two uncaught exceptions of the scripts (a tree
      without root from lxml, a workbook closed without a sheet); statements
      on exit status and on whether a run is stopped are made on these. *)

From Stdlib Require Import String Ascii ZArith Bool Lia Arith List.
From Stdlib Require Import Permutation Sorted DecimalString DecimalPos DecimalZ.
From Stdlib Require Import Floats.
Import ListNotations.

#[local] Open Scope string_scope.
#[local] Open Scope Z_scope.
#[local] Set Warnings "-inexact-float,-register-all".

(* ------------------------------------------------------------------ *)
(** ** Python scalars *)

(** The operations on [float] that occur in the two scripts. *)
Class Scalar (F : Type) : Type := {
  f0 : F;                                   (* 0.0, float(), and the int 0 of [dur <= 0] *)
  fadd : F -> F -> F;                       (* a + b *)
  fsub : F -> F -> F;                       (* a - b *)
  fmul : F -> F -> F;                       (* a * b (inside pandas only) *)
  fdiv : F -> F -> F;                       (* a / b *)
  flt : F -> F -> bool;                     (* a < b *)
  fle : F -> F -> bool;                     (* a <= b *)
  of_int : Z -> F;                          (* int operand of a float operation *)
  float_of_string : string -> option F      (* float(s); None is ValueError *)
}.

(* ------------------------------------------------------------------ *)
(** ** Python lists, strings and dicts *)

(** [range(lo, hi)] over the integers. *)
Definition range (lo hi : Z) : list Z :=
  map (fun i => lo + Z.of_nat i) (seq 0 (Z.to_nat (hi - lo))).

(** [range(lo, hi, step)] for a positive step. *)
Definition range_step (lo hi step : Z) : list Z :=
  map (fun i => lo + step * Z.of_nat i) (seq 0 (Z.to_nat ((hi - lo + step - 1) / step))).

(** Insertion of [x] behind every element it is not smaller than. *)
Fixpoint insort {A : Type} (lt : A -> A -> bool) (x : A) (l : list A) : list A :=
  match l with
  | [] => [x]
  | y :: l' => if lt x y then x :: l else y :: insort lt x l'
  end.

(** [list.sort()] and [sorted()]: a stable sort that compares with [<] only.
    On elements that [<] orders totally every stable sort returns this
    list.  With incomparable elements (NaN) CPython's algorithm can leave
    another arrangement (the delays 2, nan, 1 stay as they are); of such a
    list the statements below use only that it is a rearrangement, and the
    two that are evaluated, nan before 0.5 and nan before 1.0, are left as
    they are by CPython and by this function alike. *)
Definition sort_by {A : Type} (lt : A -> A -> bool) (l : list A) : list A :=
  fold_left (fun acc x => insort lt x acc) l [].

(** [str(n)] for an int. *)
Definition str_of_Z (z : Z) : string := NilZero.string_of_int (Z.to_int z).

Definition is_digit (c : ascii) : bool :=
  let n := nat_of_ascii c in (48 <=? n)%nat && (n <=? 57)%nat.

(** The maximal prefix of decimal digits, and the rest. *)
Fixpoint span_digits (s : string) : string * string :=
  match s with
  | String c s' =>
      if is_digit c then let (d, r) := span_digits s' in (String c d, r)
      else (EmptyString, s)
  | EmptyString => (EmptyString, EmptyString)
  end.

(** [int(s)] for a string of decimal digits. *)
Definition int_of_digits (s : string) : Z :=
  fold_left (fun acc c => 10 * acc + (Z.of_nat (nat_of_ascii c) - 48)) (list_ascii_of_string s) 0.

(** [s.removeprefix]-like test: the rest of [s] behind [p], when [s] starts with [p]. *)
Fixpoint strip_prefix (p s : string) : option string :=
  match p, s with
  | EmptyString, _ => Some s
  | String a p', String b s' => if Ascii.eqb a b then strip_prefix p' s' else None
  | String _ _, EmptyString => None
  end.

Definition newline : string := String (ascii_of_nat 10) EmptyString.

(** Where [$] matches: at the end, or before a newline that ends the string. *)
Definition at_dollar (s : string) : bool :=
  String.eqb s "" || String.eqb s newline.

Fixpoint has_newline (s : string) : bool :=
  match s with
  | EmptyString => false
  | String c s' => Ascii.eqb c (ascii_of_nat 10) || has_newline s'
  end.

(** [sub in s]. *)
Fixpoint contains (sub s : string) : bool :=
  match strip_prefix sub s with
  | Some _ => true
  | None => match s with
            | EmptyString => false
            | String _ s' => contains sub s'
            end
  end.

(** [c.lower()]: the capitals A-Z, and those of Latin-1 (192-222 but the
    multiplication sign 215), lie 32 below their small letters. *)
Definition lower_char (c : ascii) : ascii :=
  let n := nat_of_ascii c in
  if ((65 <=? n)%nat && (n <=? 90)%nat)
     || ((192 <=? n)%nat && (n <=? 222)%nat && negb (n =? 215)%nat)
  then ascii_of_nat (n + 32) else c.

(** [s.lower()]. *)
Fixpoint lower (s : string) : string :=
  match s with
  | EmptyString => EmptyString
  | String c s' => String (lower_char c) (lower s')
  end.

(** [c.isdigit()]: a decimal digit, or one of the superscripts 2, 3 and 1
    (178, 179, 185), which [\d] and [int] do not take. *)
Definition is_str_digit (c : ascii) : bool :=
  let n := nat_of_ascii c in
  is_digit c || (n =? 178)%nat || (n =? 179)%nat || (n =? 185)%nat.

(** [s.isdigit()]: non-empty and digits only. *)
Definition isdigit (s : string) : bool :=
  negb (String.eqb s "") && forallb is_str_digit (list_ascii_of_string s).

(** [os.path.join(a, b)] on POSIX. *)
Definition path_join (a b : string) : string :=
  match strip_prefix "/" b with
  | Some _ => b
  | None =>
      if String.eqb a "" then b
      else match String.get (Nat.pred (String.length a)) a with
           | Some c => if Ascii.eqb c "/"%char then a ++ b else a ++ "/" ++ b
           | None => a ++ "/" ++ b
           end
  end.

(** Keys of a dict: a type with a boolean equality that decides [=]. *)
Class Key (K : Type) : Type := {
  keqb : K -> K -> bool;
  keqb_spec : forall x y, keqb x y = true <-> x = y
}.

#[export] Instance Key_string : Key string :=
  {| keqb := String.eqb; keqb_spec := String.eqb_eq |}.

#[export] Instance Key_Z : Key Z :=
  {| keqb := Z.eqb; keqb_spec := Z.eqb_eq |}.

Definition dict (K V : Type) : Type := list (K * V).

(** [d.get(k)]. *)
Fixpoint dict_get {K V : Type} `{Key K} (k : K) (d : dict K V) : option V :=
  match d with
  | [] => None
  | (k', v) :: d' => if keqb k' k then Some v else dict_get k d'
  end.

(** [d[k] = f(d.get(k))]: an existing key keeps its place, a new key goes last. *)
Fixpoint dict_upd {K V : Type} `{Key K} (k : K) (f : option V -> V) (d : dict K V) : dict K V :=
  match d with
  | [] => [(k, f None)]
  | (k', v) :: d' =>
      if keqb k' k then (k', f (Some v)) :: d' else (k', v) :: dict_upd k f d'
  end.

(** [d[k] = v]. *)
Definition dict_set {K V : Type} `{Key K} (k : K) (v : V) (d : dict K V) : dict K V :=
  dict_upd k (fun _ => v) d.

(** [d[k].append(x)] for [d = defaultdict(list)]. *)
Definition dict_append {K V : Type} `{Key K} (k : K) (x : V) (d : dict K (list V)) : dict K (list V) :=
  dict_upd k (fun o => match o with Some l => (l ++ [x])%list | None => [x] end) d.

Definition keys {K V : Type} (d : dict K V) : list K := map fst d.

(** Truth value of an [Optional[str]]: neither [None] nor empty. *)
Definition truthy (o : option string) : bool :=
  match o with
  | Some s => negb (String.eqb s "")
  | None => false
  end.

(** [a or b] on [Optional[str]]. *)
Definition py_or (a b : option string) : option string :=
  if truthy a then a else b.

(** [str(path)] inside an f-string, for a path that may be [None]. *)
Definition str_of_path (p : option string) : string :=
  match p with
  | Some s => s
  | None => "None"
  end.

(* ------------------------------------------------------------------ *)
(** ** XML trees and the outside world *)

Inductive element : Type :=
  Element (tag : string) (attrib : dict string string) (children : list element).

Definition tag_of (e : element) : string := let (t, _, _) := e in t.
Definition attrib_of (e : element) : dict string string := let (_, a, _) := e in a.

(** [el.attrib.get(name)]. *)
Definition attr (name : string) (e : element) : option string :=
  dict_get name (attrib_of e).

(** All proper descendants, in document order. *)
Fixpoint descendants (e : element) : list element :=
  match e with
  | Element _ _ cs => flat_map (fun c => c :: descendants c) cs
  end.

(** [root.findall(".//" + tag)]. *)
Definition findall (tag : string) (root : element) : list element :=
  filter (fun e => String.eqb (tag_of e) tag) (descendants root).

(** What [ET.parse(path, ...).getroot()] does: raise, or return a root.  The
    third answer, the [None] that lxml can return, is added with the
    uncaught exceptions further down ([tree], [parse_tree]). *)
Inductive parsed : Type :=
| Raises (e : string)
| Root (root : element).

Record World : Type := {
  ET_parse : option string -> parsed;     (* the XML library on the file system *)
  os_path_exists : string -> bool;
  os_listdir : string -> list string
}.

(** Both scripts: [_parse_root] hands the path to the XML parser, with
    recovery when lxml is installed. *)
Definition _parse_root (w : World) (path : option string) : parsed := ET_parse w path.

(** One row of the cross-value summary sheet. *)
Record summary_row (F : Type) : Type := {
  s_value : Z;
  s_count : Z;
  s_mean : F;
  s_median : F;
  s_p10 : F;
  s_p90 : F;
  s_min : F;
  s_max : F
}.
Arguments s_value {F}. Arguments s_count {F}. Arguments s_mean {F}.
Arguments s_median {F}. Arguments s_p10 {F}. Arguments s_p90 {F}.
Arguments s_min {F}. Arguments s_max {F}.

(** What the scripts read off [Series.describe(percentiles=[0.1, 0.5, 0.9])]. *)
Record described (F : Type) : Type := {
  d_count : Z;
  d_mean : F;
  d_p50 : F;
  d_p10 : F;
  d_p90 : F;
  d_min : F;
  d_max : F
}.
Arguments d_count {F}. Arguments d_mean {F}. Arguments d_p50 {F}.
Arguments d_p10 {F}. Arguments d_p90 {F}. Arguments d_min {F}. Arguments d_max {F}.

(** pandas, as far as the scripts call it on numbers. *)
Record Pandas (F : Type) : Type := {
  describe : list F -> described F;
  series_mean : list F -> F
}.
Arguments describe {F}. Arguments series_mean {F}.

Definition summary_of {F : Type} (value : Z) (s : described F) : summary_row F :=
  {| s_value := value; s_count := d_count s; s_mean := d_mean s;
     s_median := d_p50 s; s_p10 := d_p10 s; s_p90 := d_p90 s;
     s_min := d_min s; s_max := d_max s |}.

(** The row appended when a value has no record. *)
Definition zero_summary {F : Type} `{Scalar F} (value : Z) : summary_row F :=
  {| s_value := value; s_count := 0; s_mean := f0; s_median := f0;
     s_p10 := f0; s_p90 := f0; s_min := f0; s_max := f0 |}.

(** [pd.DataFrame(summaries).sort_values("value")]. *)
Definition sort_values {F : Type} (l : list (summary_row F)) : list (summary_row F) :=
  sort_by (fun a b => s_value a <? s_value b) l.

(** How a run ends: exit status, message of [SystemExit], written workbook. *)
Record outcome (B : Type) : Type := {
  stdout : list string;
  exit_status : Z;
  exit_message : option string;
  workbook : option B
}.
Arguments stdout {B}. Arguments exit_status {B}.
Arguments exit_message {B}. Arguments workbook {B}.

(* ------------------------------------------------------------------ *)
(** ** export_pt_delay_excel.py *)

Module ExportPtDelay.

(** [STOP_MIXED_RE.match(name)], with both groups read by [int]:
    [stop_events_(\d+)_(\d+)\.xml$] from the start of the name. *)
Definition STOP_MIXED_RE (name : string) : option (Z * Z) :=
  match strip_prefix "stop_events_" name with
  | None => None
  | Some r1 =>
      let (d1, r2) := span_digits r1 in
      if String.eqb d1 "" then None
      else match strip_prefix "_" r2 with
           | None => None
           | Some r3 =>
               let (d2, r4) := span_digits r3 in
               if String.eqb d2 "" then None
               else match strip_prefix ".xml" r4 with
                    | None => None
                    | Some r5 =>
                        if at_dollar r5 then Some (int_of_digits d1, int_of_digits d2)
                        else None
                    end
           end
  end.

(** One row of a value's sheet, before the per-stop mean is merged in. *)
Record row (F : Type) : Type := {
  r_value : Z;
  r_sim : Z;
  r_stop : string;
  r_occurrence : Z;
  r_delay_baseline_s : F;
  r_delay_mixed_s : F;
  r_delay_delta_s : F
}.
Arguments r_value {F}. Arguments r_sim {F}. Arguments r_stop {F}.
Arguments r_occurrence {F}. Arguments r_delay_baseline_s {F}.
Arguments r_delay_mixed_s {F}. Arguments r_delay_delta_s {F}.

Inductive table (F : Type) : Type :=
| Detail (rows : list (row F * F))          (* each row with its stop_avg_delta_s *)
| Summary (rows : list (summary_row F)).
Arguments Detail {F}. Arguments Summary {F}.

Record sheet (F : Type) : Type := {
  sheet_name : string;
  columns : list string;
  body : table F
}.
Arguments sheet_name {F}. Arguments columns {F}. Arguments body {F}.

Record args : Type := {
  a_simdir : string;      (* os.path.abspath(args.simdir) *)
  a_sims : Z;
  a_out : string
}.

Definition detail_columns : list string :=
  ["value"; "sim"; "stop"; "occurrence"; "delay_baseline_s"; "delay_mixed_s"; "delay_delta_s"].

Definition summary_columns : list string :=
  ["value"; "count"; "mean_delta_s"; "median_delta_s"; "p10_delta_s"; "p90_delta_s";
   "min_delta_s"; "max_delta_s"].

(** [_generate_values()]. *)
Definition _generate_values : list Z :=
  (range_step 1000 (33000 + 1) 1000 ++ range_step 36000 (58000 + 1) 2000)%list.

(** [el.attrib.get("busStop") or el.attrib.get("stop")]. *)
Definition stop_id_of (el : element) : option string :=
  py_or (attr "busStop" el) (attr "stop" el).

Section Script.
Context {F : Type} `{Scalar F}.
Variable w : World.
Variable pd : Pandas F.

(** The body of the loop over [stopinfo] elements. *)
Definition add_stopinfo (delays : dict string (list F)) (el : element) : dict string (list F) :=
  match stop_id_of el with
  | Some stop_id =>
      if String.eqb stop_id "" then delays
      else match float_of_string (match attr "delay" el with Some s => s | None => "0" end) with
           | None => delays
           | Some delay => dict_append stop_id delay delays
           end
  | None => delays
  end.

(** [parse_stop_delays(path)]: the returned dict and the lines printed. *)
Definition parse_stop_delays (path : option string) : dict string (list F) * list string :=
  match _parse_root w path with
  | Raises e =>
      ([], ["Warning: skipping malformed XML: " ++ str_of_path path ++ " (" ++ e ++ ")"])
  | Root root =>
      let delays := fold_left add_stopinfo (findall "stopinfo" root) [] in
      (map (fun kv => (fst kv, sort_by flt (snd kv))) delays, [])
  end.

(** [_find_baseline_path(simdir, sim_index)]. *)
Definition _find_baseline_path (simdir : string) (sim_index : Z) : string :=
  let candidates :=
    [path_join simdir ("stop_events_baseline_" ++ str_of_Z sim_index ++ ".xml");
     path_join simdir ("stop_events_0_" ++ str_of_Z sim_index ++ ".xml")] in
  match filter (os_path_exists w) candidates with
  | p :: _ => p
  | [] => ""
  end.

(** One turn of the loop that loads the baselines. *)
Definition load_baseline (simdir : string)
  (st : dict Z (dict string (list F)) * list string) (sim : Z)
  : dict Z (dict string (list F)) * list string :=
  let (baselines, out) := st in
  let p := _find_baseline_path simdir sim in
  if String.eqb p "" then
    (baselines,
     app out ["Warning: missing baseline file for sim " ++ str_of_Z sim
              ++ " (looked for stop_events_baseline_" ++ str_of_Z sim
              ++ ".xml and stop_events_0_" ++ str_of_Z sim ++ ".xml)"])
  else
    let (b, lines) := parse_stop_delays (Some p) in
    match b with
    | [] => (baselines, app out (app lines ["Warning: no usable baseline delays in " ++ p]))
    | _ :: _ => (dict_set sim b baselines, app out lines)
    end.

Definition load_baselines (simdir : string) (sims : Z)
  : dict Z (dict string (list F)) * list string :=
  fold_left (load_baseline simdir) (range 1 (sims + 1)) ([], []).

(** One turn of the loop over [os.listdir(simdir)]. *)
Definition add_mixed_file (simdir : string)
  (value_to_simpaths : dict Z (dict Z string)) (name : string) : dict Z (dict Z string) :=
  match STOP_MIXED_RE name with
  | None => value_to_simpaths
  | Some (value, sim) =>
      dict_upd value
        (fun o => dict_set sim (path_join simdir name) (match o with Some m => m | None => [] end))
        value_to_simpaths
  end.

Definition discover (simdir : string) : dict Z (dict Z string) :=
  fold_left (add_mixed_file simdir) (os_listdir w simdir) [].

(** The rows of one stop: ranks [1..n], paired by position. *)
Definition stop_rows (value sim : Z) (stop_id : string) (base_list mix_list : list F)
  : list (row F) :=
  let n := Nat.min (length base_list) (length mix_list) in
  map (fun idx =>
         {| r_value := value; r_sim := sim; r_stop := stop_id;
            r_occurrence := Z.of_nat idx + 1;
            r_delay_baseline_s := nth idx base_list f0;
            r_delay_mixed_s := nth idx mix_list f0;
            r_delay_delta_s := fsub (nth idx mix_list f0) (nth idx base_list f0) |})
      (seq 0 n).

(** The aligner: the loop over [base.items()]. *)
Definition align (value sim : Z) (base mixed : dict string (list F)) : list (row F) :=
  flat_map (fun kv =>
              match dict_get (fst kv) mixed with
              | None => []
              | Some [] => []
              | Some mix_list => stop_rows value sim (fst kv) (snd kv) mix_list
              end) base.

(** One turn of the loop over the sims of a value: rows added, lines printed. *)
Definition sim_rows (baselines : dict Z (dict string (list F)))
  (value_to_simpaths : dict Z (dict Z string)) (value sim : Z) : list (row F) * list string :=
  let path := dict_get sim (match dict_get value value_to_simpaths with
                            | Some m => m
                            | None => []
                            end) in
  let (mixed, lines) := parse_stop_delays path in
  match dict_get sim baselines with
  | None => ([], lines)
  | Some [] => ([], lines)
  | Some base => (align value sim base mixed, lines)
  end.

Definition value_rows (baselines : dict Z (dict string (list F)))
  (value_to_simpaths : dict Z (dict Z string)) (sims value : Z) : list (row F) * list string :=
  let per_sim := map (sim_rows baselines value_to_simpaths value) (range 1 (sims + 1)) in
  (concat (map fst per_sim), concat (map snd per_sim)).

(** The deltas of the rows of one stop, as [groupby("stop")] collects them. *)
Definition stop_deltas (rows : list (row F)) (stop : string) : list F :=
  map r_delay_delta_s (filter (fun r => String.eqb (r_stop r) stop) rows).

(** The sheet of a value: the rows, each merged with its stop's mean delta. *)
Definition value_sheet (value : Z) (rows : list (row F)) : sheet F :=
  {| sheet_name := str_of_Z value;
     columns := match rows with
                | [] => detail_columns
                | _ :: _ => (detail_columns ++ ["stop_avg_delta_s"])%list
                end;
     body := Detail (map (fun r => (r, series_mean pd (stop_deltas rows (r_stop r)))) rows) |}.

(** The summary entry of a value. *)
Definition value_summary (value : Z) (rows : list (row F)) : summary_row F :=
  match rows with
  | [] => zero_summary value
  | _ :: _ => summary_of value (describe pd (map r_delay_delta_s rows))
  end.

Definition summary_sheet (summaries : list (summary_row F)) : list (sheet F) :=
  match summaries with
  | [] => []
  | _ :: _ => [{| sheet_name := "summary"; columns := summary_columns;
                  body := Summary (sort_values summaries) |}]
  end.

(** [main()], after [argparse], when no exception escapes. *)
Definition main (a : args) : outcome (list (sheet F)) :=
  let simdir := a_simdir a in
  let (baselines, out1) := load_baselines simdir (a_sims a) in
  let value_to_simpaths := discover simdir in
  let values := _generate_values in
  let per_value := map (value_rows baselines value_to_simpaths (a_sims a)) values in
  let tables := combine values (map fst per_value) in
  let sheets := map (fun vr => value_sheet (fst vr) (snd vr)) tables in
  let summaries := map (fun vr => value_summary (fst vr) (snd vr)) tables in
  {| stdout := app out1 (app (concat (map snd per_value)) ["Excel written: " ++ a_out a]);
     exit_status := 0;
     exit_message := None;
     workbook := Some (app sheets (summary_sheet summaries)) |}.

End Script.
End ExportPtDelay.

(* ------------------------------------------------------------------ *)
(** ** get_table_of_old_methode.py *)

Module OldMethod.

(** The end of a tripinfo file name: [.*_sim_output\.xml$]. *)
Fixpoint sim_output_tail (s : string) : bool :=
  match s with
  | EmptyString => false
  | String c s' =>
      match strip_prefix "_sim_output.xml" s with
      | Some r => at_dollar r
      | None => false
      end
      || (negb (Ascii.eqb c (ascii_of_nat 10)) && sim_output_tail s')
  end.

(** [TRIPINFO_RE.match(name)], with both groups read by [int]:
    [^4_(\d+)_(\d+)_.*_sim_output\.xml$]. *)
Definition TRIPINFO_RE (name : string) : option (Z * Z) :=
  match strip_prefix "4_" name with
  | None => None
  | Some r1 =>
      let (d1, r2) := span_digits r1 in
      if String.eqb d1 "" then None
      else match strip_prefix "_" r2 with
           | None => None
           | Some r3 =>
               let (d2, r4) := span_digits r3 in
               if String.eqb d2 "" then None
               else match strip_prefix "_" r4 with
                    | None => None
                    | Some r5 =>
                        if sim_output_tail r5 then Some (int_of_digits d1, int_of_digits d2)
                        else None
                    end
           end
  end.

(** One row of a value's sheet. *)
Record row (F : Type) : Type := {
  r_vehicle_id : string;
  r_baseline_duration_s : F;
  r_avg_duration_s : F;
  r_delay_s : F;
  r_sims_count : Z
}.
Arguments r_vehicle_id {F}. Arguments r_baseline_duration_s {F}.
Arguments r_avg_duration_s {F}. Arguments r_delay_s {F}. Arguments r_sims_count {F}.

Inductive table (F : Type) : Type :=
| Detail (rows : list (row F))
| Summary (rows : list (summary_row F)).
Arguments Detail {F}. Arguments Summary {F}.

Record sheet (F : Type) : Type := {
  sheet_name : string;
  columns : list string;
  body : table F
}.
Arguments sheet_name {F}. Arguments columns {F}. Arguments body {F}.

Record args : Type := {
  a_baseline : string;    (* os.path.abspath(args.baseline) *)
  a_simdir : string;      (* os.path.abspath(args.simdir) *)
  a_sims : Z;
  a_out : string
}.

Definition detail_columns : list string :=
  ["vehicle_id"; "baseline_duration_s"; "avg_duration_s"; "delay_s"; "sims_count"].

Definition summary_columns : list string :=
  ["value"; "count"; "mean_delay_s"; "median_delay_s"; "p10_delay_s"; "p90_delay_s";
   "min_delay_s"; "max_delay_s"].

Section Script.
Context {F : Type} `{Scalar F}.
Variable w : World.
Variable pd : Pandas F.

(** The duration of one [tripinfo]; [None] when a [float(...)] raises. *)
Definition duration_of (el : element) : option F :=
  match attr "duration" el with
  | Some dur_str => float_of_string dur_str
  | None =>
      match float_of_string (match attr "arrival" el with Some s => s | None => "nan" end) with
      | None => None
      | Some arr =>
          match float_of_string (match attr "depart" el with Some s => s | None => "nan" end) with
          | None => None
          | Some dep => Some (fsub arr dep)
          end
      end
  end.

(** The body of the loop over [tripinfo] elements. *)
Definition add_tripinfo (durations : dict string F) (el : element) : dict string F :=
  match py_or (py_or (attr "id" el) (attr "tripid" el)) (Some "") with
  | None => durations
  | Some vid =>
      if String.eqb vid "" then durations
      else
        let vtype := py_or (attr "vType" el) (attr "vtype" el) in
        let is_bus := match vtype with
                      | Some t => contains "bus" (lower t)
                      | None => negb (isdigit vid)
                      end in
        if negb is_bus then durations
        else match duration_of el with
             | None => durations
             | Some dur => if fle dur f0 then durations else dict_set vid dur durations
             end
  end.

(** [extract_pt_durations(path)]: the returned dict and the lines printed. *)
Definition extract_pt_durations (path : option string) : dict string F * list string :=
  match _parse_root w path with
  | Raises e =>
      ([], ["Warning: skipping malformed XML: " ++ str_of_path path ++ " (" ++ e ++ ")"])
  | Root root => (fold_left add_tripinfo (findall "tripinfo" root) [], [])
  end.

(** One turn of the loop over [os.listdir(simdir)]. *)
Definition add_tripinfo_file (simdir : string)
  (mapping : dict Z (list (Z * string))) (name : string) : dict Z (list (Z * string)) :=
  match TRIPINFO_RE name with
  | None => mapping
  | Some (value, sim) => dict_append value (sim, path_join simdir name) mapping
  end.

(** [discover_value_to_sims(simdir)]. *)
Definition discover_value_to_sims (simdir : string) : dict Z (list (Z * string)) :=
  let mapping := fold_left (add_tripinfo_file simdir) (os_listdir w simdir) [] in
  map (fun kv => (fst kv, sort_by (fun a b => fst a <? fst b) (snd kv))) mapping.

(** The two accumulators of a value, after one more vehicle of one more file. *)
Definition add_duration (acc : dict string F * dict string Z) (kv : string * F)
  : dict string F * dict string Z :=
  let (vessel_to_sum, vessel_to_count) := acc in
  (dict_upd (fst kv) (fun o => fadd (match o with Some s => s | None => f0 end) (snd kv))
     vessel_to_sum,
   dict_upd (fst kv) (fun o => (match o with Some c => c | None => 0 end) + 1) vessel_to_count).

(** One turn of the loop over the files of a value. *)
Definition add_file (st : (dict string F * dict string Z) * list string) (file : Z * string)
  : (dict string F * dict string Z) * list string :=
  let (acc, out) := st in
  let (durs, lines) := extract_pt_durations (Some (snd file)) in
  (fold_left add_duration durs acc, app out lines).

Definition aggregate (per_sim_files : list (Z * string))
  : (dict string F * dict string Z) * list string :=
  fold_left add_file per_sim_files (([], []), []).

(** The loop over [baseline.items()]. *)
Definition delay_rows (baseline : dict string F)
  (vessel_to_sum : dict string F) (vessel_to_count : dict string Z) : list (row F) :=
  flat_map (fun kv =>
              match dict_get (fst kv) vessel_to_sum with
              | None => []
              | Some sum =>
                  let count := match dict_get (fst kv) vessel_to_count with
                               | Some c => c
                               | None => 0
                               end in
                  let avg_dur := fdiv sum (of_int (Z.max 1 count)) in
                  [{| r_vehicle_id := fst kv;
                      r_baseline_duration_s := snd kv;
                      r_avg_duration_s := avg_dur;
                      r_delay_s := fsub avg_dur (snd kv);
                      r_sims_count := count |}]
              end) baseline.

(** The rows of a value, and the lines printed while reading its files. *)
Definition value_rows (baseline : dict string F) (value_to_sims : dict Z (list (Z * string)))
  (value : Z) : list (row F) * list string :=
  let per_sim_files := match dict_get value value_to_sims with Some l => l | None => [] end in
  let (acc, lines) := aggregate per_sim_files in
  (delay_rows baseline (fst acc) (snd acc), lines).

Definition value_sheet (value : Z) (rows : list (row F)) : sheet F :=
  {| sheet_name := str_of_Z value; columns := detail_columns; body := Detail rows |}.

Definition value_summary (value : Z) (rows : list (row F)) : summary_row F :=
  match rows with
  | [] => zero_summary value
  | _ :: _ => summary_of value (describe pd (map r_delay_s rows))
  end.

Definition summary_sheet (summaries : list (summary_row F)) : list (sheet F) :=
  match summaries with
  | [] => []
  | _ :: _ => [{| sheet_name := "summary"; columns := summary_columns;
                  body := Summary (sort_values summaries) |}]
  end.

(** [main()], after [argparse] and [os.makedirs], when no exception escapes:
    what is printed and written once the writer is closed with a sheet in
    the workbook.  The run that finds no value, where the writer raises, is
    in [OldMethodExc.main]. *)
Definition main (a : args) : outcome (list (sheet F)) :=
  let baseline_path := a_baseline a in
  let simdir := a_simdir a in
  let (baseline, out0) := extract_pt_durations (Some baseline_path) in
  match baseline with
  | [] =>
      {| stdout := out0;
         exit_status := 1;
         exit_message := Some ("No baseline PT durations parsed from: " ++ baseline_path);
         workbook := None |}
  | _ :: _ =>
      let value_to_sims := discover_value_to_sims simdir in
      let all_values := sort_by Z.ltb (keys value_to_sims) in
      let per_value := map (value_rows baseline value_to_sims) all_values in
      let tables := combine all_values (map fst per_value) in
      let sheets := map (fun vr => value_sheet (fst vr) (snd vr)) tables in
      let summaries := map (fun vr => value_summary (fst vr) (snd vr)) tables in
      {| stdout := app out0 (app (concat (map snd per_value)) ["Excel written: " ++ a_out a]);
         exit_status := 0;
         exit_message := None;
         workbook := Some (app sheets (summary_sheet summaries)) |}
  end.

End Script.
End OldMethod.

(* ------------------------------------------------------------------ *)
(** ** The arithmetic of a run *)

(** A plain decimal [[+-]digits[.digits]] split into sign, integer digits
    and fraction digits. *)
Definition split_decimal (s : string) : option (bool * string * string) :=
  let (neg, body) :=
    match strip_prefix "-" s with
    | Some r => (true, r)
    | None => match strip_prefix "+" s with
              | Some r => (false, r)
              | None => (false, s)
              end
    end in
  let (ip, r) := span_digits body in
  if String.eqb ip "" then None
  else if String.eqb r "" then Some (neg, ip, "")
  else match strip_prefix "." r with
       | None => None
       | Some r' =>
           let (fp, r'') := span_digits r' in
           if String.eqb r'' "" then Some (neg, ip, fp) else None
       end.

Module IEEE.

Definition float_of_Z (z : Z) : float :=
  if z <? 0 then PrimFloat.opp (PrimFloat.of_uint63 (Uint63.of_Z (- z)))
  else PrimFloat.of_uint63 (Uint63.of_Z z).

(** [float(s)] on the spellings used below: [nan], [inf], [-inf], and plain
    decimals of at most fifteen digits, where the quotient of the two exactly
    represented integers is the correctly rounded value CPython returns.
    Other spellings are outside this instance. *)
Definition parse_float (s : string) : option float :=
  if String.eqb s "nan" then Some PrimFloat.nan
  else if String.eqb s "inf" then Some PrimFloat.infinity
  else if String.eqb s "-inf" then Some PrimFloat.neg_infinity
  else match split_decimal s with
       | None => None
       | Some (neg, ip, fp) =>
           if (15 <? String.length ip + String.length fp)%nat then None
           else
             let x := PrimFloat.div (float_of_Z (int_of_digits (ip ++ fp)))
                                    (float_of_Z (10 ^ Z.of_nat (String.length fp))) in
             Some (if neg then PrimFloat.opp x else x)
       end.

#[global] Instance scalar : Scalar float := {|
  f0 := 0%float;
  fadd := PrimFloat.add;
  fsub := PrimFloat.sub;
  fmul := PrimFloat.mul;
  fdiv := PrimFloat.div;
  flt := PrimFloat.ltb;
  fle := PrimFloat.leb;
  of_int := float_of_Z;
  float_of_string := parse_float
|}.

(** The same arithmetic, with any reading of [float(s)]. *)
Definition with_float (parse : string -> option float) : Scalar float := {|
  f0 := 0%float;
  fadd := PrimFloat.add;
  fsub := PrimFloat.sub;
  fmul := PrimFloat.mul;
  fdiv := PrimFloat.div;
  flt := PrimFloat.ltb;
  fle := PrimFloat.leb;
  of_int := float_of_Z;
  float_of_string := parse
|}.

End IEEE.

(** The value of a finite double, counted in units of 2^-1074 (the smallest
    positive double): sign times mantissa times 2^exponent, every exponent
    of a double being at least -1074.  Infinities and NaN have none. *)
Definition units (x : float) : option Z :=
  match Prim2SF x with
  | S754_zero _ => Some 0
  | S754_finite s m e => Some (cond_Zopp s (Z.pos m) * 2 ^ (e + 1074))
  | _ => None
  end.

(** What a shift record knows of the number [M] it was cut from, [h] being
    the weight of its last kept bit. *)
Definition cut_of (M h : Z) (r : shr_record) : Prop :=
  0 <= shr_m r
  /\ exists t, 2 * (M - shr_m r * h) = (if shr_r r then h else 0) + t
               /\ 0 <= t < h /\ (shr_s r = false <-> t = 0).

(* ------------------------------------------------------------------ *)
(** ** The summarizer *)

Section Summarizer.
Context {F : Type} `{Scalar F}.

(** Modelled from the spec: the percentile of pandas' [describe] (pandas is
    not part of the repository), "linear interpolation between order
    statistics": for the percentile of [tenths]/10 over the sorted values
    [x_0 .. x_{n-1}], with [h = (n-1) * tenths / 10], the value
    [x_i + (h - i) * (x_{i+1} - x_i)] at [i = floor h]. *)
Definition percentile (sorted : list F) (tenths : Z) : F :=
  let m := (Z.of_nat (length sorted) - 1) * tenths in
  let i := Z.to_nat (m / 10) in
  let lo := nth i sorted f0 in
  let hi := nth (S i) sorted lo in
  fadd lo (fmul (fdiv (of_int (m mod 10)) (of_int 10)) (fsub hi lo)).

(** Modelled from the spec: the least value ("min"). *)
Definition minimum (l : list F) : F :=
  match l with
  | [] => f0
  | x :: l' => fold_left (fun m y => if flt y m then y else m) l' x
  end.

(** Modelled from the spec: the greatest value ("max"). *)
Definition maximum (l : list F) : F :=
  match l with
  | [] => f0
  | x :: l' => fold_left (fun m y => if flt m y then y else m) l' x
  end.

(** Modelled from the spec: the arithmetic mean. *)
Definition mean (l : list F) : F :=
  fdiv (fold_left fadd l f0) (of_int (Z.of_nat (length l))).

(** Modelled from the spec: "count, arithmetic mean, median, 10th and 90th
    percentiles (linear interpolation between order statistics), min, and
    max" of a column. *)
Definition describe_spec (l : list F) : described F :=
  let sorted := sort_by flt l in
  {| d_count := Z.of_nat (length l);
     d_mean := mean l;
     d_p50 := percentile sorted 5;
     d_p10 := percentile sorted 1;
     d_p90 := percentile sorted 9;
     d_min := minimum l;
     d_max := maximum l |}.

(** Modelled from the spec: pandas as the specification describes it. *)
Definition pandas_spec : Pandas F :=
  {| describe := describe_spec; series_mean := mean |}.

End Summarizer.

(* ------------------------------------------------------------------ *)
(** ** Views of the model used to state its properties *)

(** [le] orders the elements of [l] the way [lt] says. *)
Definition ordered_by {A : Type} (lt le : A -> A -> bool) (l : list A) : Prop :=
  forall x y, In x l -> In y l -> if lt x y then le x y = true else le y x = true.

Definition opt_list {A : Type} (o : option (list A)) : list A :=
  match o with Some l => l | None => [] end.

(** A boolean test for a strictly ascending list of integers. *)
Fixpoint ascending (l : list Z) : bool :=
  match l with
  | [] => true
  | x :: l' => forallb (fun y => x <? y) l' && ascending l'
  end.

Section ExtractorViews.
Context {F : Type} `{Scalar F}.
Import ExportPtDelay.

(** The identity and delay a [stopinfo] element contributes, if any. *)
Definition stop_record (el : element) : option (string * F) :=
  match stop_id_of el with
  | Some stop_id =>
      if String.eqb stop_id "" then None
      else match float_of_string (match attr "delay" el with Some s => s | None => "0" end) with
           | None => None
           | Some delay => Some (stop_id, delay)
           end
  | None => None
  end.

(** The delays of identity [k], in file order. *)
Definition occurrences (k : string) (els : list element) : list F :=
  flat_map (fun el => match stop_record el with
                      | Some (k', v) => if String.eqb k' k then [v] else []
                      | None => []
                      end) els.

(** No key of the dict under construction holds an empty list. *)
Definition nonempty_values (d : dict string (list F)) : Prop :=
  forall k l, In (k, l) d -> l <> [].

(** The rows of one common stop, as the loop body of [align] emits them. *)
Definition block (value sim : Z) (mixed : dict string (list F)) (kv : string * list F)
  : list (row F) :=
  match dict_get (fst kv) mixed with
  | Some mix_list => stop_rows value sim (fst kv) (snd kv) mix_list
  | None => []
  end.

End ExtractorViews.

Section ExportViews.
Context {F : Type} `{Scalar F}.
Variable w : World.
Import ExportPtDelay.

(** The rows of all value sheets of a workbook, in sheet order. *)
Definition detail_rows (wb : list (sheet F)) : list (row F) :=
  flat_map (fun s => match body s with
                     | Detail rs => map fst rs
                     | Summary _ => []
                     end) wb.

(** The rows of all summary sheets of a workbook. *)
Definition summary_rows (wb : list (sheet F)) : list (summary_row F) :=
  flat_map (fun s => match body s with
                     | Detail _ => []
                     | Summary rs => rs
                     end) wb.

Definition written (o : outcome (list (sheet F))) : list (sheet F) :=
  match workbook o with Some wb => wb | None => [] end.

(** The baselines [main] loads, the files it discovers, the rows of a value. *)
Definition baselines_of (a : args) : dict Z (dict string (list F)) :=
  fst (load_baselines w (a_simdir a) (a_sims a)).

Definition rows_of (a : args) (value : Z) : list (row F) :=
  fst (value_rows w (baselines_of a) (discover w (a_simdir a)) (a_sims a) value).

(** The usable baseline of a sim, and the lines printed while looking for it. *)
Definition baseline_for (simdir : string) (sim : Z) : option (dict string (list F)) :=
  let p := _find_baseline_path w simdir sim in
  if String.eqb p "" then None
  else match fst (parse_stop_delays w (Some p)) with
       | [] => None
       | b => Some b
       end.

Definition baseline_lines (simdir : string) (sim : Z) : list string :=
  let p := _find_baseline_path w simdir sim in
  if String.eqb p "" then
    ["Warning: missing baseline file for sim " ++ str_of_Z sim
     ++ " (looked for stop_events_baseline_" ++ str_of_Z sim
     ++ ".xml and stop_events_0_" ++ str_of_Z sim ++ ".xml)"]
  else match fst (parse_stop_delays w (Some p)) with
       | [] => app (snd (parse_stop_delays w (Some p)))
                   ["Warning: no usable baseline delays in " ++ p]
       | _ => snd (parse_stop_delays w (Some p))
       end.

(** The perturbed file [main] reads for a value and a sim, if it found one. *)
Definition mixed_path (a : args) (value sim : Z) : option string :=
  dict_get sim (match dict_get value (discover w (a_simdir a)) with
                | Some m => m
                | None => []
                end).

End ExportViews.

Section OldMethodViews.
Context {F : Type} `{Scalar F}.
Variable w : World.
Import OldMethod.

(** The durations replicate files report for vehicle [vid], in file order. *)
Definition durations_of (vid : string) (files : list (Z * string)) : list F :=
  flat_map (fun file =>
              match dict_get vid (fst (extract_pt_durations w (Some (snd file)))) with
              | Some d => [d]
              | None => []
              end) files.

Definition or0 (o : option F) : F := match o with Some s => s | None => f0 end.

Definition orZ (o : option Z) : Z := match o with Some c => c | None => 0 end.

(** The running sum and count of one vehicle over a list of durations. *)
Definition sum_from (o : option F) (ds : list F) : option F :=
  fold_left (fun o d => Some (fadd (or0 o) d)) ds o.

Definition count_from (o : option Z) (ds : list F) : option Z :=
  fold_left (fun o _ => Some (orZ o + 1)) ds o.

(** The row of one vehicle, from its baseline duration and its replicate durations. *)
Definition vehicle_row (vid : string) (base_dur : F) (ds : list F) : row F :=
  let avg_dur := fdiv (fold_left fadd ds f0) (of_int (Z.of_nat (length ds))) in
  {| r_vehicle_id := vid;
     r_baseline_duration_s := base_dur;
     r_avg_duration_s := avg_dur;
     r_delay_s := fsub avg_dur base_dur;
     r_sims_count := Z.of_nat (length ds) |}.

Definition vd_detail_rows (wb : list (sheet F)) : list (row F) :=
  flat_map (fun s => match body s with
                     | Detail rs => rs
                     | Summary _ => []
                     end) wb.

Definition vd_summary_rows (wb : list (sheet F)) : list (summary_row F) :=
  flat_map (fun s => match body s with
                     | Detail _ => []
                     | Summary rs => rs
                     end) wb.

Definition vd_written (o : outcome (list (sheet F))) : list (sheet F) :=
  match workbook o with Some wb => wb | None => [] end.

(** The baseline [main] parses, the values it discovers, the files and rows of a value. *)
Definition vd_baseline (a : args) : dict string F :=
  fst (extract_pt_durations w (Some (a_baseline a))).

Definition vd_values (a : args) : list Z :=
  sort_by Z.ltb (keys (discover_value_to_sims w (a_simdir a))).

Definition vd_files (a : args) (value : Z) : list (Z * string) :=
  match dict_get value (discover_value_to_sims w (a_simdir a)) with
  | Some l => l
  | None => []
  end.

Definition vd_rows_of (a : args) (value : Z) : list (row F) :=
  fst (value_rows w (vd_baseline a) (discover_value_to_sims w (a_simdir a)) value).

End OldMethodViews.

(* ------------------------------------------------------------------ *)
(** ** Scenarios *)

(** A directory [dir] that holds the named files and nothing else; a file
    with no tree is one the parser gives up on. *)
Definition world_of (dir : string) (files : list (string * option element)) : World :=
  {| ET_parse := fun path =>
       match path with
       | None => Raises "expected str, bytes or os.PathLike object, not NoneType"
       | Some p =>
           match dict_get p (map (fun nf => (path_join dir (fst nf), snd nf)) files) with
           | Some (Some root) => Root root
           | Some None => Raises "no element found"
           | None => Raises "[Errno 2] No such file or directory"
           end
       end;
     os_path_exists := fun p =>
       existsb (fun nf => String.eqb (path_join dir (fst nf)) p) files;
     os_listdir := fun d => if String.eqb d dir then map fst files else [] |}.

Definition stopinfo (stop delay : string) : element :=
  Element "stopinfo" [("busStop", stop); ("delay", delay)] [].

Definition stops (l : list element) : option element := Some (Element "stops" [] l).

Definition tripinfo (id duration : string) : element :=
  Element "tripinfo" [("id", id); ("duration", duration)] [].

Definition tripinfos (l : list element) : option element := Some (Element "tripinfos" [] l).

(** Stop "A" with delays 10 and 20 in the baseline, 12 and 21 in the mixed run. *)
Definition two_stops_world : World :=
  world_of "/sim"
    [("stop_events_baseline_1.xml", stops [stopinfo "A" "20.0"; stopinfo "A" "10.0"]);
     ("stop_events_1000_1.xml", stops [stopinfo "A" "12.0"; stopinfo "A" "21.0"])].

Definition two_stops_base : dict string (list float) :=
  fst (ExportPtDelay.parse_stop_delays two_stops_world (Some "/sim/stop_events_baseline_1.xml")).

Definition two_stops_mixed : dict string (list float) :=
  fst (ExportPtDelay.parse_stop_delays two_stops_world (Some "/sim/stop_events_1000_1.xml")).

(** Stop "S1" through [busStop] and through [stop], with a missing and an
    unreadable delay among its records. *)
Definition mixed_spellings_world : World :=
  world_of "/sim"
    [("stop_events_2000_1.xml",
      stops [Element "stopinfo" [("busStop", "S1"); ("delay", "3.0")] [];
             Element "stopinfo" [("stop", "S1"); ("delay", "1.5")] [];
             Element "stopinfo" [("busStop", "S1")] [];
             Element "stopinfo" [("busStop", "S1"); ("delay", "abc")] []])].

(** Stop "A" with a NaN delay ahead of a delay of one second. *)
Definition nan_world : World :=
  world_of "/sim" [("stop_events_1000_1.xml", stops [stopinfo "A" "nan"; stopinfo "A" "1.0"])].

(** Stop "S1" with a NaN delay ahead of half a second. *)
Definition nan_first_world : World :=
  world_of "/sim" [("stop_events_2000_1.xml", stops [stopinfo "S1" "nan"; stopinfo "S1" "0.5"])].

(** Baseline delay 0.1 s and mixed delay 0.5 s at stop "A". *)
Definition tenths_world : World :=
  world_of "/sim"
    [("stop_events_baseline_1.xml", stops [stopinfo "A" "0.1"]);
     ("stop_events_1000_1.xml", stops [stopinfo "A" "0.5"])].

Definition tenths_args : ExportPtDelay.args :=
  {| ExportPtDelay.a_simdir := "/sim"; ExportPtDelay.a_sims := 1;
     ExportPtDelay.a_out := "out.xlsx" |}.

(** A simulation directory with no file in it. *)
Definition empty_world : World := world_of "/sim" [].

Definition two_sims_args : ExportPtDelay.args :=
  {| ExportPtDelay.a_simdir := "/sim"; ExportPtDelay.a_sims := 2;
     ExportPtDelay.a_out := "out.xlsx" |}.


Definition three_sims_args : ExportPtDelay.args :=
  {| ExportPtDelay.a_simdir := "/sim"; ExportPtDelay.a_sims := 3;
     ExportPtDelay.a_out := "out.xlsx" |}.

(** Vehicle "bus_1" takes 100 s in the baseline and 110 s and 130 s in the two
    replicates of value 5000; value 7000 has one replicate, which reports
    only a vehicle the baseline does not know. *)
Definition bus_world : World :=
  world_of "/sim"
    [("tripinfo.xml", tripinfos [tripinfo "bus_1" "100.0"]);
     ("4_7000_1_run_sim_output.xml", tripinfos [tripinfo "bus_9" "50.0"]);
     ("4_5000_2_run_sim_output.xml", tripinfos [tripinfo "bus_1" "130.0"]);
     ("4_5000_1_run_sim_output.xml", tripinfos [tripinfo "bus_1" "110.0"])].

Definition bus_args : OldMethod.args :=
  {| OldMethod.a_baseline := "/sim/tripinfo.xml"; OldMethod.a_simdir := "/sim";
     OldMethod.a_sims := 2; OldMethod.a_out := "out.xlsx" |}.

(** The explicit baseline of sim 1 cannot be parsed; the legacy baseline of
    that sim and its perturbed file of value 1000 are fine. *)
Definition unusable_explicit_world : World :=
  world_of "/sim"
    [("stop_events_baseline_1.xml", None);
     ("stop_events_0_1.xml", stops [stopinfo "A" "10.0"]);
     ("stop_events_1000_1.xml", stops [stopinfo "A" "12.0"])].

(** The first replicate of value 5000 is an empty file, which the parser of
    the standard library rejects; the second reports "bus_1" with 130 s. *)
Definition broken_replicate_world : World :=
  {| ET_parse := fun path =>
       match path with
       | Some "/sim/tripinfo.xml" => Root (Element "tripinfos" [] [tripinfo "bus_1" "100.0"])
       | Some "/sim/4_5000_1_run_sim_output.xml" => Raises "no element found: line 1, column 0"
       | Some "/sim/4_5000_2_run_sim_output.xml" =>
           Root (Element "tripinfos" [] [tripinfo "bus_1" "130.0"])
       | Some p => Raises ("[Errno 2] No such file or directory: '" ++ p ++ "'")
       | None => Raises "expected str, bytes or os.PathLike object, not NoneType"
       end;
     os_path_exists := fun p =>
       existsb (String.eqb p)
         ["/sim/tripinfo.xml"; "/sim/4_5000_1_run_sim_output.xml";
          "/sim/4_5000_2_run_sim_output.xml"];
     os_listdir := fun d =>
       if String.eqb d "/sim"
       then ["tripinfo.xml"; "4_5000_1_run_sim_output.xml"; "4_5000_2_run_sim_output.xml"]
       else [] |}.

(** The baseline of the vehicle-duration scenario and no replicate file. *)
Definition baseline_only_world : World :=
  world_of "/sim" [("tripinfo.xml", tripinfos [tripinfo "bus_1" "100.0"])].

(** Baseline delay 1 s and an unbounded mixed delay at stop "A". *)
Definition unbounded_world : World :=
  world_of "/sim"
    [("stop_events_baseline_1.xml", stops [stopinfo "A" "1.0"]);
     ("stop_events_1000_1.xml", stops [stopinfo "A" "inf"])].

(** The scenario of the missing replicate, where the perturbed file of sim 3
    at value 5000 now exists and holds no element: a simulation output cut
    off after its first line. *)
Definition rootless_replicate_world : World :=
  world_of "/sim"
    [("stop_events_baseline_1.xml", stops [stopinfo "A" "10.0"]);
     ("stop_events_baseline_2.xml", stops [stopinfo "A" "11.0"]);
     ("stop_events_baseline_3.xml", stops [stopinfo "A" "12.0"]);
     ("stop_events_5000_1.xml", stops [stopinfo "A" "13.0"]);
     ("stop_events_5000_2.xml", stops [stopinfo "A" "15.0"]);
     ("stop_events_5000_3.xml", None)].

(* ------------------------------------------------------------------ *)
(** ** Views of the file names, the discovery loops and the duration extractor *)

(** The last element of a list, if it has one. *)
Fixpoint last_opt {A : Type} (l : list A) : option A :=
  match l with
  | [] => None
  | [x] => Some x
  | _ :: l' => last_opt l'
  end.

(** The distinct elements of [l], each where it occurs first. *)
Definition first_seen (l : list string) : list string :=
  rev (nodup string_dec (rev l)).

(** Decimal digits only. *)
Definition all_digits (s : string) : bool :=
  forallb is_digit (list_ascii_of_string s).

(** A run of decimal digits that is not empty: what [\d+] takes. *)
Definition digits (s : string) : bool :=
  negb (String.eqb s "") && all_digits s.

(** ASCII characters only. *)
Definition ascii_only (s : string) : bool :=
  forallb (fun c => (nat_of_ascii c <? 128)%nat) (list_ascii_of_string s).

(** [s] does not go on with a decimal digit. *)
Definition no_digit_ahead (s : string) : bool :=
  match s with
  | String c _ => negb (is_digit c)
  | EmptyString => true
  end.

(** The paths [main] of the stop-delay report stores for a value and a sim
    while it walks through [names], in listing order. *)
Definition mixed_matches (simdir : string) (value sim : Z) (names : list string) : list string :=
  flat_map (fun name =>
              match ExportPtDelay.STOP_MIXED_RE name with
              | Some (v, s) => if (v =? value) && (s =? sim) then [path_join simdir name] else []
              | None => []
              end) names.

(** The (sim, path) pairs [discover_value_to_sims] appends for a value while
    it walks through [names], in listing order. *)
Definition tripinfo_matches (simdir : string) (value : Z) (names : list string)
  : list (Z * string) :=
  flat_map (fun name =>
              match OldMethod.TRIPINFO_RE name with
              | Some (v, s) => if v =? value then [(s, path_join simdir name)] else []
              | None => []
              end) names.

Section DurationViews.
Context {F : Type} `{Scalar F}.
Import OldMethod.

(** The vehicle and duration a [tripinfo] element contributes, if any. *)
Definition trip_record (el : element) : option (string * F) :=
  match py_or (py_or (attr "id" el) (attr "tripid" el)) (Some "") with
  | None => None
  | Some vid =>
      if String.eqb vid "" then None
      else
        let vtype := py_or (attr "vType" el) (attr "vtype" el) in
        let is_bus := match vtype with
                      | Some t => contains "bus" (lower t)
                      | None => negb (isdigit vid)
                      end in
        if negb is_bus then None
        else match duration_of el with
             | None => None
             | Some dur => if fle dur f0 then None else Some (vid, dur)
             end
  end.

(** The durations the elements report for vehicle [vid], in file order. *)
Definition trip_occurrences (vid : string) (els : list element) : list F :=
  flat_map (fun el => match trip_record el with
                      | Some (k, d) => if String.eqb k vid then [d] else []
                      | None => []
                      end) els.

(** The identities of the records the elements contribute, in file order. *)
Definition trip_ids (els : list element) : list string :=
  flat_map (fun el => match trip_record el with
                      | Some (k, _) => [k]
                      | None => []
                      end) els.

Definition stop_ids (els : list element) : list string :=
  flat_map (fun el => match stop_record el with
                      | Some (k, _) => [k]
                      | None => []
                      end) els.

End DurationViews.

Section ReplicateViews.
Context {F : Type} `{Scalar F}.
Variable w : World.

(** Whether a replicate file reports vehicle [vid]. *)
Definition reports (vid : string) (file : Z * string) : bool :=
  match dict_get vid (fst (OldMethod.extract_pt_durations w (Some (snd file)))) with
  | Some _ => true
  | None => false
  end.

End ReplicateViews.

(* ------------------------------------------------------------------ *)
(** ** The runs, with the exceptions that nothing catches *)

(** The modules [ExportPtDelay] and [OldMethod] describe a run in which every
    call of the parser raises or returns a root element and the workbook is
    closed with a sheet in it.  Two things can happen besides, and either
    ends the run with an uncaught exception (a traceback on standard error,
    exit status 1):
    - lxml, which both scripts prefer, parses with [recover=True] and can
      return a tree that has no root element.  [_parse_root] then returns
      [None] without raising, the [try] of the extractor is left, and
      [root.findall] raises [AttributeError].  [no_root p] says that the
      parser finds no root in the file [p]; it is false of every path when
      lxml is not installed.
    - the workbook writer raises [IndexError] when it is closed with no sheet
      written, which the vehicle-duration script does when no file name
      gives a value.
    The modules [ExportPtDelayExc] and [OldMethodExc] are the two scripts
    with these exceptions. *)

(** What [_parse_root(path)] does: raise, return [None], return a root. *)
Inductive tree : Type :=
| ParseError (e : string)
| NoRoot
| HasRoot (root : element).

(** A call that an exception can leave. *)
Inductive attempt (A : Type) : Type :=
| Returns (a : A)
| Escapes.
Arguments Returns {A}. Arguments Escapes {A}.

(** A loop under way, with the lines printed so far; or the lines printed
    before the exception that left it. *)
Inductive progress (A : Type) : Type :=
| Going (a : A) (out : list string)
| Dead (out : list string).
Arguments Going {A}. Arguments Dead {A}.

(** How a run ends: [main] returns or raises [SystemExit]; or an exception
    that nothing catches ends it, after the lines [out]. *)
Inductive ending (B : Type) : Type :=
| Ended (o : outcome B)
| Died (out : list string).
Arguments Ended {B}. Arguments Died {B}.

Definition status {B : Type} (e : ending B) : Z :=
  match e with
  | Ended o => exit_status o
  | Died _ => 1
  end.

Definition printed {B : Type} (e : ending B) : list string :=
  match e with
  | Ended o => stdout o
  | Died out => out
  end.

(** [_parse_root(path)] with lxml's third answer. *)
Definition parse_tree (w : World) (no_root : string -> bool) (path : option string) : tree :=
  let answer := match _parse_root w path with
                | Raises e => ParseError e
                | Root root => HasRoot root
                end in
  match path with
  | Some p => if no_root p then NoRoot else answer
  | None => answer
  end.

(** Whether the parser finds no root for the argument of [_parse_root]. *)
Definition rootless (no_root : string -> bool) (path : option string) : bool :=
  match path with
  | Some p => no_root p
  | None => false
  end.

(** The standard-library parser, or lxml on files that all have a root. *)
Definition every_root (p : string) : bool := false.

(** lxml on the scenario whose perturbed file of sim 3 at value 5000 holds
    no element. *)
Definition rootless_5000_3 (p : string) : bool :=
  String.eqb p "/sim/stop_events_5000_3.xml".

(** The lines of a loop, under way or left. *)
Definition lines_of {A : Type} (st : progress A) : list string :=
  match st with
  | Going _ out => out
  | Dead out => out
  end.

(** A line that starts as the warnings of the two scripts do. *)
Definition is_warning (line : string) : bool := String.prefix "Warning: " line.

Module ExportPtDelayExc.
Import ExportPtDelay.

Section Script.
Context {F : Type} `{Scalar F}.
Variable w : World.
Variable no_root : string -> bool.
Variable pd : Pandas F.

(** [parse_stop_delays(path)]: the dict and the lines printed, unless
    [root.findall] raises on [None]. *)
Definition parse_stop_delays (path : option string)
  : attempt (dict string (list F) * list string) :=
  match parse_tree w no_root path with
  | ParseError e =>
      Returns ([], ["Warning: skipping malformed XML: " ++ str_of_path path ++ " (" ++ e ++ ")"])
  | NoRoot => Escapes
  | HasRoot root =>
      let delays := fold_left add_stopinfo (findall "stopinfo" root) [] in
      Returns (map (fun kv => (fst kv, sort_by flt (snd kv))) delays, [])
  end.

(** One turn of the loop that loads the baselines. *)
Definition load_baseline (simdir : string)
  (st : progress (dict Z (dict string (list F)))) (sim : Z)
  : progress (dict Z (dict string (list F))) :=
  match st with
  | Dead out => Dead out
  | Going baselines out =>
      let p := _find_baseline_path w simdir sim in
      if String.eqb p "" then
        Going baselines
          (app out ["Warning: missing baseline file for sim " ++ str_of_Z sim
                    ++ " (looked for stop_events_baseline_" ++ str_of_Z sim
                    ++ ".xml and stop_events_0_" ++ str_of_Z sim ++ ".xml)"])
      else
        match parse_stop_delays (Some p) with
        | Escapes => Dead out
        | Returns (b, lines) =>
            match b with
            | [] => Going baselines
                      (app out (app lines ["Warning: no usable baseline delays in " ++ p]))
            | _ :: _ => Going (dict_set sim b baselines) (app out lines)
            end
        end
  end.

Definition load_baselines (simdir : string) (sims : Z)
  : progress (dict Z (dict string (list F))) :=
  fold_left (load_baseline simdir) (range 1 (sims + 1)) (Going [] []).

(** One turn of the loop over the sims of a value. *)
Definition add_sim (baselines : dict Z (dict string (list F)))
  (value_to_simpaths : dict Z (dict Z string)) (value : Z)
  (st : progress (list (row F))) (sim : Z) : progress (list (row F)) :=
  match st with
  | Dead out => Dead out
  | Going rows out =>
      let path := dict_get sim (match dict_get value value_to_simpaths with
                                | Some m => m
                                | None => []
                                end) in
      match parse_stop_delays path with
      | Escapes => Dead out
      | Returns (mixed, lines) =>
          match dict_get sim baselines with
          | None => Going rows (app out lines)
          | Some [] => Going rows (app out lines)
          | Some base => Going (app rows (align value sim base mixed)) (app out lines)
          end
      end
  end.

(** One turn of the loop over the values: the rows of the value are
    collected, then its sheet and its summary entry are made. *)
Definition add_value (baselines : dict Z (dict string (list F)))
  (value_to_simpaths : dict Z (dict Z string)) (sims : Z)
  (st : progress (list (Z * list (row F)))) (value : Z)
  : progress (list (Z * list (row F))) :=
  match st with
  | Dead out => Dead out
  | Going tables out =>
      match fold_left (add_sim baselines value_to_simpaths value)
                      (range 1 (sims + 1)) (Going [] out) with
      | Dead out' => Dead out'
      | Going rows out' => Going (app tables [(value, rows)]) out'
      end
  end.

(** [main()], after [argparse], with the exception that can leave the two
    loops. *)
Definition main (a : args) : ending (list (sheet F)) :=
  let simdir := a_simdir a in
  match load_baselines simdir (a_sims a) with
  | Dead out => Died out
  | Going baselines out1 =>
      let value_to_simpaths := discover w simdir in
      match fold_left (add_value baselines value_to_simpaths (a_sims a))
                      _generate_values (Going [] out1) with
      | Dead out => Died out
      | Going tables out =>
          let sheets := map (fun vr => value_sheet pd (fst vr) (snd vr)) tables in
          let summaries := map (fun vr => value_summary pd (fst vr) (snd vr)) tables in
          Ended {| stdout := app out ["Excel written: " ++ a_out a];
                   exit_status := 0;
                   exit_message := None;
                   workbook := Some (app sheets (summary_sheet summaries)) |}
      end
  end.

End Script.
End ExportPtDelayExc.

Module OldMethodExc.
Import OldMethod.

Section Script.
Context {F : Type} `{Scalar F}.
Variable w : World.
Variable no_root : string -> bool.
Variable pd : Pandas F.

(** [extract_pt_durations(path)]: the dict and the lines printed, unless
    [root.findall] raises on [None]. *)
Definition extract_pt_durations (path : option string)
  : attempt (dict string F * list string) :=
  match parse_tree w no_root path with
  | ParseError e =>
      Returns ([], ["Warning: skipping malformed XML: " ++ str_of_path path ++ " (" ++ e ++ ")"])
  | NoRoot => Escapes
  | HasRoot root => Returns (fold_left add_tripinfo (findall "tripinfo" root) [], [])
  end.

(** One turn of the loop over the files of a value. *)
Definition add_file (st : progress (dict string F * dict string Z)) (file : Z * string)
  : progress (dict string F * dict string Z) :=
  match st with
  | Dead out => Dead out
  | Going acc out =>
      match extract_pt_durations (Some (snd file)) with
      | Escapes => Dead out
      | Returns (durs, lines) => Going (fold_left add_duration durs acc) (app out lines)
      end
  end.

(** One turn of the loop over the values. *)
Definition add_value (baseline : dict string F) (value_to_sims : dict Z (list (Z * string)))
  (st : progress (list (Z * list (row F)))) (value : Z)
  : progress (list (Z * list (row F))) :=
  match st with
  | Dead out => Dead out
  | Going tables out =>
      let per_sim_files := match dict_get value value_to_sims with
                           | Some l => l
                           | None => []
                           end in
      match fold_left add_file per_sim_files (Going ([], []) out) with
      | Dead out' => Dead out'
      | Going acc out' =>
          Going (app tables [(value, delay_rows baseline (fst acc) (snd acc))]) out'
      end
  end.

(** [main()], after [argparse] and [os.makedirs].  The writer is closed at
    the end of the [with] block: with no sheet in the workbook it raises
    [IndexError], and the closing line is not reached. *)
Definition main (a : args) : ending (list (sheet F)) :=
  let baseline_path := a_baseline a in
  let simdir := a_simdir a in
  match extract_pt_durations (Some baseline_path) with
  | Escapes => Died []
  | Returns ([], out0) =>
      Ended {| stdout := out0;
               exit_status := 1;
               exit_message := Some ("No baseline PT durations parsed from: " ++ baseline_path);
               workbook := None |}
  | Returns (baseline, out0) =>
      let value_to_sims := discover_value_to_sims w simdir in
      let all_values := sort_by Z.ltb (keys value_to_sims) in
      match fold_left (add_value baseline value_to_sims) all_values (Going [] out0) with
      | Dead out => Died out
      | Going tables out =>
          let sheets := map (fun vr => value_sheet (fst vr) (snd vr)) tables in
          let summaries := map (fun vr => value_summary pd (fst vr) (snd vr)) tables in
          match sheets with
          | [] => Died out
          | _ :: _ =>
              Ended {| stdout := app out ["Excel written: " ++ a_out a];
                       exit_status := 0;
                       exit_message := None;
                       workbook := Some (app sheets (summary_sheet summaries)) |}
          end
      end
  end.

End Script.
End OldMethodExc.

(* ================================================================== *)
(** * Properties *)

(** ** Dicts *)

Section DictFacts.
Context {K V : Type} `{Key K}.

Lemma keqb_refl (k : K) : keqb k k = true.
Proof. now apply keqb_spec. Qed.

Lemma keqb_neq (k k' : K) : k <> k' -> keqb k k' = false.
Proof.
  intro N. destruct (keqb k k') eqn:E; [|reflexivity].
  apply keqb_spec in E. contradiction.
Qed.

Lemma dict_get_None (k : K) (d : dict K V) :
  dict_get k d = None <-> ~ In k (keys d).
Proof.
  induction d as [|[k' v] d IH]; simpl.
  - tauto.
  - destruct (keqb k' k) eqn:E.
    + apply keqb_spec in E. split; [discriminate | intro N; exfalso; apply N; now left].
    + rewrite IH. split.
      * intros N [E'|I]; [|tauto]. subst. rewrite keqb_refl in E. discriminate.
      * tauto.
Qed.

Lemma dict_get_In (k : K) (v : V) (d : dict K V) :
  dict_get k d = Some v -> In (k, v) d.
Proof.
  induction d as [|[k' v'] d IH]; simpl; [discriminate|].
  destruct (keqb k' k) eqn:E.
  - apply keqb_spec in E. intros [= ->]. subst. now left.
  - intro G. right. now apply IH.
Qed.

Lemma keys_dict_upd (k : K) (f : option V -> V) (d : dict K V) :
  keys (dict_upd k f d) =
  match dict_get k d with Some _ => keys d | None => (keys d ++ [k])%list end.
Proof.
  unfold keys. induction d as [|[k' v] d IH]; simpl; [reflexivity|].
  destruct (keqb k' k) eqn:E; simpl; [reflexivity|].
  rewrite IH. now destruct (dict_get k d).
Qed.

Lemma NoDup_dict_upd (k : K) (f : option V -> V) (d : dict K V) :
  NoDup (keys d) -> NoDup (keys (dict_upd k f d)).
Proof.
  intro N. rewrite keys_dict_upd. destruct (dict_get k d) eqn:G; [assumption|].
  apply dict_get_None in G.
  apply NoDup_rev in N. rewrite <- (rev_involutive (keys d ++ [k])).
  apply NoDup_rev. rewrite rev_app_distr. simpl. constructor; [|assumption].
  now rewrite <- in_rev.
Qed.

Lemma dict_get_upd_same (k : K) (f : option V -> V) (d : dict K V) :
  dict_get k (dict_upd k f d) = Some (f (dict_get k d)).
Proof.
  induction d as [|[k' v] d IH]; simpl.
  - now rewrite keqb_refl.
  - destruct (keqb k' k) eqn:E; simpl; rewrite E; [reflexivity | assumption].
Qed.

Lemma dict_get_upd_other (k k0 : K) (f : option V -> V) (d : dict K V) :
  k <> k0 -> dict_get k0 (dict_upd k f d) = dict_get k0 d.
Proof.
  intro N. induction d as [|[k' v] d IH]; simpl.
  - now rewrite keqb_neq.
  - destruct (keqb k' k) eqn:E; simpl.
    + apply keqb_spec in E. subst k'. now rewrite keqb_neq.
    + now rewrite IH.
Qed.

Lemma In_dict_upd (k : K) (f : option V -> V) (d : dict K V) (k0 : K) (v0 : V) :
  In (k0, v0) (dict_upd k f d) -> In (k0, v0) d \/ (k0 = k /\ v0 = f (dict_get k d)).
Proof.
  induction d as [|[k' v] d IH]; simpl.
  - intros [[= <- <-]|[]]. now right.
  - destruct (keqb k' k) eqn:E; simpl.
    + apply keqb_spec in E. subst k'. intros [[= <- <-]|I]; [now right | left; now right].
    + intros [E'|I]; [left; now left|].
      destruct (IH I) as [I'|R]; [left; now right | now right].
Qed.

End DictFacts.

Lemma keys_map_values {K A B : Type} (g : A -> B) (d : dict K A) :
  keys (map (fun kv => (fst kv, g (snd kv))) d) = keys d.
Proof. unfold keys. rewrite map_map. reflexivity. Qed.

Lemma dict_get_map {K A B : Type} `{Key K} (g : A -> B) (k : K) (d : dict K A) :
  dict_get k (map (fun kv => (fst kv, g (snd kv))) d) = option_map g (dict_get k d).
Proof.
  induction d as [|[k' v] d IH]; simpl; [reflexivity|].
  now destruct (keqb k' k).
Qed.

(** ** Sorting *)

Section SortFacts.
Context {A : Type} (lt : A -> A -> bool).

Lemma insort_perm (x : A) (l : list A) : Permutation (x :: l) (insort lt x l).
Proof.
  induction l as [|y l IH]; simpl; [reflexivity|].
  destruct (lt x y); [reflexivity|].
  rewrite perm_swap. now constructor.
Qed.

Lemma fold_insort_perm (l acc : list A) :
  Permutation (l ++ acc) (fold_left (fun a x => insort lt x a) l acc).
Proof.
  revert acc. induction l as [|x l IH]; intro acc; simpl; [reflexivity|].
  rewrite <- IH. rewrite <- insort_perm. apply Permutation_middle.
Qed.

Lemma sort_by_perm (l : list A) : Permutation l (sort_by lt l).
Proof.
  unfold sort_by. rewrite <- fold_insort_perm. now rewrite app_nil_r.
Qed.

Lemma sort_by_length (l : list A) : length (sort_by lt l) = length l.
Proof. symmetry. apply Permutation_length, sort_by_perm. Qed.

Lemma sort_by_nil (l : list A) : sort_by lt l = [] -> l = [].
Proof.
  intro E. apply length_zero_iff_nil. rewrite <- sort_by_length, E. reflexivity.
Qed.

Lemma insort_sorted (le : A -> A -> bool) (x : A) (l : list A) :
  ordered_by lt le (x :: l) ->
  Sorted (fun a b => le a b = true) l ->
  Sorted (fun a b => le a b = true) (insort lt x l).
Proof.
  intros O S. induction S as [|y l S IH Hd]; simpl.
  - repeat constructor.
  - pose proof (O x y (or_introl eq_refl) (or_intror (or_introl eq_refl))) as Oxy.
    destruct (lt x y) eqn:E.
    + constructor; [now constructor | now constructor].
    + constructor.
      * apply IH. intros a b Ia Ib. apply O; simpl in *; tauto.
      * destruct l as [|z l]; simpl.
        -- now constructor.
        -- destruct (lt x z); constructor; [assumption|]. now inversion Hd.
Qed.

Lemma fold_insort_sorted (le : A -> A -> bool) (l acc : list A) :
  ordered_by lt le (l ++ acc) ->
  Sorted (fun a b => le a b = true) acc ->
  Sorted (fun a b => le a b = true) (fold_left (fun a x => insort lt x a) l acc).
Proof.
  revert acc. induction l as [|x l IH]; intros acc O S; simpl; [assumption|].
  apply IH.
  - intros a b Ia Ib. apply O.
    + apply in_app_or in Ia. destruct Ia as [Ia|Ia].
      * right. apply in_or_app. now left.
      * apply (Permutation_in _ (Permutation_sym (insort_perm x acc))) in Ia.
        destruct Ia as [->|Ia]; [now left | right; apply in_or_app; now right].
    + apply in_app_or in Ib. destruct Ib as [Ib|Ib].
      * right. apply in_or_app. now left.
      * apply (Permutation_in _ (Permutation_sym (insort_perm x acc))) in Ib.
        destruct Ib as [->|Ib]; [now left | right; apply in_or_app; now right].
  - apply insort_sorted; [|assumption].
    intros a b Ia Ib. apply O; simpl in *.
    + destruct Ia as [->|Ia]; [now left | right; apply in_or_app; now right].
    + destruct Ib as [->|Ib]; [now left | right; apply in_or_app; now right].
Qed.

Lemma sort_by_sorted (le : A -> A -> bool) (l : list A) :
  ordered_by lt le l -> Sorted (fun a b => le a b = true) (sort_by lt l).
Proof.
  intro O. unfold sort_by. apply fold_insort_sorted; [|constructor].
  now rewrite app_nil_r.
Qed.

End SortFacts.

(** ** The stop-delay extractor *)

Section ExtractorFacts.
Context {F : Type} `{Scalar F}.
Import ExportPtDelay.

Lemma add_stopinfo_record (d : dict string (list F)) (el : element) :
  add_stopinfo d el =
  match stop_record el with
  | Some (k, v) => dict_append k v d
  | None => d
  end.
Proof.
  unfold add_stopinfo, stop_record.
  destruct (stop_id_of el) as [s|]; [|reflexivity].
  destruct (String.eqb s ""); [reflexivity|].
  now destruct (float_of_string _).
Qed.

Lemma dict_append_get (k k0 : string) (v : F) (d : dict string (list F)) :
  opt_list (dict_get k0 (dict_append k v d)) =
  (opt_list (dict_get k0 d) ++ (if String.eqb k k0 then [v] else []))%list.
Proof.
  unfold dict_append. destruct (String.eqb k k0) eqn:E.
  - apply String.eqb_eq in E. subst k0. rewrite dict_get_upd_same.
    destruct (dict_get k d); reflexivity.
  - apply String.eqb_neq in E. rewrite dict_get_upd_other by assumption.
    now rewrite app_nil_r.
Qed.

Lemma fold_add_stopinfo_get (k : string) (els : list element) (d : dict string (list F)) :
  opt_list (dict_get k (fold_left add_stopinfo els d))
  = (opt_list (dict_get k d) ++ occurrences k els)%list.
Proof.
  revert d. induction els as [|el els IH]; intro d; simpl.
  - now rewrite app_nil_r.
  - rewrite IH, add_stopinfo_record. unfold occurrences at 2. simpl.
    fold (occurrences k els).
    destruct (stop_record el) as [[k' v]|]; [|reflexivity].
    rewrite dict_append_get, <- app_assoc. reflexivity.
Qed.

Lemma dict_append_nonempty (k : string) (v : F) (d : dict string (list F)) :
  nonempty_values d -> nonempty_values (dict_append k v d).
Proof.
  intros N k0 l I. apply In_dict_upd in I. destruct I as [I|[_ ->]].
  - now apply (N k0).
  - destruct (dict_get k d) as [l0|]; [destruct l0|]; discriminate.
Qed.

Lemma fold_add_stopinfo_inv (els : list element) (d : dict string (list F)) :
  NoDup (keys d) -> nonempty_values d ->
  NoDup (keys (fold_left add_stopinfo els d))
  /\ nonempty_values (fold_left add_stopinfo els d).
Proof.
  revert d. induction els as [|el els IH]; intros d N E; simpl; [now split|].
  apply IH; rewrite add_stopinfo_record; destruct (stop_record el) as [[k v]|]; trivial.
  - now apply NoDup_dict_upd.
  - now apply dict_append_nonempty.
Qed.

Lemma parsed_delays_get (els : list element) (k : string) :
  dict_get k (fold_left add_stopinfo els []) =
  match occurrences k els with
  | [] => None
  | _ :: _ => Some (occurrences k els)
  end.
Proof.
  pose proof (fold_add_stopinfo_get k els []) as G. simpl in G.
  destruct (fold_add_stopinfo_inv els []) as [_ NE]; [constructor | intros ? ? [] |].
  destruct (dict_get k (fold_left add_stopinfo els [])) as [l|] eqn:E; simpl in G.
  - rewrite <- G. destruct l; [|reflexivity].
    apply dict_get_In in E. now apply NE in E.
  - now rewrite <- G.
Qed.

Lemma parse_stop_delays_raises (w : World) (path : option string) (e : string) :
  _parse_root w path = Raises e ->
  parse_stop_delays w path
  = ([], ["Warning: skipping malformed XML: " ++ str_of_path path ++ " (" ++ e ++ ")"]).
Proof. unfold parse_stop_delays. now intros ->. Qed.

Lemma parse_stop_delays_root (w : World) (path : option string) (root : element) :
  _parse_root w path = Root root ->
  parse_stop_delays w path
  = (map (fun kv => (fst kv, sort_by flt (snd kv)))
         (fold_left add_stopinfo (findall "stopinfo" root) []), []).
Proof. unfold parse_stop_delays. now intros ->. Qed.

Lemma parse_stop_delays_get (w : World) (path : option string) (root : element) (k : string) :
  _parse_root w path = Root root ->
  dict_get k (fst (parse_stop_delays w path)) =
  match occurrences k (findall "stopinfo" root) with
  | [] => None
  | _ :: _ => Some (sort_by flt (occurrences k (findall "stopinfo" root)))
  end.
Proof.
  intro R. rewrite (parse_stop_delays_root _ _ _ R). simpl.
  rewrite (dict_get_map (sort_by flt)), parsed_delays_get.
  now destruct (occurrences k (findall "stopinfo" root)).
Qed.

Lemma parse_stop_delays_NoDup (w : World) (path : option string) :
  NoDup (keys (fst (parse_stop_delays w path))).
Proof.
  unfold parse_stop_delays. destruct (_parse_root w path) as [e|root]; simpl.
  - constructor.
  - rewrite keys_map_values. apply fold_add_stopinfo_inv; [constructor | intros ? ? []].
Qed.

Lemma parse_stop_delays_values (w : World) (path : option string) (k : string) (l : list F) :
  In (k, l) (fst (parse_stop_delays w path)) ->
  exists l0, l0 <> [] /\ l = sort_by flt l0.
Proof.
  unfold parse_stop_delays. destruct (_parse_root w path) as [e|root]; simpl; [tauto|].
  intro I. apply in_map_iff in I. destruct I as [[k0 l0] [E I]]. simpl in E.
  injection E as <- <-. exists l0. split; [|reflexivity].
  destruct (fold_add_stopinfo_inv (findall "stopinfo" root) []) as [_ NE];
    [constructor | intros ? ? [] |].
  now apply (NE k0).
Qed.

End ExtractorFacts.

(** ** The aligner *)

Section AlignerFacts.
Context {F : Type} `{Scalar F}.
Import ExportPtDelay.

Lemma stop_rows_nil_r (value sim : Z) (k : string) (bl : list F) :
  stop_rows value sim k bl [] = [].
Proof. unfold stop_rows. simpl. now rewrite Nat.min_0_r. Qed.

Lemma align_blocks (value sim : Z) (base mixed : dict string (list F)) :
  align value sim base mixed = flat_map (block value sim mixed) base.
Proof.
  unfold align. apply flat_map_ext. intros [k bl]. unfold block. simpl.
  destruct (dict_get k mixed) as [[|m ml]|]; trivial.
  now rewrite stop_rows_nil_r.
Qed.

Lemma stop_rows_length (value sim : Z) (k : string) (bl ml : list F) :
  length (stop_rows value sim k bl ml) = Nat.min (length bl) (length ml).
Proof. unfold stop_rows. now rewrite length_map, length_seq. Qed.

Lemma stop_rows_nth (value sim : Z) (k : string) (bl ml : list F) (i : nat) :
  (i < Nat.min (length bl) (length ml))%nat ->
  nth_error (stop_rows value sim k bl ml) i =
  Some {| r_value := value; r_sim := sim; r_stop := k;
          r_occurrence := Z.of_nat i + 1;
          r_delay_baseline_s := nth i bl f0;
          r_delay_mixed_s := nth i ml f0;
          r_delay_delta_s := fsub (nth i ml f0) (nth i bl f0) |}.
Proof.
  intro L. unfold stop_rows. rewrite nth_error_map.
  rewrite (nth_error_nth' _ 0%nat) by now rewrite length_seq.
  now rewrite seq_nth.
Qed.

Lemma stop_rows_In (value sim : Z) (k : string) (bl ml : list F) (r : row F) :
  In r (stop_rows value sim k bl ml) ->
  r_value r = value /\ r_sim r = sim /\ r_stop r = k
  /\ r_delay_delta_s r = fsub (r_delay_mixed_s r) (r_delay_baseline_s r).
Proof.
  unfold stop_rows. intro I. apply in_map_iff in I. destruct I as [i [<- _]].
  simpl. auto.
Qed.

Lemma block_In (value sim : Z) (mixed : dict string (list F)) (kv : string * list F)
  (r : row F) :
  In r (block value sim mixed kv) ->
  r_value r = value /\ r_sim r = sim /\ r_stop r = fst kv
  /\ r_delay_delta_s r = fsub (r_delay_mixed_s r) (r_delay_baseline_s r).
Proof.
  unfold block. destruct (dict_get (fst kv) mixed); [apply stop_rows_In | intros []].
Qed.

Lemma align_In (value sim : Z) (base mixed : dict string (list F)) (r : row F) :
  In r (align value sim base mixed) ->
  In (r_stop r) (keys base) /\ r_value r = value /\ r_sim r = sim
  /\ r_delay_delta_s r = fsub (r_delay_mixed_s r) (r_delay_baseline_s r).
Proof.
  rewrite align_blocks. intro I. apply in_flat_map in I. destruct I as [kv [Ik Ir]].
  apply block_In in Ir. destruct Ir as (Ev & Es & Ek & Ed).
  repeat split; trivial. rewrite Ek. now apply in_map.
Qed.

Lemma filter_all {A : Type} (p : A -> bool) (l : list A) :
  (forall x, In x l -> p x = true) -> filter p l = l.
Proof.
  induction l as [|a l IH]; intro P; simpl; [reflexivity|].
  rewrite (P a) by now left. f_equal. apply IH. intros x I. apply P. now right.
Qed.

Lemma filter_none {A : Type} (p : A -> bool) (l : list A) :
  (forall x, In x l -> p x = false) -> filter p l = [].
Proof.
  induction l as [|a l IH]; intro P; simpl; [reflexivity|].
  rewrite (P a) by now left. apply IH. intros x I. apply P. now right.
Qed.

Lemma filter_align (value sim : Z) (base mixed : dict string (list F)) (k : string) :
  NoDup (keys base) ->
  filter (fun r => String.eqb (r_stop r) k) (align value sim base mixed) =
  match dict_get k base, dict_get k mixed with
  | Some bl, Some ml => stop_rows value sim k bl ml
  | _, _ => []
  end.
Proof.
  rewrite align_blocks. induction base as [|[k' bl] base IH]; intro N; [reflexivity|].
  inversion N as [|? ? N1 N2]; subst. simpl. rewrite filter_app, (IH N2).
  destruct (String.eqb k' k) eqn:E.
  - apply String.eqb_eq in E. subst k'.
    rewrite filter_all.
    + apply (proj2 (dict_get_None k base)) in N1. rewrite N1.
      unfold block. simpl. rewrite app_nil_r. now destruct (dict_get k mixed).
    + intros r I. apply block_In in I. simpl in I. apply String.eqb_eq. tauto.
  - rewrite filter_none; [reflexivity|].
    intros r I. apply block_In in I. simpl in I. destruct I as (_ & _ & -> & _).
    assumption.
Qed.

End AlignerFacts.

(** ** The stop-delay report *)

Section ExportFacts.
Context {F : Type} `{Scalar F}.
Variable w : World.
Variable pd : Pandas F.
Import ExportPtDelay.

Lemma map_combine_map {A B C : Type} (f : A * B -> C) (g : A -> B) (l : list A) :
  map f (combine l (map g l)) = map (fun x => f (x, g x)) l.
Proof. induction l as [|x l IH]; simpl; [reflexivity | now rewrite IH]. Qed.

Lemma main_workbook (a : args) :
  workbook (main w pd a) =
  Some (map (fun v => value_sheet pd v (rows_of w a v)) _generate_values
        ++ summary_sheet (map (fun v => value_summary pd v (rows_of w a v)) _generate_values))%list.
Proof.
  unfold main, rows_of, baselines_of.
  destruct (load_baselines w (a_simdir a) (a_sims a)) as [bl out1].
  cbv zeta. cbn [workbook]. rewrite map_map, !map_combine_map. reflexivity.
Qed.


Lemma detail_rows_app (l1 l2 : list (sheet F)) :
  detail_rows (l1 ++ l2) = (detail_rows l1 ++ detail_rows l2)%list.
Proof. apply flat_map_app. Qed.

Lemma detail_rows_summary_sheet (l : list (summary_row F)) :
  detail_rows (summary_sheet l) = [].
Proof. now destruct l. Qed.

Lemma detail_rows_value_sheets (g : Z -> list (row F)) (vs : list Z) :
  detail_rows (map (fun v => value_sheet pd v (g v)) vs) = flat_map g vs.
Proof.
  unfold detail_rows. induction vs as [|v vs IH]; simpl; [reflexivity|].
  rewrite IH. f_equal. rewrite map_map. simpl. apply map_id.
Qed.

Lemma main_detail_rows (a : args) :
  detail_rows (written (main w pd a)) = flat_map (rows_of w a) _generate_values.
Proof.
  unfold written. rewrite main_workbook, detail_rows_app, detail_rows_summary_sheet.
  rewrite app_nil_r. apply detail_rows_value_sheets.
Qed.

Lemma sim_rows_In (bl : dict Z (dict string (list F))) (v2s : dict Z (dict Z string))
  (value sim : Z) (r : row F) :
  In r (fst (sim_rows w bl v2s value sim)) ->
  r_value r = value /\ r_sim r = sim
  /\ r_delay_delta_s r = fsub (r_delay_mixed_s r) (r_delay_baseline_s r).
Proof.
  unfold sim_rows. destruct (parse_stop_delays w _) as [mixed lines].
  destruct (dict_get sim bl) as [[|b base]|]; cbn [fst]; try (intros []).
  intro I. apply align_In in I. tauto.
Qed.

Lemma value_rows_fst (bl : dict Z (dict string (list F))) (v2s : dict Z (dict Z string))
  (sims value : Z) :
  fst (value_rows w bl v2s sims value)
  = flat_map (fun sim => fst (sim_rows w bl v2s value sim)) (range 1 (sims + 1)).
Proof. unfold value_rows. simpl. rewrite map_map. symmetry. apply flat_map_concat_map. Qed.

Lemma rows_of_In (a : args) (value : Z) (r : row F) :
  In r (rows_of w a value) ->
  r_value r = value
  /\ r_delay_delta_s r = fsub (r_delay_mixed_s r) (r_delay_baseline_s r).
Proof.
  unfold rows_of. rewrite value_rows_fst. intro I. apply in_flat_map in I.
  destruct I as [sim [_ I]]. apply sim_rows_In in I. tauto.
Qed.

End ExportFacts.

(** ** The vehicle-duration report *)

Section OldMethodFacts.
Context {F : Type} `{Scalar F}.
Variable w : World.
Variable pd : Pandas F.
Import OldMethod.

Lemma add_tripinfo_NoDup (d : dict string F) (el : element) :
  NoDup (keys d) -> NoDup (keys (add_tripinfo d el)).
Proof.
  intro N. unfold add_tripinfo.
  destruct (py_or _ _) as [vid|]; [|assumption].
  destruct (String.eqb vid ""); [assumption|].
  destruct (negb _); [assumption|].
  destruct (duration_of el) as [dur|]; [|assumption].
  destruct (fle dur f0); [assumption|]. now apply NoDup_dict_upd.
Qed.

Lemma extract_pt_durations_NoDup (path : option string) :
  NoDup (keys (fst (extract_pt_durations w path))).
Proof.
  unfold extract_pt_durations. destruct (_parse_root w path) as [e|root]; simpl.
  - constructor.
  - generalize (findall "tripinfo" root). intro els.
    assert (G : forall d, NoDup (keys d) -> NoDup (keys (fold_left add_tripinfo els d))).
    { induction els as [|el els IH]; intros d N; simpl; [assumption|].
      apply IH. now apply add_tripinfo_NoDup. }
    apply G. constructor.
Qed.

Lemma add_duration_get (vid : string) (durs : dict string F)
  (acc : dict string F * dict string Z) :
  NoDup (keys durs) ->
  dict_get vid (fst (fold_left add_duration durs acc)) =
    match dict_get vid durs with
    | Some d => Some (fadd (or0 (dict_get vid (fst acc))) d)
    | None => dict_get vid (fst acc)
    end
  /\ dict_get vid (snd (fold_left add_duration durs acc)) =
    match dict_get vid durs with
    | Some _ => Some (orZ (dict_get vid (snd acc)) + 1)
    | None => dict_get vid (snd acc)
    end.
Proof.
  revert acc. induction durs as [|[k d] durs IH]; intros [s c] N; [now split|].
  inversion N as [|? ? N1 N2]; subst.
  change (fold_left add_duration ((k, d) :: durs) (s, c))
    with (fold_left add_duration durs (add_duration (s, c) (k, d))).
  destruct (IH (add_duration (s, c) (k, d)) N2) as [IHs IHc]. rewrite IHs, IHc.
  unfold add_duration. cbn [fst snd dict_get]. change String.eqb with (@keqb string _).
  destruct (keqb k vid) eqn:E.
  - apply keqb_spec in E. subst k.
    apply (proj2 (dict_get_None vid durs)) in N1. rewrite N1.
    now rewrite !dict_get_upd_same.
  - assert (k <> vid) as NE by (intros ->; rewrite keqb_refl in E; discriminate).
    rewrite !(dict_get_upd_other k vid) by assumption. now split.
Qed.

Lemma sum_from_Some (s : F) (ds : list F) : sum_from (Some s) ds = Some (fold_left fadd ds s).
Proof. revert s. induction ds as [|d ds IH]; intro s; simpl; [reflexivity | apply IH]. Qed.

Lemma count_from_Some (c : Z) (ds : list F) :
  count_from (Some c) ds = Some (c + Z.of_nat (length ds)).
Proof.
  revert c. induction ds as [|d ds IH]; intro c.
  - simpl. f_equal. lia.
  - cbn [count_from fold_left orZ]. fold (count_from (Some (c + 1)) ds).
    rewrite IH. f_equal. simpl length. lia.
Qed.

Lemma aggregate_from (vid : string) (files : list (Z * string))
  (st : (dict string F * dict string Z) * list string) :
  dict_get vid (fst (fst (fold_left (add_file w) files st)))
    = sum_from (dict_get vid (fst (fst st))) (durations_of w vid files)
  /\ dict_get vid (snd (fst (fold_left (add_file w) files st)))
    = count_from (dict_get vid (snd (fst st))) (durations_of w vid files).
Proof.
  revert st. induction files as [|file files IH]; intros [acc out]; [now split|].
  change (fold_left (add_file w) (file :: files) (acc, out))
    with (fold_left (add_file w) files (add_file w (acc, out) file)).
  destruct (IH (add_file w (acc, out) file)) as [IHs IHc].
  rewrite IHs, IHc. unfold add_file, durations_of. cbn [flat_map].
  pose proof (extract_pt_durations_NoDup (Some (snd file))) as N.
  destruct (extract_pt_durations w (Some (snd file))) as [durs lines]. cbn [fst snd] in *.
  destruct (add_duration_get vid durs acc N) as [Gs Gc]. rewrite Gs, Gc.
  unfold sum_from, count_from. rewrite !fold_left_app.
  now destruct (dict_get vid durs).
Qed.

Lemma aggregate_get (vid : string) (files : list (Z * string)) :
  dict_get vid (fst (fst (aggregate w files))) =
    match durations_of w vid files with
    | [] => None
    | _ :: _ => Some (fold_left fadd (durations_of w vid files) f0)
    end
  /\ dict_get vid (snd (fst (aggregate w files))) =
    match durations_of w vid files with
    | [] => None
    | _ :: _ => Some (Z.of_nat (length (durations_of w vid files)))
    end.
Proof.
  unfold aggregate. destruct (aggregate_from vid files (([], []), [])) as [Gs Gc].
  rewrite Gs, Gc. cbn [fst snd dict_get].
  destruct (durations_of w vid files) as [|d ds]; [now split|].
  split.
  - cbn [sum_from fold_left or0]. fold (sum_from (Some (fadd f0 d)) ds).
    now rewrite sum_from_Some.
  - cbn [count_from fold_left orZ]. fold (count_from (Some (0 + 1)) ds).
    rewrite count_from_Some. f_equal. simpl length. lia.
Qed.

Lemma delay_rows_aggregate (baseline : dict string F) (files : list (Z * string)) :
  delay_rows baseline (fst (fst (aggregate w files))) (snd (fst (aggregate w files)))
  = flat_map (fun kv => match durations_of w (fst kv) files with
                        | [] => []
                        | _ :: _ => [vehicle_row (fst kv) (snd kv) (durations_of w (fst kv) files)]
                        end) baseline.
Proof.
  unfold delay_rows. apply flat_map_ext. intros [vid b]. cbn [fst snd].
  destruct (aggregate_get vid files) as [Gs Gc]. rewrite Gs, Gc.
  destruct (durations_of w vid files) as [|d ds] eqn:E; [reflexivity|].
  unfold vehicle_row. rewrite Z.max_r by (simpl length; lia). reflexivity.
Qed.

Lemma filter_vehicle_rows (baseline : dict string F) (g : string -> F -> list (row F))
  (vid : string) :
  NoDup (keys baseline) ->
  (forall k b r, In r (g k b) -> r_vehicle_id r = k) ->
  filter (fun r => String.eqb (r_vehicle_id r) vid) (flat_map (fun kv => g (fst kv) (snd kv)) baseline)
  = match dict_get vid baseline with
    | Some b => g vid b
    | None => []
    end.
Proof.
  intros N G. induction baseline as [|[k b] baseline IH]; [reflexivity|].
  inversion N as [|? ? N1 N2]; subst. cbn [flat_map fst snd dict_get].
  rewrite filter_app, (IH N2). change String.eqb with (@keqb string _).
  destruct (keqb k vid) eqn:E.
  - apply keqb_spec in E. subst k.
    apply (proj2 (dict_get_None vid baseline)) in N1. rewrite N1, app_nil_r.
    apply filter_all. intros r I. apply G in I. now apply keqb_spec.
  - rewrite filter_none; [reflexivity|].
    intros r I. apply G in I. now rewrite I.
Qed.

End OldMethodFacts.

Section OldMethodMain.
Context {F : Type} `{Scalar F}.
Variable w : World.
Variable pd : Pandas F.
Import OldMethod.

Lemma vd_main_fatal (a : args) :
  vd_baseline w a = [] ->
  exit_status (main w pd a) = 1
  /\ exit_message (main w pd a)
     = Some ("No baseline PT durations parsed from: " ++ a_baseline a)
  /\ workbook (main w pd a) = None.
Proof.
  unfold vd_baseline, main.
  destruct (extract_pt_durations w (Some (a_baseline a))) as [b out0]. simpl.
  intros ->. repeat split.
Qed.

Lemma vd_main_completes (a : args) :
  vd_baseline w a <> [] ->
  exit_status (main w pd a) = 0
  /\ exit_message (main w pd a) = None
  /\ workbook (main w pd a) =
     Some (map (fun v => value_sheet v (vd_rows_of w a v)) (vd_values w a)
           ++ summary_sheet (map (fun v => value_summary pd v (vd_rows_of w a v)) (vd_values w a)))%list.
Proof.
  unfold vd_baseline, vd_rows_of, vd_values, vd_baseline, main.
  destruct (extract_pt_durations w (Some (a_baseline a))) as [b out0]. cbn [fst].
  destruct b as [|kv b]; [congruence|]. intros _.
  cbv zeta. cbn [exit_status exit_message workbook].
  rewrite map_map, !map_combine_map. repeat split.
Qed.

Lemma vd_rows_of_eq (a : args) (value : Z) :
  vd_rows_of w a value
  = flat_map (fun kv => match durations_of w (fst kv) (vd_files w a value) with
                        | [] => []
                        | _ :: _ => [vehicle_row (fst kv) (snd kv)
                                       (durations_of w (fst kv) (vd_files w a value))]
                        end) (vd_baseline w a).
Proof.
  unfold vd_rows_of, value_rows. fold (vd_files w a value).
  rewrite <- delay_rows_aggregate.
  now destruct (aggregate w (vd_files w a value)) as [acc lines].
Qed.

Lemma vd_detail_rows_sheets (g : Z -> list (row F)) (vs : list Z) (ss : list (summary_row F)) :
  vd_detail_rows (map (fun v => value_sheet v (g v)) vs ++ summary_sheet ss) = flat_map g vs.
Proof.
  unfold vd_detail_rows. rewrite flat_map_app.
  replace (flat_map _ (summary_sheet ss)) with (@nil (row F)) by now destruct ss.
  rewrite app_nil_r. induction vs as [|v vs IH]; simpl; [reflexivity | now rewrite IH].
Qed.

Lemma vd_main_detail_rows (a : args) (r : row F) :
  In r (vd_detail_rows (vd_written (main w pd a))) ->
  exists value, In value (vd_values w a) /\ In r (vd_rows_of w a value).
Proof.
  unfold vd_written. destruct (vd_baseline w a) as [|kv b] eqn:E.
  - destruct (vd_main_fatal a E) as (_ & _ & ->). intros [].
  - destruct (vd_main_completes a) as (_ & _ & ->); [congruence|].
    rewrite vd_detail_rows_sheets. intro I. now apply in_flat_map in I.
Qed.

End OldMethodMain.

(** ** IEEE doubles without NaN are totally ordered *)

Lemma SFcompare_antisym (x y : SpecFloat.spec_float) (c : comparison) :
  SpecFloat.SFcompare x y = Some c -> SpecFloat.SFcompare y x = Some (CompOpp c).
Proof.
  destruct x as [sx|sx| |sx mx ex], y as [sy|sy| |sy my ey]; simpl;
    try discriminate; intros [= <-]; try (destruct sx, sy; reflexivity);
    try (destruct sx; reflexivity); try (destruct sy; reflexivity).
  destruct sx, sy; try reflexivity;
    rewrite (Z.compare_antisym ex ey); destruct (ex ?= ey)%Z; simpl; try reflexivity;
    change (Pos.compare_cont Eq my mx) with (Pos.compare my mx);
    change (Pos.compare_cont Eq mx my) with (Pos.compare mx my);
    rewrite (Pos.compare_antisym mx my); now destruct (mx ?= my)%positive.
Qed.

Lemma float_lt_le_total (x y : float) :
  PrimFloat.is_nan x = false -> PrimFloat.is_nan y = false ->
  if PrimFloat.ltb x y then PrimFloat.leb x y = true else PrimFloat.leb y x = true.
Proof.
  unfold PrimFloat.is_nan. rewrite !FloatAxioms.eqb_spec, FloatAxioms.ltb_spec, !FloatAxioms.leb_spec.
  unfold SpecFloat.SFeqb, SpecFloat.SFltb, SpecFloat.SFleb.
  intros Nx Ny.
  destruct (SpecFloat.SFcompare (Prim2SF x) (Prim2SF y)) as [c|] eqn:E.
  - rewrite (SFcompare_antisym _ _ _ E). now destruct c.
  - exfalso. destruct (Prim2SF x), (Prim2SF y); simpl in *; discriminate.
Qed.

Lemma no_nan_ordered (l : list float) :
  Forall (fun x => PrimFloat.is_nan x = false) l ->
  ordered_by (flt (F := float)) fle l.
Proof.
  intros N x y Ix Iy. rewrite Forall_forall in N.
  apply float_lt_le_total; now apply N.
Qed.

(** ** Baselines, warnings and exit status of the stop-delay report *)

Section ExportRun.
Context {F : Type} `{Scalar F}.
Variable w : World.
Variable pd : Pandas F.
Import ExportPtDelay.

Lemma load_baseline_step (simdir : string) (bl : dict Z (dict string (list F)))
  (out : list string) (sim : Z) :
  load_baseline w simdir (bl, out) sim =
  (match baseline_for w simdir sim with Some b => dict_set sim b bl | None => bl end,
   app out (baseline_lines w simdir sim)).
Proof.
  unfold load_baseline, baseline_for, baseline_lines.
  destruct (String.eqb (_find_baseline_path w simdir sim) ""); [reflexivity|].
  destruct (parse_stop_delays w (Some (_find_baseline_path w simdir sim))) as [[|kv b] lines];
    cbn [fst snd]; [now rewrite app_assoc | reflexivity].
Qed.

Lemma load_baselines_fold (simdir : string) (sims : list Z)
  (bl : dict Z (dict string (list F))) (out : list string) :
  snd (fold_left (load_baseline w simdir) sims (bl, out))
    = app out (flat_map (baseline_lines w simdir) sims)
  /\ forall sim, NoDup sims ->
       dict_get sim (fst (fold_left (load_baseline w simdir) sims (bl, out)))
       = if existsb (Z.eqb sim) sims
         then match baseline_for w simdir sim with
              | Some b => Some b
              | None => dict_get sim bl
              end
         else dict_get sim bl.
Proof.
  revert bl out. induction sims as [|s sims IH]; intros bl out.
  - simpl. split; [now rewrite app_nil_r | reflexivity].
  - cbn [fold_left]. rewrite load_baseline_step.
    destruct (IH (match baseline_for w simdir s with Some b => dict_set s b bl | None => bl end)
                 (app out (baseline_lines w simdir s))) as [IHo IHg].
    split.
    + rewrite IHo. cbn [flat_map]. now rewrite app_assoc.
    + intros sim N. inversion N as [|? ? N1 N2]; subst. rewrite (IHg sim N2).
      cbn [existsb]. destruct (Z.eqb_spec sim s) as [->|NE].
      * replace (existsb (Z.eqb s) sims) with false.
        -- cbn [orb]. destruct (baseline_for w simdir s) as [b|] eqn:E; [|reflexivity].
           unfold dict_set. now rewrite dict_get_upd_same.
        -- symmetry. apply not_true_is_false. intro X. apply existsb_exists in X.
           destruct X as [x [Ix Ex]]. apply Z.eqb_eq in Ex. now subst.
      * cbn [orb].
        assert (G : dict_get sim (match baseline_for w simdir s with
                                  | Some b => dict_set s b bl
                                  | None => bl
                                  end) = dict_get sim bl).
        { destruct (baseline_for w simdir s); [|reflexivity].
          unfold dict_set. apply dict_get_upd_other. congruence. }
        now rewrite G.
Qed.

End ExportRun.

Lemma In_range (lo hi x : Z) : In x (range lo hi) <-> lo <= x < hi.
Proof.
  unfold range. rewrite in_map_iff. split.
  - intros [i [<- I]]. apply in_seq in I. lia.
  - intro B. exists (Z.to_nat (x - lo)). split; [lia|]. apply in_seq. lia.
Qed.

Lemma NoDup_range (lo hi : Z) : NoDup (range lo hi).
Proof.
  unfold range. generalize (seq_NoDup (Z.to_nat (hi - lo)) 0).
  induction (seq 0 (Z.to_nat (hi - lo))) as [|i l IH]; intro N; simpl; constructor.
  - inversion N as [|? ? N1 _]; subst. intro I. apply in_map_iff in I.
    destruct I as [j [E I]]. assert (j = i) by lia. now subst.
  - apply IH. now inversion N.
Qed.

Lemma existsb_Zeqb_In (x : Z) (l : list Z) : In x l -> existsb (Z.eqb x) l = true.
Proof. intro I. apply existsb_exists. exists x. split; [assumption | apply Z.eqb_refl]. Qed.

Section ExportRunFacts.
Context {F : Type} `{Scalar F}.
Variable w : World.
Variable pd : Pandas F.
Import ExportPtDelay.

Lemma baselines_get (a : args) (sim : Z) :
  In sim (range 1 (a_sims a + 1)) ->
  dict_get sim (baselines_of w a) = baseline_for w (a_simdir a) sim.
Proof.
  intro I. unfold baselines_of, load_baselines.
  destruct (load_baselines_fold w (a_simdir a) (range 1 (a_sims a + 1)) [] []) as [_ G].
  etransitivity; [exact (G sim (NoDup_range _ _))|].
  rewrite (existsb_Zeqb_In _ _ I).
  now destruct (baseline_for w (a_simdir a) sim).
Qed.

Lemma sim_rows_eq (a : args) (value sim : Z) :
  sim_rows w (baselines_of w a) (discover w (a_simdir a)) value sim =
  (match dict_get sim (baselines_of w a) with
   | Some base => align value sim base (fst (parse_stop_delays w (mixed_path w a value sim)))
   | None => []
   end,
   snd (parse_stop_delays w (mixed_path w a value sim))).
Proof.
  unfold sim_rows. fold (mixed_path w a value sim).
  destruct (parse_stop_delays w (mixed_path w a value sim)) as [mixed lines]. cbn [fst snd].
  now destruct (dict_get sim (baselines_of w a)) as [[|kv b]|].
Qed.

Lemma main_stdout (a : args) :
  stdout (main w pd a) =
  app (flat_map (baseline_lines w (a_simdir a)) (range 1 (a_sims a + 1)))
      (app (flat_map (fun value =>
                        flat_map (fun sim => snd (parse_stop_delays w (mixed_path w a value sim)))
                                 (range 1 (a_sims a + 1)))
                     _generate_values)
           ["Excel written: " ++ a_out a]).
Proof.
  unfold main. pose proof (fun v s => sim_rows_eq a v s) as SR. unfold baselines_of in SR.
  assert (O : snd (load_baselines w (a_simdir a) (a_sims a))
              = app [] (flat_map (baseline_lines w (a_simdir a)) (range 1 (a_sims a + 1))))
    by exact (proj1 (load_baselines_fold w (a_simdir a) (range 1 (a_sims a + 1)) [] [])).
  destruct (load_baselines w (a_simdir a) (a_sims a)) as [bl out1]. cbn [fst snd app] in *.
  subst out1. cbv zeta. cbn [stdout]. f_equal. f_equal.
  rewrite map_map, flat_map_concat_map. f_equal. apply map_ext. intro v.
  unfold value_rows. cbn [snd]. rewrite map_map, flat_map_concat_map. f_equal.
  apply map_ext. intro s. now rewrite SR.
Qed.

Lemma baseline_lines_printed (a : args) (sim : Z) (line : string) :
  In sim (range 1 (a_sims a + 1)) ->
  In line (baseline_lines w (a_simdir a) sim) ->
  In line (stdout (main w pd a)).
Proof.
  intros Is Il. rewrite main_stdout. apply in_or_app. left.
  apply in_flat_map. now exists sim.
Qed.


End ExportRunFacts.

(** ** Sheets and their order *)

Section SortMore.
Context {A : Type} (lt : A -> A -> bool).

Lemma insort_last (x : A) (acc : list A) :
  (forall y, In y acc -> lt x y = false) -> insort lt x acc = (acc ++ [x])%list.
Proof.
  induction acc as [|y acc IH]; intro P; simpl; [reflexivity|].
  rewrite (P y) by now left. f_equal. apply IH. intros z I. apply P. now right.
Qed.

Lemma fold_insort_ascending (l acc : list A) :
  StronglySorted (fun a b => lt b a = false) (acc ++ l) ->
  fold_left (fun a x => insort lt x a) l acc = (acc ++ l)%list.
Proof.
  revert acc. induction l as [|x l IH]; intros acc S; simpl.
  - now rewrite app_nil_r.
  - rewrite insort_last.
    + rewrite IH; rewrite <- app_assoc; [reflexivity | exact S].
    + intros y I. clear IH. induction acc as [|z acc IHa]; [destruct I|].
      simpl in S. inversion S as [|? ? S' Fa]; subst. destruct I as [->|I].
      * rewrite Forall_forall in Fa. apply Fa. apply in_or_app. right. now left.
      * now apply IHa.
Qed.

Lemma sort_by_ascending (l : list A) :
  StronglySorted (fun a b => lt b a = false) l -> sort_by lt l = l.
Proof. intro S. unfold sort_by. now rewrite fold_insort_ascending. Qed.

End SortMore.

Lemma ascending_sound (l : list Z) : ascending l = true -> StronglySorted Z.lt l.
Proof.
  induction l as [|x l IH]; simpl; intro E; constructor.
  - apply IH. now apply andb_true_iff in E.
  - apply andb_true_iff in E. destruct E as [E _]. rewrite forallb_forall in E.
    apply Forall_forall. intros y I. apply Z.ltb_lt. now apply E.
Qed.

Lemma sort_values_ascending {F : Type} (g : Z -> summary_row F) (vs : list Z) :
  (forall v, s_value (g v) = v) -> StronglySorted Z.lt vs ->
  sort_values (map g vs) = map g vs.
Proof.
  intros G S. unfold sort_values. apply sort_by_ascending.
  induction S as [|v vs S IH Fa]; simpl; constructor; [assumption|].
  rewrite Forall_forall in *. intros r I. apply in_map_iff in I.
  destruct I as [v' [<- I]]. rewrite !G. apply Z.ltb_ge. specialize (Fa v' I). lia.
Qed.

Lemma generated_values_ascending : StronglySorted Z.lt ExportPtDelay._generate_values.
Proof. apply ascending_sound. vm_compute. reflexivity. Qed.

Section ExportSheets.
Context {F : Type} `{Scalar F}.
Variable w : World.
Variable pd : Pandas F.
Import ExportPtDelay.

Lemma value_summary_value (value : Z) (rows : list (row F)) :
  s_value (value_summary pd value rows) = value.
Proof. now destruct rows. Qed.

Lemma summary_rows_main (a : args) :
  summary_rows (written (main w pd a))
  = map (fun v => value_summary pd v (rows_of w a v)) _generate_values.
Proof.
  unfold written. rewrite main_workbook. unfold summary_rows. rewrite flat_map_app.
  replace (flat_map _ (map _ _generate_values)) with (@nil (summary_row F)).
  - cbn [app]. set (g := fun v => value_summary pd v (rows_of w a v)).
    pose proof (sort_values_ascending g _generate_values
                  (fun v => value_summary_value v _) generated_values_ascending) as E.
    destruct (map g _generate_values) eqn:M; [reflexivity|].
    unfold summary_sheet. cbn [flat_map body]. rewrite E. now rewrite app_nil_r.
  - induction _generate_values as [|v vs IH]; [reflexivity|]. cbn. exact IH.
Qed.

Lemma sheet_names_main (a : args) :
  map sheet_name (written (main w pd a))
  = (map str_of_Z _generate_values ++ ["summary"])%list.
Proof.
  unfold written. rewrite main_workbook, map_app, map_map. reflexivity.
Qed.

End ExportSheets.

Lemma sort_by_Z_strict (l : list Z) : NoDup l -> StronglySorted Z.lt (sort_by Z.ltb l).
Proof.
  intro N.
  assert (S : StronglySorted (fun a b => (a <=? b) = true) (sort_by Z.ltb l)).
  { apply Sorted_StronglySorted.
    - intros x y z A B. apply Z.leb_le in A, B. apply Z.leb_le. lia.
    - apply sort_by_sorted. intros x y _ _. destruct (Z.ltb_spec x y); apply Z.leb_le; lia. }
  assert (N' : NoDup (sort_by Z.ltb l))
    by (eapply Permutation_NoDup; [apply sort_by_perm | exact N]).
  induction S as [|x s S IH Fa]; constructor.
  - apply IH. now inversion N'.
  - inversion N' as [|? ? N1 _]; subst. rewrite Forall_forall in *. intros y I.
    specialize (Fa y I). apply Z.leb_le in Fa.
    assert (x <> y) by (intros ->; contradiction). lia.
Qed.

Lemma strictly_sorted_unique (l1 l2 : list Z) :
  StronglySorted Z.lt l1 -> StronglySorted Z.lt l2 ->
  (forall x, In x l1 <-> In x l2) -> l1 = l2.
Proof.
  intro S1. revert l2. induction S1 as [|x l1 S1 IH F1]; intros l2 S2 E.
  - destruct l2 as [|y l2]; [reflexivity|]. exfalso. apply (E y). now left.
  - destruct S2 as [|y l2 S2 F2]; [exfalso; apply (E x); now left|].
    rewrite Forall_forall in F1, F2.
    assert (x = y).
    { destruct (proj1 (E x) (or_introl eq_refl)) as [->|I1]; [reflexivity|].
      destruct (proj2 (E y) (or_introl eq_refl)) as [->|I2]; [reflexivity|].
      specialize (F1 y I2). specialize (F2 x I1). lia. }
    subst y. f_equal. apply IH; [assumption|]. intro z. split; intro I.
    + destruct (proj1 (E z) (or_intror I)) as [<-|I']; [|assumption].
      specialize (F1 x I). lia.
    + destruct (proj2 (E z) (or_intror I)) as [<-|I']; [|assumption].
      specialize (F2 x I). lia.
Qed.

Section OldMethodSheets.
Context {F : Type} `{Scalar F}.
Variable w : World.
Variable pd : Pandas F.
Import OldMethod.

Lemma discovered_keys (simdir : string) (names : list string)
  (mapping : dict Z (list (Z * string))) :
  NoDup (keys mapping) ->
  NoDup (keys (fold_left (add_tripinfo_file simdir) names mapping))
  /\ forall value,
       In value (keys (fold_left (add_tripinfo_file simdir) names mapping))
       <-> In value (keys mapping)
           \/ exists name sim, In name names /\ TRIPINFO_RE name = Some (value, sim).
Proof.
  revert mapping. induction names as [|name names IH]; intros mapping N.
  - simpl. split; [assumption|]. intro v. split; [tauto|].
    intros [I|(? & ? & [] & _)]. assumption.
  - cbn [fold_left].
    assert (N' : NoDup (keys (add_tripinfo_file simdir mapping name))).
    { unfold add_tripinfo_file. destruct (TRIPINFO_RE name) as [[v s]|]; [|assumption].
      now apply NoDup_dict_upd. }
    destruct (IH _ N') as [IH1 IH2]. split; [assumption|].
    intro v. rewrite IH2. unfold add_tripinfo_file.
    destruct (TRIPINFO_RE name) as [[v0 s0]|] eqn:E.
    + unfold dict_append. rewrite keys_dict_upd. split.
      * intros [I|(n & s & I & R)].
        -- destruct (dict_get v0 mapping); [now left|].
           apply in_app_or in I. destruct I as [I|[<-|[]]]; [now left|].
           right. exists name, s0. split; [now left | assumption].
        -- right. exists n, s. split; [now right | assumption].
      * intros [I|(n & s & [<-|I] & R)].
        -- left. destruct (dict_get v0 mapping); [assumption|]. apply in_or_app. now left.
        -- left. rewrite E in R. injection R as <- <-.
           destruct (dict_get v0 mapping) eqn:G; [|apply in_or_app; right; now left].
           apply dict_get_In in G. change v0 with (fst (v0, l)). now apply in_map.
        -- right. now exists n, s.
    + split.
      * intros [I|(n & s & I & R)]; [now left|]. right. exists n, s. split; [now right|assumption].
      * intros [I|(n & s & [<-|I] & R)]; [now left | congruence |]. right. now exists n, s.
Qed.

Lemma vd_values_spec (a : args) :
  StronglySorted Z.lt (vd_values w a)
  /\ forall value,
       In value (vd_values w a)
       <-> exists name sim,
             In name (os_listdir w (a_simdir a)) /\ TRIPINFO_RE name = Some (value, sim).
Proof.
  unfold vd_values, discover_value_to_sims. rewrite keys_map_values.
  destruct (discovered_keys (a_simdir a) (os_listdir w (a_simdir a)) []) as [N M];
    [constructor|].
  split.
  - now apply sort_by_Z_strict.
  - intro v. split.
    + intro I. apply (Permutation_in _ (Permutation_sym (sort_by_perm _ _))) in I.
      apply M in I. destruct I as [[]|I]. exact I.
    + intro I. apply (Permutation_in _ (sort_by_perm _ _)). apply M. now right.
Qed.

Lemma vd_value_summary_value (value : Z) (rows : list (row F)) :
  s_value (value_summary pd value rows) = value.
Proof. now destruct rows. Qed.

Lemma vd_sheets (a : args) :
  vd_baseline w a <> [] ->
  map sheet_name (vd_written (main w pd a))
  = (map str_of_Z (vd_values w a)
     ++ match vd_values w a with [] => [] | _ :: _ => ["summary"] end)%list
  /\ vd_summary_rows (vd_written (main w pd a))
     = map (fun v => value_summary pd v (vd_rows_of w a v)) (vd_values w a).
Proof.
  intro B. unfold vd_written. destruct (vd_main_completes w pd a B) as (_ & _ & ->).
  set (g := fun v => value_summary pd v (vd_rows_of w a v)).
  pose proof (sort_values_ascending g (vd_values w a)
                (fun v => vd_value_summary_value v _) (proj1 (vd_values_spec a))) as E.
  split.
  - rewrite map_app, map_map. cbn [sheet_name value_sheet]. f_equal.
    now destruct (vd_values w a).
  - unfold vd_summary_rows. rewrite flat_map_app.
    replace (flat_map _ (map _ (vd_values w a))) with (@nil (summary_row F)).
    + cbn [app]. destruct (map g (vd_values w a)) eqn:M; [reflexivity|].
      unfold summary_sheet. cbn [flat_map body]. rewrite E. now rewrite app_nil_r.
    + clear E. induction (vd_values w a) as [|v vs IH]; [reflexivity|]. cbn. exact IH.
Qed.

End OldMethodSheets.

(** ** The helpers on concrete inputs *)

Example STOP_MIXED_RE_examples :
  ExportPtDelay.STOP_MIXED_RE "stop_events_5000_3.xml" = Some (5000, 3)
  /\ ExportPtDelay.STOP_MIXED_RE "stop_events_007_03.xml" = Some (7, 3)
  /\ ExportPtDelay.STOP_MIXED_RE "stop_events_0_3.xml" = Some (0, 3)
  /\ ExportPtDelay.STOP_MIXED_RE ("stop_events_5000_3.xml" ++ newline) = Some (5000, 3)
  /\ ExportPtDelay.STOP_MIXED_RE "stop_events_baseline_3.xml" = None
  /\ ExportPtDelay.STOP_MIXED_RE "xstop_events_5000_3.xml" = None
  /\ ExportPtDelay.STOP_MIXED_RE "stop_events_5000_3.xmlx" = None
  /\ ExportPtDelay.STOP_MIXED_RE "stop_events_5000_.xml" = None.
Proof. repeat split; reflexivity. Qed.

Example TRIPINFO_RE_examples :
  OldMethod.TRIPINFO_RE "4_5000_1_run_sim_output.xml" = Some (5000, 1)
  /\ OldMethod.TRIPINFO_RE "4_5000_1__sim_output.xml" = Some (5000, 1)
  /\ OldMethod.TRIPINFO_RE "4_5000_1_a_sim_output.xml_b_sim_output.xml" = Some (5000, 1)
  /\ OldMethod.TRIPINFO_RE ("4_5000_1_a_sim_output.xml" ++ newline) = Some (5000, 1)
  /\ OldMethod.TRIPINFO_RE "4_5000_1_sim_output.xml" = None
  /\ OldMethod.TRIPINFO_RE ("4_5000_1_a" ++ newline ++ "b_sim_output.xml") = None
  /\ OldMethod.TRIPINFO_RE "5_5000_1_a_sim_output.xml" = None.
Proof. repeat split; reflexivity. Qed.

Example path_join_examples :
  path_join "/sim" "a.xml" = "/sim/a.xml"
  /\ path_join "/" "a.xml" = "/a.xml"
  /\ path_join "/sim/" "a.xml" = "/sim/a.xml"
  /\ path_join "/sim" "/a.xml" = "/a.xml"
  /\ path_join "" "a" = "a".
Proof. repeat split; reflexivity. Qed.

Example str_examples :
  str_of_Z 1000 = "1000" /\ str_of_Z 0 = "0" /\ str_of_Z (-5) = "-5"
  /\ isdigit "7" = true /\ isdigit "" = false /\ isdigit "bus_1" = false
  /\ lower "BUS" = "bus" /\ contains "bus" (lower "CityBus") = true.
Proof. repeat split; reflexivity. Qed.

Example float_examples :
  float_of_string (F := float) "0" = Some 0%float
  /\ float_of_string (F := float) "100.0" = Some 100%float
  /\ float_of_string (F := float) "0.1" = Some 0.1%float
  /\ float_of_string (F := float) "-12.5" = Some (-12.5)%float
  /\ float_of_string (F := float) "abc" = None
  /\ sort_by (flt (F := float)) [3%float; 1%float; 2%float; 1%float]
     = [1%float; 1%float; 2%float; 3%float].
Proof. repeat split; vm_compute; reflexivity. Qed.

(** The vehicle-duration script without a readable baseline. *)
Example old_method_aborts :
  exit_status (OldMethod.main (F := float) empty_world pandas_spec bus_args) = 1
  /\ exit_message (OldMethod.main (F := float) empty_world pandas_spec bus_args)
     = Some "No baseline PT durations parsed from: /sim/tripinfo.xml"
  /\ workbook (OldMethod.main (F := float) empty_world pandas_spec bus_args) = None
  /\ stdout (OldMethod.main (F := float) empty_world pandas_spec bus_args)
     = ["Warning: skipping malformed XML: /sim/tripinfo.xml "
        ++ "([Errno 2] No such file or directory)"].
Proof. repeat split; vm_compute; reflexivity. Qed.

(** ** The scenario of the specification, end to end *)

(** Stop "A" with baseline delays 10, 20 and perturbed delays 12, 21: two
    records, deltas 2 and 1, and a summary mean of 1.5. *)
Example two_stops_report :
  map (fun r => (ExportPtDelay.r_occurrence r, ExportPtDelay.r_delay_baseline_s r,
                 ExportPtDelay.r_delay_mixed_s r, ExportPtDelay.r_delay_delta_s r))
      (rows_of (F := float) two_stops_world tenths_args 1000)
  = [(1, 10%float, 12%float, 2%float); (2, 20%float, 21%float, 1%float)]
  /\ map s_mean (filter (fun r => s_value r =? 1000)
                   (summary_rows (written (ExportPtDelay.main (F := float) two_stops_world
                                             pandas_spec tenths_args))))
     = [1.5%float].
Proof. split; vm_compute; reflexivity. Qed.

(** ** Subtraction of doubles *)

Lemma digits2_pos_size (p : positive) : digits2_pos p = Pos.size p.
Proof. induction p as [p IH|p IH|]; simpl; now rewrite ?IH. Qed.

Lemma digits2_pos_bounds (p : positive) :
  2 ^ (Z.pos (digits2_pos p) - 1) <= Z.pos p < 2 ^ Z.pos (digits2_pos p).
Proof.
  rewrite digits2_pos_size.
  pose proof (Pos.size_gt p) as G. pose proof (Pos.size_le p) as L.
  apply Pos2Z.pos_lt_pos in G. apply Pos2Z.pos_le_pos in L.
  rewrite Pos2Z.inj_pow in G, L. rewrite (Pos2Z.inj_xO p) in L.
  split; [|exact G].
  replace (Z.pos (Pos.size p)) with (Z.succ (Z.pos (Pos.size p) - 1)) in L by lia.
  change (Z.pos 2) with 2 in L.
  rewrite Z.pow_succ_r in L by lia. lia.
Qed.

Lemma digits2_pos_unique (p : positive) (k : Z) :
  2 ^ (k - 1) <= Z.pos p < 2 ^ k -> Z.pos (digits2_pos p) = k.
Proof.
  intros [L U]. pose proof (digits2_pos_bounds p) as [L' U'].
  destruct (Z.lt_trichotomy (Z.pos (digits2_pos p)) k) as [C|[C|C]]; [|exact C|]; exfalso.
  - assert (2 ^ Z.pos (digits2_pos p) <= 2 ^ (k - 1)) by (apply Z.pow_le_mono_r; lia). lia.
  - assert (0 <= k \/ k < 0) as [K|K] by lia.
    + assert (2 ^ k <= 2 ^ (Z.pos (digits2_pos p) - 1)) by (apply Z.pow_le_mono_r; lia). lia.
    + rewrite (Z.pow_neg_r 2 k K) in U. lia.
Qed.

Lemma iter_xO_value (m d : positive) : Z.pos (Pos.iter xO m d) = Z.pos m * 2 ^ Z.pos d.
Proof.
  induction d as [|d IH] using Pos.peano_ind.
  - simpl. lia.
  - rewrite Pos.iter_succ, Pos2Z.inj_xO, IH, Pos2Z.inj_succ, Z.pow_succ_r by lia. lia.
Qed.

Lemma iter_xO_digits (m d : positive) :
  digits2_pos (Pos.iter xO m d) = (digits2_pos m + d)%positive.
Proof.
  induction d as [|d IH] using Pos.peano_ind.
  - simpl. lia.
  - rewrite Pos.iter_succ. simpl. rewrite IH. lia.
Qed.

Lemma shr_1_cut (M h : Z) (r : shr_record) :
  0 < h -> cut_of M h r -> cut_of M (2 * h) (shr_1 r).
Proof.
  intros Hh (P & t & E & B & S). destruct r as [m r s]. cbn [shr_m shr_r shr_s] in *.
  assert (S' : orb r s = false <-> (if r then h else 0) + t = 0).
  { destruct r, s; cbn [orb]; split; intro Q; try discriminate Q; try reflexivity; try lia.
    all: try (apply S; lia).
    all: destruct S as [S _]; specialize (S eq_refl); lia. }
  assert (B' : 0 <= (if r then h else 0) + t < 2 * h) by (destruct r; lia).
  destruct m as [|[p|p|]|p]; [| | | |lia]; unfold shr_1, cut_of; cbn [shr_m shr_r shr_s];
    (split; [lia|]); exists ((if r then h else 0) + t);
    (split; [|split; [exact B'|exact S']]).
  - lia.
  - rewrite (Pos2Z.inj_xI p) in E. lia.
  - rewrite (Pos2Z.inj_xO p) in E. lia.
  - lia.
Qed.

Lemma iter_pos_cut (p : positive) :
  forall (M h : Z) (r : shr_record),
    0 < h -> cut_of M h r -> cut_of M (h * 2 ^ Z.pos p) (iter_pos shr_1 p r).
Proof.
  induction p as [p IH|p IH|]; intros M h r Hh C; cbn [iter_pos].
  - replace (h * 2 ^ Z.pos p~1) with (((2 * h) * 2 ^ Z.pos p) * 2 ^ Z.pos p).
    + assert (0 < 2 ^ Z.pos p) by (apply Z.pow_pos_nonneg; lia).
      apply IH; [nia|]. apply IH; [lia|]. now apply shr_1_cut.
    + rewrite (Pos2Z.inj_xI p). replace (2 * Z.pos p + 1) with (1 + Z.pos p + Z.pos p) by lia.
      rewrite !Z.pow_add_r by lia. change (2 ^ 1) with 2. ring.
  - replace (h * 2 ^ Z.pos p~0) with ((h * 2 ^ Z.pos p) * 2 ^ Z.pos p).
    + assert (0 < 2 ^ Z.pos p) by (apply Z.pow_pos_nonneg; lia).
      apply IH; [nia|]. now apply IH.
    + rewrite (Pos2Z.inj_xO p). replace (2 * Z.pos p) with (Z.pos p + Z.pos p) by lia.
      rewrite Z.pow_add_r by lia. ring.
  - replace (h * 2 ^ 1) with (2 * h) by lia. now apply shr_1_cut.
Qed.

Lemma round_nearest_even_cut (M h : Z) (r : shr_record) :
  0 < h -> cut_of M h r ->
  let m' := round_nearest_even (shr_m r) (loc_of_shr_record r) in
  shr_m r <= m' <= shr_m r + 1 /\ 2 * Z.abs (M - m' * h) <= h.
Proof.
  intros Hh (P & t & E & B & S). destruct r as [m [|] [|]]; cbn [shr_m shr_r shr_s] in *;
    cbn [loc_of_shr_record round_nearest_even].
  - split; [lia|]. nia.
  - assert (t = 0) by now apply S. subst t. destruct (Z.even m); split; try lia; nia.
  - split; [lia|]. nia.
  - assert (t = 0) by now apply S. subst t. split; [lia|]. nia.
Qed.

Lemma fexp_eq (x : Z) : fexp prec emax x = Z.max (x - 53) (-1074).
Proof. reflexivity. Qed.

Lemma shr_fexp_still (q : positive) (e : Z) :
  fexp prec emax (Z.pos (digits2_pos q) + e) <= e ->
  shr_fexp prec emax (Z.pos q) e loc_Exact
  = ({| shr_m := Z.pos q; shr_r := false; shr_s := false |}, e).
Proof.
  intros L. unfold shr_fexp. cbn [Zdigits2 shr_record_of_loc].
  unfold shr. destruct (fexp prec emax (Z.pos (digits2_pos q) + e) - e) eqn:N;
    [reflexivity|lia|reflexivity].
Qed.

(** A mantissa that needs no shift is kept as it is. *)
Lemma binary_round_aux_still (s : bool) (q : positive) (e : Z) :
  fexp prec emax (Z.pos (digits2_pos q) + e) <= e ->
  binary_round_aux prec emax s (Z.pos q) e loc_Exact
  = if e <=? emax - prec then S754_finite s q e else S754_infinity s.
Proof.
  intros L. unfold binary_round_aux. rewrite (shr_fexp_still q e L).
  cbn [shr_m loc_of_shr_record round_nearest_even]. rewrite (shr_fexp_still q e L).
  reflexivity.
Qed.

Lemma binary_round_error (s : bool) (mx : positive) (ex : Z) :
  -1074 <= ex ->
  match binary_round prec emax s mx ex with
  | S754_finite s' m' e' =>
      s' = s /\ -1074 <= e'
      /\ 2 ^ 53 * Z.abs (Z.pos m' * 2 ^ (e' + 1074) - Z.pos mx * 2 ^ (ex + 1074))
         <= Z.pos mx * 2 ^ (ex + 1074)
  | S754_infinity _ => True
  | _ => False
  end.
Proof.
  intros Hex. unfold binary_round.
  pose proof (digits2_pos_bounds mx) as Dx.
  set (d := Z.pos (digits2_pos mx)) in *.
  assert (U : 0 < 2 ^ (ex + 1074)) by (apply Z.pow_pos_nonneg; lia).
  destruct (Z_le_gt_dec (fexp prec emax (d + ex)) ex) as [A|Bc].
  - (* the mantissa is at most shifted to the left *)
    unfold shl_align.
    destruct (fexp prec emax (d + ex) - ex) as [|k|k] eqn:K; [|lia|].
    + rewrite binary_round_aux_still by (fold d; lia).
      destruct (ex <=? emax - prec); [|exact I].
      repeat split; [lia|]. rewrite Z.sub_diag. cbn [Z.abs]. lia.
    + assert (Ek : ex = fexp prec emax (d + ex) + Z.pos k) by lia.
      rewrite binary_round_aux_still.
      * destruct (fexp prec emax (d + ex) <=? emax - prec); [|exact I].
        repeat split; [rewrite fexp_eq; lia|].
        rewrite iter_xO_value.
        replace (Z.pos mx * 2 ^ Z.pos k * 2 ^ (fexp prec emax (d + ex) + 1074))
          with (Z.pos mx * 2 ^ (ex + 1074)).
        -- rewrite Z.sub_diag. cbn [Z.abs]. lia.
        -- rewrite Ek at 1. rewrite fexp_eq in *.
           replace (Z.max (d + ex - 53) (-1074) + Z.pos k + 1074)
             with (Z.pos k + (Z.max (d + ex - 53) (-1074) + 1074)) by lia.
           rewrite Z.pow_add_r by lia. ring.
      * rewrite iter_xO_digits, Pos2Z.inj_add. fold d.
        replace (d + Z.pos k + fexp prec emax (d + ex)) with (d + ex) by lia. lia.
  - (* the mantissa is cut to 53 bits and rounded *)
    rewrite fexp_eq in Bc.
    assert (Hd : 53 < d) by lia.
    assert (Fe : fexp prec emax (d + ex) = d + ex - 53) by (rewrite fexp_eq; lia).
    unfold shl_align. rewrite Fe.
    destruct (d + ex - 53 - ex) as [|k|k] eqn:K; [lia| |lia].
    unfold binary_round_aux, shr_fexp at 1. cbn [Zdigits2 shr_record_of_loc]. fold d.
    rewrite Fe, K. unfold shr at 1.
    set (r1 := iter_pos shr_1 k _).
    assert (C : cut_of (Z.pos mx) (1 * 2 ^ Z.pos k) r1).
    { apply iter_pos_cut; [lia|]. split; [cbn; lia|]. exists 0. cbn [shr_m shr_r shr_s].
      repeat split; lia. }
    rewrite Z.mul_1_l in C.
    assert (Hh : 0 < 2 ^ Z.pos k) by (apply Z.pow_pos_nonneg; lia).
    pose proof (round_nearest_even_cut _ _ _ Hh C) as [Rm Re].
    set (m2 := round_nearest_even (shr_m r1) (loc_of_shr_record r1)) in *.
    destruct C as (P1 & t & Et & Bt & _).
    assert (D52 : 2 ^ (d - 1) = 2 ^ 52 * 2 ^ Z.pos k).
    { replace (d - 1) with (52 + Z.pos k) by lia. now rewrite Z.pow_add_r by lia. }
    assert (D53 : 2 ^ d = 2 ^ 53 * 2 ^ Z.pos k).
    { replace d with (53 + Z.pos k) at 1 by lia. now rewrite Z.pow_add_r by lia. }
    assert (M1 : 2 ^ 52 <= shr_m r1 < 2 ^ 53).
    { split.
      - assert (2 ^ 52 * 2 ^ Z.pos k < (shr_m r1 + 1) * 2 ^ Z.pos k) by (destruct (shr_r r1); lia).
        apply Z.mul_lt_mono_pos_r in H; lia.
      - assert (shr_m r1 * 2 ^ Z.pos k < 2 ^ 53 * 2 ^ Z.pos k) by (destruct (shr_r r1); lia).
        apply Z.mul_lt_mono_pos_r in H; lia. }
    assert (E1 : 2 ^ (ex + Z.pos k + 1074) = 2 ^ Z.pos k * 2 ^ (ex + 1074)).
    { replace (ex + Z.pos k + 1074) with (Z.pos k + (ex + 1074)) by lia.
      now rewrite Z.pow_add_r by lia. }
    assert (Err : 2 ^ 53 * Z.abs (m2 * 2 ^ (ex + Z.pos k + 1074) - Z.pos mx * 2 ^ (ex + 1074))
                  <= Z.pos mx * 2 ^ (ex + 1074)).
    { rewrite E1.
      replace (m2 * (2 ^ Z.pos k * 2 ^ (ex + 1074)) - Z.pos mx * 2 ^ (ex + 1074))
        with ((m2 * 2 ^ Z.pos k - Z.pos mx) * 2 ^ (ex + 1074)) by ring.
      rewrite Z.abs_mul, (Z.abs_eq (2 ^ (ex + 1074))) by lia.
      rewrite Z.mul_assoc. apply Z.mul_le_mono_nonneg_r; [lia|].
      change (2 ^ 53) with (2 * 2 ^ 52) at 1.
      replace (Z.abs (m2 * 2 ^ Z.pos k - Z.pos mx)) with (Z.abs (Z.pos mx - m2 * 2 ^ Z.pos k))
        by lia.
      nia. }
    destruct (Z.eq_dec m2 (2 ^ 53)) as [Top|NotTop].
    + (* the rounding carried into a 54th bit *)
      rewrite Top in *.
      assert (S2 : shr_fexp prec emax (2 ^ 53) (ex + Z.pos k) loc_Exact
                   = ({| shr_m := Z.pos 4503599627370496; shr_r := false; shr_s := false |},
                      ex + Z.pos k + 1)).
      { unfold shr_fexp. change (Zdigits2 (2 ^ 53)) with 54. rewrite fexp_eq.
        replace (Z.max (54 + (ex + Z.pos k) - 53) (-1074) - (ex + Z.pos k)) with 1 by lia.
        reflexivity. }
      rewrite S2. cbn [shr_m].
      destruct (ex + Z.pos k + 1 <=? emax - prec); [|exact I].
      repeat split; [lia|].
      change (Z.pos 4503599627370496) with (2 ^ 52).
      replace (2 ^ 52 * 2 ^ (ex + Z.pos k + 1 + 1074)) with (2 ^ 53 * 2 ^ (ex + Z.pos k + 1074)).
      * exact Err.
      * replace (ex + Z.pos k + 1 + 1074) with (1 + (ex + Z.pos k + 1074)) by lia.
        rewrite (Z.pow_add_r 2 1) by lia. change (2 ^ 53) with (2 ^ 52 * 2 ^ 1). ring.
    + destruct m2 as [|q|q] eqn:Q; [lia| |lia].
      assert (Dq : Z.pos (digits2_pos q) = 53) by (apply digits2_pos_unique; lia).
      rewrite shr_fexp_still by (rewrite Dq, fexp_eq; lia).
      cbn [shr_m]. destruct (ex + Z.pos k <=? emax - prec); [|exact I].
      repeat split; [lia|exact Err].
Qed.

Lemma shl_align_value (mx : positive) (ex ez : Z) :
  ez <= ex -> Z.pos (fst (shl_align mx ex ez)) = Z.pos mx * 2 ^ (ex - ez).
Proof.
  intros L. unfold shl_align. destruct (ez - ex) as [|k|k] eqn:K; cbn [fst]; [|lia|].
  - replace (ex - ez) with 0 by lia. lia.
  - rewrite iter_xO_value. now replace (ex - ez) with (Z.pos k) by lia.
Qed.

Lemma valid_exponent (s : bool) (m : positive) (e : Z) :
  valid_binary (S754_finite s m e) = true -> -1074 <= e.
Proof.
  unfold valid_binary. cbn [SpecFloat.valid_binary]. unfold bounded, canonical_mantissa.
  intros V.
  apply andb_prop in V as [V _]. apply Z.eqb_eq in V. rewrite fexp_eq in V. lia.
Qed.

Lemma cond_Zopp_units (s : bool) (m : positive) (e ez : Z) :
  -1074 <= ez <= e ->
  cond_Zopp s (Z.pos m) * 2 ^ (e + 1074)
  = cond_Zopp s (Z.pos (fst (shl_align m e ez))) * 2 ^ (ez + 1074).
Proof.
  intros B. rewrite shl_align_value by lia.
  replace (e + 1074) with ((e - ez) + (ez + 1074)) by lia.
  rewrite Z.pow_add_r by lia. destruct s; cbn [cond_Zopp]; ring.
Qed.

(** One subtraction of doubles: the result is off the exact difference by at
    most 2^-53 of it. *)
Lemma sub_error (x y : float) (a b c : Z) :
  units x = Some a -> units y = Some b -> units (x - y) = Some c ->
  2 ^ 53 * Z.abs (c - (a - b)) <= Z.abs (a - b).
Proof.
  unfold units. rewrite FloatAxioms.sub_spec.
  pose proof (FloatAxioms.Prim2SF_valid x) as Vx.
  pose proof (FloatAxioms.Prim2SF_valid y) as Vy.
  destruct (Prim2SF x) as [sx|sx| |sx mx ex]; try discriminate;
    destruct (Prim2SF y) as [sy|sy| |sy my ey]; try discriminate;
    intros [= <-] [= <-].
  - destruct sx, sy; intros [= <-]; cbn; lia.
  - cbn [SF64sub SFsub]. intros [= <-].
    replace (cond_Zopp (negb sy) (Z.pos my) * 2 ^ (ey + 1074)
             - (0 - cond_Zopp sy (Z.pos my) * 2 ^ (ey + 1074))) with 0
      by (destruct sy; cbn [negb cond_Zopp]; ring).
    cbn [Z.abs]. lia.
  - cbn [SF64sub SFsub]. intros [= <-]. rewrite Z.sub_0_r, Z.sub_diag. cbn [Z.abs]. lia.
  - apply valid_exponent in Vx, Vy.
    unfold SF64sub. cbn [SFsub]. cbv zeta.
    rewrite (cond_Zopp_units sx mx ex (Z.min ex ey)) by lia.
    rewrite (cond_Zopp_units sy my ey (Z.min ex ey)) by lia.
    set (ez := Z.min ex ey).
    set (M := cond_Zopp sx (Z.pos (fst (shl_align mx ex ez)))
              - cond_Zopp sy (Z.pos (fst (shl_align my ey ez)))).
    replace (cond_Zopp sx (Z.pos (fst (shl_align mx ex ez))) * 2 ^ (ez + 1074)
             - cond_Zopp sy (Z.pos (fst (shl_align my ey ez))) * 2 ^ (ez + 1074))
      with (M * 2 ^ (ez + 1074)) by (unfold M; ring).
    assert (U : 0 < 2 ^ (ez + 1074)) by (apply Z.pow_pos_nonneg; lia).
    assert (Hz : -1074 <= ez) by lia.
    unfold binary_normalize. destruct M as [|m|m].
    + intros [= <-]. cbn. lia.
    + pose proof (binary_round_error false m ez Hz) as R.
      destruct (binary_round prec emax false m ez) as [?|?| |s' m' e']; try discriminate;
        try contradiction.
      destruct R as (-> & He & R). intros [= <-]. cbn [cond_Zopp].
      rewrite (Z.abs_eq (Z.pos m * 2 ^ (ez + 1074))) by lia. exact R.
    + pose proof (binary_round_error true m ez Hz) as R.
      destruct (binary_round prec emax true m ez) as [?|?| |s' m' e']; try discriminate;
        try contradiction.
      destruct R as (-> & He & R). intros Ec.
      assert (Ec' : c = cond_Zopp true (Z.pos m') * 2 ^ (e' + 1074)) by congruence.
      rewrite Ec'. clear Ec Ec'.
      replace (cond_Zopp true (Z.pos m') * 2 ^ (e' + 1074))
        with (- (Z.pos m' * 2 ^ (e' + 1074))) by (cbn [cond_Zopp]; ring).
      replace (Z.neg m * 2 ^ (ez + 1074)) with (- (Z.pos m * 2 ^ (ez + 1074)))
        by (rewrite <- Pos2Z.opp_pos; ring).
      revert R. generalize (Z.pos m' * 2 ^ (e' + 1074)) (Z.pos m * 2 ^ (ez + 1074)).
      change (2 ^ 53) with 9007199254740992. intros; lia.
Qed.

(** Perturbed minus delta against the baseline: off by at most 2^-51 of the
    larger of the two measurements. *)
Lemma round_trip_error (p b : float) (up ub ud ut : Z) :
  units p = Some up -> units b = Some ub ->
  units (p - b) = Some ud -> units (p - (p - b)) = Some ut ->
  2 ^ 51 * Z.abs (ut - ub) <= Z.max (Z.abs up) (Z.abs ub).
Proof.
  intros Hp Hb Hd Ht.
  pose proof (sub_error p b up ub ud Hp Hb Hd) as E1.
  pose proof (sub_error p (p - b) up ud ut Hp Hd Ht) as E2.
  change (2 ^ 53) with 9007199254740992 in *. change (2 ^ 51) with 2251799813685248.
  lia.
Qed.

(** ** The runs with exceptions, against the runs without *)

Lemma fold_Dead {A B : Type} (f : progress A -> B -> progress A) (l : list B)
  (out : list string) :
  (forall o b, f (Dead o) b = Dead o) -> fold_left f l (Dead out) = Dead out.
Proof.
  intros D. induction l as [|b l IH]; [reflexivity|]. cbn [fold_left]. now rewrite D.
Qed.

Lemma fold_dies {A B : Type} (f : progress A -> B -> progress A) (l : list B) (x : B) :
  (forall o b, f (Dead o) b = Dead o) ->
  (forall a o, exists o', f (Going a o) x = Dead o') ->
  In x l ->
  forall st, exists o', fold_left f l st = Dead o'.
Proof.
  intros D X. induction l as [|b l IH]; [intros []|].
  intros [->|I] st; cbn [fold_left].
  - destruct st as [a o|o].
    + destruct (X a o) as [o' ->]. exists o'. now apply fold_Dead.
    + rewrite D. exists o. now apply fold_Dead.
  - now apply IH.
Qed.

Lemma combine_map_r {A B : Type} (g : A -> B) (l : list A) :
  combine l (map g l) = map (fun x => (x, g x)) l.
Proof.
  induction l as [|x l IH]; [reflexivity|]. cbn [map combine]. now rewrite IH.
Qed.

Section ExportExc.
Context {F : Type} `{Scalar F}.
Variable w : World.
Variable no_root : string -> bool.
Variable pd : Pandas F.
Import ExportPtDelay.

Lemma exc_parse_stop_delays (path : option string) :
  ExportPtDelayExc.parse_stop_delays w no_root path
  = if rootless no_root path then Escapes else Returns (parse_stop_delays w path).
Proof.
  unfold ExportPtDelayExc.parse_stop_delays, parse_stop_delays, parse_tree, rootless.
  destruct path as [p|]; [destruct (no_root p); [reflexivity|]|];
    now destruct (_parse_root w _).
Qed.

Lemma exc_load_baseline_Dead (simdir : string) (o : list string) (sim : Z) :
  ExportPtDelayExc.load_baseline w no_root simdir (Dead o) sim = Dead o.
Proof. reflexivity. Qed.




Lemma exc_add_value_Dead (bl : dict Z (dict string (list F))) (v2s : dict Z (dict Z string))
  (sims : Z) (o : list string) (value : Z) :
  ExportPtDelayExc.add_value w no_root bl v2s sims (Dead o) value = Dead o.
Proof. reflexivity. Qed.



Lemma exc_add_sim_dies (bl : dict Z (dict string (list F))) (v2s : dict Z (dict Z string))
  (value sim : Z) (sims : list Z) :
  In sim sims ->
  rootless no_root
    (dict_get sim (match dict_get value v2s with Some m => m | None => [] end)) = true ->
  forall st, exists o,
    fold_left (ExportPtDelayExc.add_sim w no_root bl v2s value) sims st = Dead o.
Proof.
  intros I R. apply (fold_dies _ _ sim); [reflexivity| |exact I].
  intros rows o. exists o. unfold ExportPtDelayExc.add_sim.
  now rewrite exc_parse_stop_delays, R.
Qed.

(** A file without root among the perturbed files of the run, or among its
    baselines, ends the run. *)
Lemma exc_main_died (a : args) :
  (exists sim, In sim (range 1 (a_sims a + 1))
               /\ _find_baseline_path w (a_simdir a) sim <> ""
               /\ no_root (_find_baseline_path w (a_simdir a) sim) = true)
  \/ (exists value sim, In value _generate_values /\ In sim (range 1 (a_sims a + 1))
                        /\ rootless no_root (mixed_path w a value sim) = true) ->
  exists out, ExportPtDelayExc.main w no_root pd a = Died out.
Proof.
  intros [(sim & I & P & R)|(value & sim & Iv & Is & R)];
    unfold ExportPtDelayExc.main, ExportPtDelayExc.load_baselines.
  - destruct (fold_dies (ExportPtDelayExc.load_baseline w no_root (a_simdir a))
                (range 1 (a_sims a + 1)) sim (exc_load_baseline_Dead _)) with (st := Going (@nil (Z * dict string (list F))) [])
      as [o ->]; [|exact I|now exists o].
    intros bl o. exists o. unfold ExportPtDelayExc.load_baseline.
    apply String.eqb_neq in P. rewrite P, exc_parse_stop_delays. cbn [rootless].
    now rewrite R.
  - destruct (fold_left (ExportPtDelayExc.load_baseline w no_root (a_simdir a)) _ _)
      as [bl out1|o]; [|now exists o].
    destruct (fold_dies (ExportPtDelayExc.add_value w no_root bl (discover w (a_simdir a))
                           (a_sims a))
                _generate_values value (exc_add_value_Dead _ _ _))
      with (st := Going (@nil (Z * list (row F))) out1) as [o ->]; [|exact Iv|now exists o].
    intros tables o. unfold ExportPtDelayExc.add_value.
    destruct (exc_add_sim_dies bl (discover w (a_simdir a)) value sim _ Is R (Going [] o))
      as [o' ->]. now exists o'.
Qed.

End ExportExc.

Section OldMethodExcFacts.
Context {F : Type} `{Scalar F}.
Variable w : World.
Variable no_root : string -> bool.
Variable pd : Pandas F.
Import OldMethod.

Lemma exc_extract_pt_durations (path : option string) :
  OldMethodExc.extract_pt_durations w no_root path
  = if rootless no_root path then Escapes else Returns (extract_pt_durations w path).
Proof.
  unfold OldMethodExc.extract_pt_durations, extract_pt_durations, parse_tree, rootless.
  destruct path as [p|]; [destruct (no_root p); [reflexivity|]|];
    now destruct (_parse_root w _).
Qed.

Lemma add_files_out (files : list (Z * string)) (acc : dict string F * dict string Z)
  (o1 o2 : list string) :
  fold_left (add_file w) files (acc, (o1 ++ o2)%list)
  = (fst (fold_left (add_file w) files (acc, o2)),
     (o1 ++ snd (fold_left (add_file w) files (acc, o2)))%list).
Proof.
  revert acc o2. induction files as [|file files IH]; intros acc o2; [reflexivity|].
  cbn [fold_left]. unfold add_file at 2 4 6.
  destruct (extract_pt_durations w (Some (snd file))) as [durs lines].
  rewrite <- app_assoc. apply IH.
Qed.

Lemma exc_add_files (files : list (Z * string)) (acc : dict string F * dict string Z)
  (out : list string) :
  (forall file, In file files -> no_root (snd file) = false) ->
  fold_left (OldMethodExc.add_file w no_root) files (Going acc out)
  = Going (fst (fold_left (add_file w) files (acc, [])))
          (out ++ snd (fold_left (add_file w) files (acc, [])))%list.
Proof.
  intros R.
  assert (G : forall o, fold_left (OldMethodExc.add_file w no_root) files (Going acc o)
                        = Going (fst (fold_left (add_file w) files (acc, o)))
                                (snd (fold_left (add_file w) files (acc, o)))).
  { revert acc R. induction files as [|file files IH]; intros acc R o; [reflexivity|].
    cbn [fold_left]. unfold OldMethodExc.add_file at 2, add_file at 2 4.
    rewrite exc_extract_pt_durations. cbn [rootless].
    rewrite (R file (or_introl eq_refl)).
    destruct (extract_pt_durations w (Some (snd file))) as [durs lines].
    apply IH. intros f I. apply R. now right. }
  rewrite G. pose proof (add_files_out files acc out []) as E.
  rewrite app_nil_r in E. now rewrite E.
Qed.

Lemma exc_old_add_value (baseline : dict string F) (v2s : dict Z (list (Z * string)))
  (tables : list (Z * list (row F))) (out : list string) (value : Z) :
  (forall file, In file (match dict_get value v2s with Some l => l | None => [] end) ->
     no_root (snd file) = false) ->
  OldMethodExc.add_value w no_root baseline v2s (Going tables out) value
  = Going (tables ++ [(value, fst (value_rows w baseline v2s value))])%list
          (out ++ snd (value_rows w baseline v2s value))%list.
Proof.
  intros R. unfold OldMethodExc.add_value, value_rows, aggregate.
  rewrite (exc_add_files _ _ _ R).
  now destruct (fold_left (add_file w) _ _) as [acc lines].
Qed.

Lemma exc_old_add_values (baseline : dict string F) (v2s : dict Z (list (Z * string)))
  (values : list Z) (tables : list (Z * list (row F))) (out : list string) :
  (forall value file, In value values ->
     In file (match dict_get value v2s with Some l => l | None => [] end) ->
     no_root (snd file) = false) ->
  fold_left (OldMethodExc.add_value w no_root baseline v2s) values (Going tables out)
  = Going (tables ++ map (fun v => (v, fst (value_rows w baseline v2s v))) values)%list
          (out ++ flat_map (fun v => snd (value_rows w baseline v2s v)) values)%list.
Proof.
  revert tables out. induction values as [|v values IH]; intros tables out R.
  - cbn [fold_left flat_map map]. now rewrite !app_nil_r.
  - cbn [fold_left flat_map map].
    rewrite exc_old_add_value by (intros file I; now apply (R v file (or_introl eq_refl))).
    rewrite IH, <- !app_assoc; [reflexivity|].
    intros value file Iv If. apply (R value file); [now right|exact If].
Qed.

(** No file that the tripinfo run parses is without a root, and the workbook
    has a sheet when the writer is closed. *)
Lemma exc_old_main_ended (a : args) :
  no_root (a_baseline a) = false ->
  (vd_baseline w a <> [] ->
   vd_values w a <> []
   /\ forall value file, In value (vd_values w a) -> In file (vd_files w a value) ->
        no_root (snd file) = false) ->
  OldMethodExc.main w no_root pd a = Ended (main w pd a).
Proof.
  intros RB RV. unfold OldMethodExc.main, main. cbv zeta.
  rewrite exc_extract_pt_durations. cbn [rootless]. rewrite RB.
  unfold vd_baseline in RV.
  destruct (extract_pt_durations w (Some (a_baseline a))) as [[|kv b] out0]; [reflexivity|].
  destruct RV as [NV R]; [discriminate|]. cbn [fst] in *.
  unfold vd_values, vd_files in *.
  rewrite (exc_old_add_values (kv :: b) (discover_value_to_sims w (a_simdir a)) _ [] out0 R).
  cbn [app]. rewrite !map_map, combine_map_r, !map_map. cbn [fst snd].
  rewrite (flat_map_concat_map (fun v => snd (value_rows w (kv :: b)
                                                 (discover_value_to_sims w (a_simdir a)) v))).
  rewrite <- app_assoc.
  destruct (sort_by Z.ltb (keys (discover_value_to_sims w (a_simdir a)))) as [|v vs];
    [congruence|reflexivity].
Qed.

(** A usable baseline and no value in the directory: the writer has no
    sheet to save. *)
Lemma exc_old_main_no_sheet (a : args) :
  no_root (a_baseline a) = false ->
  vd_baseline w a <> [] ->
  vd_values w a = [] ->
  OldMethodExc.main w no_root pd a
  = Died (snd (extract_pt_durations w (Some (a_baseline a)))).
Proof.
  intros RB B V. unfold OldMethodExc.main. cbv zeta.
  rewrite exc_extract_pt_durations. cbn [rootless]. rewrite RB.
  unfold vd_baseline, vd_values in *.
  destruct (extract_pt_durations w (Some (a_baseline a))) as [[|kv b] out0];
    [cbn [fst] in B; congruence|].
  cbn [snd]. now rewrite V.
Qed.

Lemma exc_old_add_file_Dead (o : list string) (file : Z * string) :
  OldMethodExc.add_file w no_root (Dead o) file = Dead o.
Proof. reflexivity. Qed.

Lemma exc_old_add_value_Dead (baseline : dict string F) (v2s : dict Z (list (Z * string)))
  (o : list string) (value : Z) :
  OldMethodExc.add_value w no_root baseline v2s (Dead o) value = Dead o.
Proof. reflexivity. Qed.

(** A file without root, the baseline or a replicate, ends the run. *)
Lemma exc_old_main_died (a : args) :
  no_root (a_baseline a) = true
  \/ (vd_baseline w a <> []
      /\ exists value file, In value (vd_values w a) /\ In file (vd_files w a value)
                            /\ no_root (snd file) = true) ->
  exists out, OldMethodExc.main w no_root pd a = Died out.
Proof.
  unfold OldMethodExc.main. cbv zeta. rewrite exc_extract_pt_durations. cbn [rootless].
  intros [R|(B & value & file & Iv & If & R)].
  - rewrite R. now exists [].
  - destruct (no_root (a_baseline a)); [now exists []|].
    unfold vd_baseline, vd_values, vd_files in *.
    destruct (extract_pt_durations w (Some (a_baseline a))) as [[|kv b] out0];
      [cbn [fst] in B; congruence|].
    destruct (fold_dies (OldMethodExc.add_value w no_root (kv :: b)
                           (discover_value_to_sims w (a_simdir a)))
                (sort_by Z.ltb (keys (discover_value_to_sims w (a_simdir a))))
                value (exc_old_add_value_Dead _ _))
      with (st := Going (@nil (Z * list (row F))) out0) as [o ->]; [|exact Iv|now exists o].
    intros tables o. unfold OldMethodExc.add_value.
    destruct (fold_dies (OldMethodExc.add_file w no_root)
                (match dict_get value (discover_value_to_sims w (a_simdir a)) with
                 | Some l => l
                 | None => []
                 end) file exc_old_add_file_Dead)
      with (st := Going (@nil (string * F), @nil (string * Z)) o) as [o' ->];
      [|exact If|now exists o'].
    intros acc o1. exists o1. unfold OldMethodExc.add_file.
    rewrite exc_extract_pt_durations. cbn [rootless]. now rewrite R.
Qed.

End OldMethodExcFacts.

(* ================================================================== *)
(** * The claims of the specification *)

(** ** C1: The aligner emits min(b, p) records per common identity *)

(** C1.  For a baseline and a perturbed MeasurementSet and an identity [k],
    the records the aligner emits for [k] are, when [k] is in both sets with
    [b] and [p] occurrences, exactly [min b p] many, the [i]-th of them
    carrying rank [i+1] and the [i]-th entry of each side's list; when [k]
    is missing from either set there is none. *)
Theorem align_min_occurrences {F : Type} `{Scalar F}
  (value sim : Z) (base mixed : dict string (list F)) (k : string) :
  NoDup (keys base) ->
  let rows := filter (fun r => String.eqb (ExportPtDelay.r_stop r) k)
                     (ExportPtDelay.align value sim base mixed) in
  match dict_get k base, dict_get k mixed with
  | Some bl, Some ml =>
      length rows = Nat.min (length bl) (length ml)
      /\ forall i, (i < Nat.min (length bl) (length ml))%nat ->
           nth_error rows i =
           Some {| ExportPtDelay.r_value := value;
                   ExportPtDelay.r_sim := sim;
                   ExportPtDelay.r_stop := k;
                   ExportPtDelay.r_occurrence := Z.of_nat i + 1;
                   ExportPtDelay.r_delay_baseline_s := nth i bl f0;
                   ExportPtDelay.r_delay_mixed_s := nth i ml f0;
                   ExportPtDelay.r_delay_delta_s := fsub (nth i ml f0) (nth i bl f0) |}
  | _, _ => rows = []
  end.
Proof.
  intros N rows. subst rows. rewrite (filter_align value sim base mixed k N).
  destruct (dict_get k base) as [bl|]; [|reflexivity].
  destruct (dict_get k mixed) as [ml|]; [|reflexivity].
  split.
  - apply stop_rows_length.
  - intros i L. now apply stop_rows_nth.
Qed.

(** C1 in the scenario of the specification: two records for stop "A". *)
Lemma align_min_occurrences_witness :
  length (filter (fun r => String.eqb (ExportPtDelay.r_stop r) "A")
            (ExportPtDelay.align 1000 1 two_stops_base two_stops_mixed)) = 2%nat
  /\ nth_error (filter (fun r => String.eqb (ExportPtDelay.r_stop r) "A")
                  (ExportPtDelay.align 1000 1 two_stops_base two_stops_mixed)) 1 =
     Some {| ExportPtDelay.r_value := 1000;
             ExportPtDelay.r_sim := 1;
             ExportPtDelay.r_stop := "A";
             ExportPtDelay.r_occurrence := 2;
             ExportPtDelay.r_delay_baseline_s := 20%float;
             ExportPtDelay.r_delay_mixed_s := 21%float;
             ExportPtDelay.r_delay_delta_s := 1%float |}.
Proof.
  assert (N : NoDup (keys two_stops_base)) by apply parse_stop_delays_NoDup.
  pose proof (align_min_occurrences 1000 1 two_stops_base two_stops_mixed "A" N) as T.
  cbv zeta in T. vm_compute in T. destruct T as [L R].
  split; [exact L | exact (R 1%nat (le_n 2))].
Defined.

(** ** C2: Exit status *)




(** ** C3: What the stop-delay extractor reads and stores *)

(** C3 as stated fails: with a NaN among the delays of a stop, the stored
    occurrences are not in ascending order of value. *)
Lemma nan_occurrences_keep_file_order :
  dict_get "S1" (fst (ExportPtDelay.parse_stop_delays (F := float) nan_first_world
                        (Some "/sim/stop_events_2000_1.xml")))
  = Some [PrimFloat.nan; 0.5%float]
  /\ fle PrimFloat.nan 0.5%float = false.
Proof. split; vm_compute; reflexivity. Qed.

(** C3, amended.  For every stop-delay file: the identity of a record is its
    [busStop] or, if absent, its [stop] (an empty [busStop] counts as
    absent); its delay is [float] of the attribute [delay], and 0 when the
    attribute is missing; a record whose [delay] is present and unreadable is
    skipped; and each identity is stored with its occurrences sorted by value
    ascending whenever [<] and [<=] order them totally, for IEEE doubles
    whenever none of them is NaN.  With a NaN among them the stored list is a
    rearrangement of the occurrences. *)
Theorem stop_delay_extraction :
  (forall (F : Type) (S : Scalar F) (w : World) (path : option string),
     float_of_string "0" = Some f0 ->
     (forall el s, attr "busStop" el = Some s -> s <> "" ->
        ExportPtDelay.stop_id_of el = Some s)
     /\ (forall el, attr "busStop" el = None \/ attr "busStop" el = Some "" ->
           ExportPtDelay.stop_id_of el = attr "stop" el)
     /\ (forall d el s t v, ExportPtDelay.stop_id_of el = Some s -> s <> "" ->
           attr "delay" el = Some t -> float_of_string t = Some v ->
           ExportPtDelay.add_stopinfo d el = dict_append s v d)
     /\ (forall d el s, ExportPtDelay.stop_id_of el = Some s -> s <> "" ->
           attr "delay" el = None ->
           ExportPtDelay.add_stopinfo d el = dict_append s f0 d)
     /\ (forall d el t, attr "delay" el = Some t -> float_of_string t = None ->
           ExportPtDelay.add_stopinfo (F := F) d el = d)
     /\ (forall k,
           match _parse_root w path with
           | Raises _ => dict_get k (fst (ExportPtDelay.parse_stop_delays w path)) = None
           | Root root =>
               match occurrences k (findall "stopinfo" root) with
               | [] => dict_get k (fst (ExportPtDelay.parse_stop_delays w path)) = None
               | _ :: _ =>
                   exists l,
                     dict_get k (fst (ExportPtDelay.parse_stop_delays w path)) = Some l
                     /\ Permutation (occurrences k (findall "stopinfo" root)) l
                     /\ (ordered_by flt fle l -> Sorted (fun a b => fle a b = true) l)
               end
           end))
  /\ (forall (w : World) (path : option string) (k : string) (l : list float),
        dict_get k (fst (ExportPtDelay.parse_stop_delays w path)) = Some l ->
        Forall (fun x => PrimFloat.is_nan x = false) l ->
        Sorted (fun a b => PrimFloat.leb a b = true) l).
Proof.
  split.
  - intros F S w path Z0. repeat apply conj.
    + intros el s B N. unfold ExportPtDelay.stop_id_of, py_or. rewrite B. simpl.
      destruct (String.eqb s "") eqn:E; [|reflexivity].
      apply String.eqb_eq in E. contradiction.
    + intros el [B|B]; unfold ExportPtDelay.stop_id_of, py_or; now rewrite B.
    + intros d el s t v I N D P. unfold ExportPtDelay.add_stopinfo. rewrite I, D, P.
      apply String.eqb_neq in N. now rewrite N.
    + intros d el s I N D. unfold ExportPtDelay.add_stopinfo. rewrite I, D, Z0.
      apply String.eqb_neq in N. now rewrite N.
    + intros d el t D P. unfold ExportPtDelay.add_stopinfo. rewrite D, P.
      destruct (ExportPtDelay.stop_id_of el) as [s|]; [|reflexivity].
      now destruct (String.eqb s "").
    + intro k. destruct (_parse_root w path) as [e|root] eqn:R.
      * now rewrite (parse_stop_delays_raises w path e R).
      * rewrite (parse_stop_delays_get w path root k R).
        destruct (occurrences k (findall "stopinfo" root)) as [|x xs] eqn:E; [reflexivity|].
        exists (sort_by flt (x :: xs)). split; [reflexivity|].
        split; [apply sort_by_perm|].
        intro O. apply sort_by_sorted.
        intros a b Ia Ib. apply O; eapply Permutation_in; try apply sort_by_perm; assumption.
  - intros w path k l G N. apply dict_get_In, parse_stop_delays_values in G.
    destruct G as [l0 [_ ->]].
    change (Sorted (fun a b => fle (F := float) a b = true) (sort_by flt l0)).
    apply sort_by_sorted, no_nan_ordered. rewrite Forall_forall in *. intros x I. apply N.
    eapply Permutation_in; [apply sort_by_perm | exact I].
Qed.

(** C3 at a file that spells the stop both ways, omits one delay and garbles
    another: stop "S1" is stored with the delays 0, 1.5 and 3, ascending. *)
Lemma stop_delay_extraction_witness :
  float_of_string (F := float) "0" = Some f0
  /\ dict_get "S1" (fst (ExportPtDelay.parse_stop_delays (F := float) mixed_spellings_world
                           (Some "/sim/stop_events_2000_1.xml")))
     = Some [0%float; 1.5%float; 3%float]
  /\ Sorted (fun a b => fle a b = true) [0%float; 1.5%float; 3%float].
Proof.
  assert (Z0 : float_of_string (F := float) "0" = Some f0) by (vm_compute; reflexivity).
  destruct stop_delay_extraction as [T X].
  destruct (T float _ mixed_spellings_world (Some "/sim/stop_events_2000_1.xml") Z0)
    as (_ & _ & _ & _ & _ & G).
  assert (E : dict_get "S1" (fst (ExportPtDelay.parse_stop_delays (F := float)
                mixed_spellings_world (Some "/sim/stop_events_2000_1.xml")))
              = Some [0%float; 1.5%float; 3%float]) by (vm_compute; reflexivity).
  split; [exact Z0|]. split; [exact E|].
  apply (X _ _ _ _ E). repeat constructor.
Defined.

(** ** C4: Vehicle durations are averaged over the replicates *)

(** C4.  In vehicle-duration mode the rows of a value hold, for a vehicle of
    the baseline that at least one replicate of the value reports, exactly
    one row: its average duration is the sum of the durations the replicates
    report for it divided by their number, its delay is that average minus
    the baseline duration, and its count is the number of those replicates;
    a vehicle missing from the baseline or from every replicate has no row.
    In the scenario of the specification (baseline 100.0, replicates 110.0
    and 130.0) the sheet holds the single row 120.0, 20.0, 2. *)
Theorem one_row_per_vehicle :
  (forall (F : Type) (S : Scalar F) (w : World) (a : OldMethod.args)
          (value : Z) (vid : string),
     let ds := durations_of w vid (vd_files w a value) in
     let avg := fdiv (fold_left fadd ds f0) (of_int (Z.of_nat (length ds))) in
     filter (fun r => String.eqb (OldMethod.r_vehicle_id r) vid) (vd_rows_of w a value) =
     match dict_get vid (vd_baseline w a), ds with
     | Some base_dur, _ :: _ =>
         [{| OldMethod.r_vehicle_id := vid;
             OldMethod.r_baseline_duration_s := base_dur;
             OldMethod.r_avg_duration_s := avg;
             OldMethod.r_delay_s := fsub avg base_dur;
             OldMethod.r_sims_count := Z.of_nat (length ds) |}]
     | _, _ => []
     end)
  /\ In {| OldMethod.sheet_name := "5000";
           OldMethod.columns := OldMethod.detail_columns;
           OldMethod.body :=
             OldMethod.Detail
               [{| OldMethod.r_vehicle_id := "bus_1";
                   OldMethod.r_baseline_duration_s := 100%float;
                   OldMethod.r_avg_duration_s := 120%float;
                   OldMethod.r_delay_s := 20%float;
                   OldMethod.r_sims_count := 2 |}] |}
        (vd_written (OldMethod.main (F := float) bus_world pandas_spec bus_args)).
Proof.
  split.
  - intros F S w a value vid ds avg. rewrite vd_rows_of_eq.
    rewrite (filter_vehicle_rows (vd_baseline w a)
               (fun k b => match durations_of w k (vd_files w a value) with
                           | [] => []
                           | _ :: _ => [vehicle_row k b (durations_of w k (vd_files w a value))]
                           end) vid).
    + fold ds. destruct (dict_get vid (vd_baseline w a)) as [b|]; [|reflexivity].
      now destruct ds.
    + apply extract_pt_durations_NoDup.
    + intros k b r I. destruct (durations_of w k (vd_files w a value)); [destruct I|].
      destruct I as [<-|[]]. reflexivity.
  - vm_compute. auto.
Qed.

(** ** C5: Values without records *)

(** C5.  A requested value with no aligned record still has its sheet, with
    no row, in the workbook, and its row in the summary, with count 0 and
    every statistic 0.0; in both scripts. *)
Theorem empty_value_still_reported {F : Type} `{Scalar F} (w : World) (pd : Pandas F) :
  (forall (a : ExportPtDelay.args) (value : Z),
     In value ExportPtDelay._generate_values ->
     rows_of w a value = [] ->
     In {| ExportPtDelay.sheet_name := str_of_Z value;
           ExportPtDelay.columns := ExportPtDelay.detail_columns;
           ExportPtDelay.body := ExportPtDelay.Detail [] |}
        (written (ExportPtDelay.main w pd a))
     /\ In {| s_value := value; s_count := 0; s_mean := f0; s_median := f0;
              s_p10 := f0; s_p90 := f0; s_min := f0; s_max := f0 |}
           (summary_rows (written (ExportPtDelay.main w pd a))))
  /\ (forall (a : OldMethod.args) (value : Z),
        vd_baseline w a <> [] ->
        In value (vd_values w a) ->
        vd_rows_of w a value = [] ->
        In {| OldMethod.sheet_name := str_of_Z value;
              OldMethod.columns := OldMethod.detail_columns;
              OldMethod.body := OldMethod.Detail [] |}
           (vd_written (OldMethod.main w pd a))
        /\ In {| s_value := value; s_count := 0; s_mean := f0; s_median := f0;
                 s_p10 := f0; s_p90 := f0; s_min := f0; s_max := f0 |}
              (vd_summary_rows (vd_written (OldMethod.main w pd a)))).
Proof.
  split.
  - intros a value Iv E. split.
    + unfold written. rewrite main_workbook. apply in_or_app. left.
      apply in_map_iff. exists value. split; [|assumption].
      unfold ExportPtDelay.value_sheet. now rewrite E.
    + rewrite summary_rows_main. apply in_map_iff. exists value. split; [|assumption].
      now rewrite E.
  - intros a value B Iv E. destruct (vd_sheets w pd a B) as [_ S]. split.
    + unfold vd_written. destruct (vd_main_completes w pd a B) as (_ & _ & ->).
      apply in_or_app. left. apply in_map_iff. exists value. split; [|assumption].
      unfold OldMethod.value_sheet. now rewrite E.
    + rewrite S. apply in_map_iff. exists value. split; [|assumption]. now rewrite E.
Qed.

(** C5 at value 2000 of a stop-delay run with files for value 1000 only, and
    at value 7000 of the vehicle-duration scenario. *)
Lemma empty_value_still_reported_witness :
  (In {| ExportPtDelay.sheet_name := "2000";
         ExportPtDelay.columns := ExportPtDelay.detail_columns;
         ExportPtDelay.body := ExportPtDelay.Detail [] |}
      (written (ExportPtDelay.main (F := float) tenths_world pandas_spec tenths_args))
   /\ In (zero_summary 2000)
         (summary_rows (written (ExportPtDelay.main (F := float) tenths_world pandas_spec
                                   tenths_args))))
  /\ (In {| OldMethod.sheet_name := "7000";
            OldMethod.columns := OldMethod.detail_columns;
            OldMethod.body := OldMethod.Detail [] |}
         (vd_written (OldMethod.main (F := float) bus_world pandas_spec bus_args))
      /\ In (zero_summary 7000)
            (vd_summary_rows (vd_written (OldMethod.main (F := float) bus_world pandas_spec
                                            bus_args)))).
Proof.
  destruct (empty_value_still_reported (F := float) tenths_world pandas_spec) as [A _].
  destruct (empty_value_still_reported (F := float) bus_world pandas_spec) as [_ B].
  split.
  - apply (A tenths_args 2000); [vm_compute; tauto | vm_compute; reflexivity].
  - apply (B bus_args 7000);
      [vm_compute; discriminate | vm_compute; tauto | vm_compute; reflexivity].
Defined.

(** ** C6: Deltas *)

(** C6 as stated fails: for a baseline of 1.0 and an unbounded perturbed
    value (the delay [inf], which [float] accepts) the emitted delta is
    infinite, and perturbed minus delta is NaN: not the baseline, and within
    no tolerance of it. *)
Lemma roundtrip_lost_at_infinity :
  exists r,
    In r (detail_rows (written (ExportPtDelay.main (F := float)
                                  unbounded_world pandas_spec tenths_args)))
    /\ ExportPtDelay.r_delay_baseline_s r = 1%float
    /\ ExportPtDelay.r_delay_mixed_s r = PrimFloat.infinity
    /\ ExportPtDelay.r_delay_delta_s r = PrimFloat.infinity
    /\ PrimFloat.is_nan
         (fsub (ExportPtDelay.r_delay_mixed_s r) (ExportPtDelay.r_delay_delta_s r)) = true
    /\ forall eps : float,
         PrimFloat.leb
           (PrimFloat.abs
              (PrimFloat.sub
                 (fsub (ExportPtDelay.r_delay_mixed_s r) (ExportPtDelay.r_delay_delta_s r))
                 (ExportPtDelay.r_delay_baseline_s r)))
           eps = false.
Proof.
  eexists. split; [vm_compute; left; reflexivity|].
  repeat split; try (vm_compute; reflexivity).
  intro eps. rewrite FloatAxioms.leb_spec.
  match goal with
  | |- SFleb (Prim2SF ?x) _ = false =>
      let v := eval vm_compute in (Prim2SF x) in change (Prim2SF x) with v
  end.
  reflexivity.
Qed.

(** C6, amended.  Every emitted delta is the perturbed measurement of its
    row minus the baseline measurement of that row, in the arithmetic of the
    run, in both scripts.  In the doubles of a run, whenever the two
    measurements, the delta and perturbed minus delta are finite, perturbed
    minus delta is the baseline again up to 2^-51 of the larger of the two
    measurements (values counted in units of 2^-1074). *)
Theorem delta_is_perturbed_minus_baseline :
  (forall (F : Type) (S : Scalar F) (w : World) (pd : Pandas F) (a : ExportPtDelay.args),
     Forall (fun r => ExportPtDelay.r_delay_delta_s r
                      = fsub (ExportPtDelay.r_delay_mixed_s r)
                             (ExportPtDelay.r_delay_baseline_s r))
            (detail_rows (written (ExportPtDelay.main w pd a))))
  /\ (forall (F : Type) (S : Scalar F) (w : World) (pd : Pandas F) (a : OldMethod.args),
        Forall (fun r => OldMethod.r_delay_s r
                         = fsub (OldMethod.r_avg_duration_s r)
                                (OldMethod.r_baseline_duration_s r))
               (vd_detail_rows (vd_written (OldMethod.main w pd a))))
  /\ (forall (parse : string -> option float) (w : World) (pd : Pandas float)
             (a : ExportPtDelay.args),
        Forall (fun r =>
                  forall p b d t : Z,
                    units (ExportPtDelay.r_delay_mixed_s r) = Some p ->
                    units (ExportPtDelay.r_delay_baseline_s r) = Some b ->
                    units (ExportPtDelay.r_delay_delta_s r) = Some d ->
                    units (PrimFloat.sub (ExportPtDelay.r_delay_mixed_s r)
                                         (ExportPtDelay.r_delay_delta_s r)) = Some t ->
                    2 ^ 51 * Z.abs (t - b) <= Z.max (Z.abs p) (Z.abs b))
               (detail_rows
                  (written (@ExportPtDelay.main float (IEEE.with_float parse) w pd a))))
  /\ (forall (parse : string -> option float) (w : World) (pd : Pandas float)
             (a : OldMethod.args),
        Forall (fun r =>
                  forall p b d t : Z,
                    units (OldMethod.r_avg_duration_s r) = Some p ->
                    units (OldMethod.r_baseline_duration_s r) = Some b ->
                    units (OldMethod.r_delay_s r) = Some d ->
                    units (PrimFloat.sub (OldMethod.r_avg_duration_s r)
                                         (OldMethod.r_delay_s r)) = Some t ->
                    2 ^ 51 * Z.abs (t - b) <= Z.max (Z.abs p) (Z.abs b))
               (vd_detail_rows
                  (vd_written (@OldMethod.main float (IEEE.with_float parse) w pd a)))).
Proof.
  assert (A : forall (F : Type) (S : Scalar F) (w : World) (pd : Pandas F)
                (a : ExportPtDelay.args),
             Forall (fun r => ExportPtDelay.r_delay_delta_s r
                              = fsub (ExportPtDelay.r_delay_mixed_s r)
                                     (ExportPtDelay.r_delay_baseline_s r))
                    (detail_rows (written (ExportPtDelay.main w pd a)))).
  { intros. rewrite main_detail_rows. apply Forall_forall. intros r I.
    apply in_flat_map in I. destruct I as [v [_ I]]. now apply rows_of_In in I. }
  assert (B : forall (F : Type) (S : Scalar F) (w : World) (pd : Pandas F)
                (a : OldMethod.args),
             Forall (fun r => OldMethod.r_delay_s r
                              = fsub (OldMethod.r_avg_duration_s r)
                                     (OldMethod.r_baseline_duration_s r))
                    (vd_detail_rows (vd_written (OldMethod.main w pd a)))).
  { intros. apply Forall_forall. intros r I. apply vd_main_detail_rows in I.
    destruct I as [v [_ I]]. rewrite vd_rows_of_eq in I. apply in_flat_map in I.
    destruct I as [kv [_ I]].
    destruct (durations_of w (fst kv) (vd_files w a v)); [destruct I|].
    destruct I as [<-|[]]. reflexivity. }
  repeat apply conj; trivial.
  - intros parse w pd a. specialize (A float (IEEE.with_float parse) w pd a).
    rewrite Forall_forall in *. intros r I p b d t Hp Hb Hd Ht.
    rewrite (A r I) in Hd, Ht. cbn [fsub IEEE.with_float] in Hd, Ht.
    exact (round_trip_error _ _ p b d t Hp Hb Hd Ht).
  - intros parse w pd a. specialize (B float (IEEE.with_float parse) w pd a).
    rewrite Forall_forall in *. intros r I p b d t Hp Hb Hd Ht.
    rewrite (B r I) in Hd, Ht. cbn [fsub IEEE.with_float] in Hd, Ht.
    exact (round_trip_error _ _ p b d t Hp Hb Hd Ht).
Qed.

(** C6 at a baseline of 0.1 and a perturbed value of 0.5: the delta is 0.4
    and perturbed minus delta is 0.09999999999999998, two units of 2^-56 off
    the baseline and within the bound. *)
Lemma delta_is_perturbed_minus_baseline_witness :
  exists r,
    In r (detail_rows (written (ExportPtDelay.main (F := float)
                                  tenths_world pandas_spec tenths_args)))
    /\ ExportPtDelay.r_delay_baseline_s r = 0.1%float
    /\ ExportPtDelay.r_delay_mixed_s r = 0.5%float
    /\ ExportPtDelay.r_delay_delta_s r = 0.4%float
    /\ PrimFloat.sub (ExportPtDelay.r_delay_mixed_s r) (ExportPtDelay.r_delay_delta_s r)
       = 0.09999999999999998%float
    /\ units 0.1%float = Some (7205759403792794 * 2 ^ 1018)
    /\ units 0.09999999999999998%float = Some (7205759403792792 * 2 ^ 1018)
    /\ 2 ^ 51 * Z.abs (7205759403792792 * 2 ^ 1018 - 7205759403792794 * 2 ^ 1018)
       <= Z.max (Z.abs (2 ^ 1073)) (Z.abs (7205759403792794 * 2 ^ 1018)).
Proof.
  pose (r0 := {| ExportPtDelay.r_value := 1000; ExportPtDelay.r_sim := 1;
                 ExportPtDelay.r_stop := "A"; ExportPtDelay.r_occurrence := 1;
                 ExportPtDelay.r_delay_baseline_s := 0.1%float;
                 ExportPtDelay.r_delay_mixed_s := 0.5%float;
                 ExportPtDelay.r_delay_delta_s := 0.4%float |}).
  assert (I : In r0 (detail_rows (written (@ExportPtDelay.main float
                                              (IEEE.with_float IEEE.parse_float)
                                              tenths_world pandas_spec tenths_args))))
    by (vm_compute; left; reflexivity).
  destruct delta_is_perturbed_minus_baseline as (_ & _ & T & _).
  pose proof (proj1 (Forall_forall _ _)
                (T IEEE.parse_float tenths_world pandas_spec tenths_args) r0 I) as R.
  assert (Hp : units (ExportPtDelay.r_delay_mixed_s r0) = Some (2 ^ 1073))
    by (vm_compute; reflexivity).
  assert (Hb : units (ExportPtDelay.r_delay_baseline_s r0)
               = Some (7205759403792794 * 2 ^ 1018)) by (vm_compute; reflexivity).
  assert (Hd : units (ExportPtDelay.r_delay_delta_s r0)
               = Some (7205759403792794 * 2 ^ 1020)) by (vm_compute; reflexivity).
  assert (Ht : units (PrimFloat.sub (ExportPtDelay.r_delay_mixed_s r0)
                                    (ExportPtDelay.r_delay_delta_s r0))
               = Some (7205759403792792 * 2 ^ 1018)) by (vm_compute; reflexivity).
  exists r0.
  split; [exact I|]. do 4 (split; [vm_compute; reflexivity|]).
  split; [exact Hb|]. split; [exact Ht|].
  exact (R _ _ _ _ Hp Hb Hd Ht).
Defined.

(** ** C7: Sheets and their order *)

(** C7.  The stop-delay workbook holds one sheet per value of the fixed
    enumeration 1000..33000 by 1000 and 36000..58000 by 2000, in that order
    whatever the directory holds, and then the summary sheet, whose rows
    follow the same ascending values.  The vehicle-duration workbook holds
    one sheet per value discovered from the file names, in ascending order
    whatever the order of the directory listing, and then, when there is a
    value at all, the summary sheet with its rows in the same order. *)
Theorem sheets_in_requested_order {F : Type} `{Scalar F} (w : World) (pd : Pandas F) :
  (forall a : ExportPtDelay.args,
     map ExportPtDelay.sheet_name (written (ExportPtDelay.main w pd a))
     = (map str_of_Z ExportPtDelay._generate_values ++ ["summary"])%list
     /\ map s_value (summary_rows (written (ExportPtDelay.main w pd a)))
        = ExportPtDelay._generate_values)
  /\ ExportPtDelay._generate_values =
     [1000; 2000; 3000; 4000; 5000; 6000; 7000; 8000; 9000; 10000; 11000; 12000;
     13000; 14000; 15000; 16000; 17000; 18000; 19000; 20000; 21000; 22000; 23000;
     24000; 25000; 26000; 27000; 28000; 29000; 30000; 31000; 32000; 33000; 36000;
     38000; 40000; 42000; 44000; 46000; 48000; 50000; 52000; 54000; 56000; 58000]
  /\ StronglySorted Z.lt ExportPtDelay._generate_values
  /\ (forall a : OldMethod.args,
        vd_baseline w a <> [] ->
        map OldMethod.sheet_name (vd_written (OldMethod.main w pd a))
        = (map str_of_Z (vd_values w a)
           ++ match vd_values w a with [] => [] | _ :: _ => ["summary"] end)%list
        /\ map s_value (vd_summary_rows (vd_written (OldMethod.main w pd a))) = vd_values w a
        /\ StronglySorted Z.lt (vd_values w a)
        /\ (forall value,
              In value (vd_values w a)
              <-> exists name sim,
                    In name (os_listdir w (OldMethod.a_simdir a))
                    /\ OldMethod.TRIPINFO_RE name = Some (value, sim))
        /\ (forall w' : World,
              Permutation (os_listdir w (OldMethod.a_simdir a))
                          (os_listdir w' (OldMethod.a_simdir a)) ->
              vd_values w' a = vd_values w a)).
Proof.
  repeat apply conj.
  - intro a. split; [apply sheet_names_main|].
    rewrite summary_rows_main, map_map. erewrite map_ext; [apply map_id|].
    intro v. apply value_summary_value.
  - reflexivity.
  - apply generated_values_ascending.
  - intros a B. destruct (vd_sheets w pd a B) as [N S].
    destruct (vd_values_spec w a) as [A M]. repeat apply conj; trivial.
    + rewrite S, map_map. erewrite map_ext; [apply map_id|].
      intro v. apply vd_value_summary_value.
    + intros w' P. destruct (vd_values_spec w' a) as [A' M'].
      apply strictly_sorted_unique; trivial. intro v. rewrite M, M'.
      split; intros (n & s & I & R); exists n, s; split; trivial.
      * eapply Permutation_in; [apply Permutation_sym, P | exact I].
      * eapply Permutation_in; [exact P | exact I].
Qed.

(** C7 at the vehicle-duration scenario, whose directory lists value 7000
    before value 5000. *)
Lemma sheets_in_requested_order_witness :
  map OldMethod.sheet_name
      (vd_written (OldMethod.main (F := float) bus_world pandas_spec bus_args))
  = ["5000"; "7000"; "summary"]
  /\ map s_value (vd_summary_rows
                    (vd_written (OldMethod.main (F := float) bus_world pandas_spec bus_args)))
     = [5000; 7000].
Proof.
  destruct (sheets_in_requested_order (F := float) bus_world pandas_spec)
    as (_ & _ & _ & B).
  assert (N : vd_baseline (F := float) bus_world bus_args <> [])
    by (vm_compute; discriminate).
  destruct (B bus_args N) as (E1 & E2 & _). split.
  - rewrite E1. vm_compute. reflexivity.
  - rewrite E2. vm_compute. reflexivity.
Defined.

(** ** C8: Missing replicates *)

(** C8.  The code misses the claim when lxml is the parser.  In the scenario
    of the specification (three sims, value 5000) let the perturbed file of
    sim 3 exist and hold no element.  lxml's recovering parser returns a
    tree without root, [parse_stop_delays] leaves its [try] with [root] set
    to [None], and [root.findall] raises [AttributeError]: the run dies with
    status 1 after the twelve warnings of the four values before 5000, which
    have no file, without the closing line.  With the parser of the standard
    library, which rejects the file, the same run ends with status 0.
    Whatever the scenario, a perturbed file without root at a value of the
    fixed set and a requested sim ends the run. *)
Theorem rootless_replicate_stops_run :
  (exists out,
     ExportPtDelayExc.main (F := float) rootless_replicate_world rootless_5000_3 pandas_spec
       three_sims_args = Died out
     /\ length out = 12%nat
     /\ Forall (fun line => is_warning line = true) out)
  /\ status (ExportPtDelayExc.main (F := float) rootless_replicate_world rootless_5000_3
               pandas_spec three_sims_args) = 1
  /\ ~ In "Excel written: out.xlsx"
          (printed (ExportPtDelayExc.main (F := float) rootless_replicate_world
                      rootless_5000_3 pandas_spec three_sims_args))
  /\ status (ExportPtDelayExc.main (F := float) rootless_replicate_world every_root
               pandas_spec three_sims_args) = 0
  /\ (forall (F : Type) (S : Scalar F) (w : World) (no_root : string -> bool)
             (pd : Pandas F) (a : ExportPtDelay.args) (value sim : Z),
        In value ExportPtDelay._generate_values ->
        In sim (range 1 (ExportPtDelay.a_sims a + 1)) ->
        rootless no_root (mixed_path w a value sim) = true ->
        exists out, ExportPtDelayExc.main w no_root pd a = Died out).
Proof.
  assert (E : ExportPtDelayExc.main (F := float) rootless_replicate_world rootless_5000_3
                pandas_spec three_sims_args
              = Died (repeat ("Warning: skipping malformed XML: None "
                              ++ "(expected str, bytes or os.PathLike object, not NoneType)")
                             12))
    by (vm_compute; reflexivity).
  repeat apply conj.
  - eexists. split; [exact E|]. split; [reflexivity|].
    apply Forall_forall. intros line I. apply repeat_spec in I. now subst line.
  - now rewrite E.
  - rewrite E. cbn [printed]. intro I. apply repeat_spec in I. discriminate I.
  - vm_compute. reflexivity.
  - intros F S w no_root pd a value sim Iv Is R. apply exc_main_died. right.
    now exists value, sim.
Qed.

(** ** C10: Lists of the MeasurementSet *)

(** C10 as stated fails: a stop whose delays include NaN is mapped to a list
    that is not in non-decreasing order. *)
Lemma nan_delays_not_sorted :
  exists k l,
    In (k, l) (fst (ExportPtDelay.parse_stop_delays (F := float) nan_world
                      (Some "/sim/stop_events_1000_1.xml")))
    /\ ~ Sorted (fun a b => fle a b = true) l.
Proof.
  exists "A", [PrimFloat.nan; 1%float]. split.
  - vm_compute. now left.
  - intro S. inversion S as [|? ? _ Hd]; subst. inversion Hd as [|? ? E]; subst.
    vm_compute in E. discriminate.
Qed.

(** C10, amended.  Every identity of the MeasurementSet the stop-delay
    extractor returns is mapped to a non-empty list, and that list is in
    non-decreasing order whenever [<] and [<=] order its delays totally; for
    IEEE doubles, whenever none of them is NaN. *)
Theorem parse_stop_delays_lists :
  (forall (F : Type) (S : Scalar F) (w : World) (path : option string)
          (k : string) (l : list F),
     In (k, l) (fst (ExportPtDelay.parse_stop_delays w path)) ->
     l <> []
     /\ (ordered_by flt fle l -> Sorted (fun a b => fle a b = true) l))
  /\ (forall (w : World) (path : option string) (k : string) (l : list float),
        In (k, l) (fst (ExportPtDelay.parse_stop_delays w path)) ->
        Forall (fun x => PrimFloat.is_nan x = false) l ->
        Sorted (fun a b => PrimFloat.leb a b = true) l).
Proof.
  assert (G : forall (F : Type) (S : Scalar F) (w : World) (path : option string)
                (k : string) (l : list F),
             In (k, l) (fst (ExportPtDelay.parse_stop_delays w path)) ->
             l <> []
             /\ (ordered_by flt fle l -> Sorted (fun a b => fle a b = true) l)).
  { intros F S w path k l I. apply parse_stop_delays_values in I.
    destruct I as [l0 [N ->]]. split.
    - intro E. apply sort_by_nil in E. contradiction.
    - intro O. apply sort_by_sorted.
      intros x y Ix Iy. apply O; eapply Permutation_in; try apply sort_by_perm; assumption. }
  split; [exact G|].
  intros w path k l I N. apply (proj2 (G float _ w path k l I)).
  now apply no_nan_ordered.
Qed.

(** C10 at the baseline file of the two-stops scenario. *)
Lemma parse_stop_delays_lists_witness :
  [10%float; 20%float] <> []
  /\ Sorted (fun a b => fle a b = true) [10%float; 20%float].
Proof.
  assert (I : In ("A", [10%float; 20%float])
                (fst (ExportPtDelay.parse_stop_delays (F := float) two_stops_world
                        (Some "/sim/stop_events_baseline_1.xml"))))
    by (vm_compute; now left).
  destruct parse_stop_delays_lists as [G X]. split.
  - exact (proj1 (G float _ _ _ _ _ I)).
  - apply (X _ _ _ _ I). repeat constructor.
Defined.

(* ================================================================== *)
(** * Further properties of the code *)

(** ** File names *)

Lemma strip_prefix_app (p s : string) : strip_prefix p (p ++ s) = Some s.
Proof.
  induction p as [|a p IH]; simpl; [reflexivity|]. now rewrite Ascii.eqb_refl.
Qed.

Lemma strip_prefix_Some (p s r : string) : strip_prefix p s = Some r -> s = p ++ r.
Proof.
  revert s. induction p as [|a p IH]; intros [|b s]; simpl; try congruence.
  destruct (Ascii.eqb a b) eqn:E; [|discriminate].
  apply Ascii.eqb_eq in E. subst b. intros E. now rewrite (IH _ E).
Qed.

Lemma span_digits_app (d r : string) :
  all_digits d = true -> no_digit_ahead r = true -> span_digits (d ++ r) = (d, r).
Proof.
  unfold all_digits. intros D R. induction d as [|c d IH]; simpl in *.
  - destruct r as [|c r]; [reflexivity|]. simpl in *.
    now destruct (is_digit c).
  - apply andb_true_iff in D as [Dc D]. now rewrite Dc, (IH D).
Qed.

Lemma span_digits_spec (s d r : string) :
  span_digits s = (d, r) -> s = d ++ r /\ all_digits d = true /\ no_digit_ahead r = true.
Proof.
  unfold all_digits. revert d r. induction s as [|c s IH]; simpl; intros d r E.
  - now injection E as <- <-.
  - destruct (is_digit c) eqn:Dc.
    + destruct (span_digits s) as [d' r'] eqn:E'. injection E as <- <-.
      destruct (IH _ _ eq_refl) as (-> & D & R). simpl. now rewrite Dc.
    + injection E as <- <-. simpl. now rewrite Dc.
Qed.

Lemma digits_all_digits (d : string) :
  digits d = true <-> d <> "" /\ all_digits d = true.
Proof.
  unfold digits. rewrite andb_true_iff, negb_true_iff, String.eqb_neq. tauto.
Qed.

Lemma at_dollar_spec (s : string) : at_dollar s = true <-> s = "" \/ s = newline.
Proof.
  unfold at_dollar. now rewrite orb_true_iff, !String.eqb_eq.
Qed.

Lemma int_of_digits_nonneg (d : string) : all_digits d = true -> 0 <= int_of_digits d.
Proof.
  unfold all_digits, int_of_digits.
  assert (G : forall l acc, forallb is_digit l = true -> 0 <= acc ->
              0 <= fold_left (fun acc c => 10 * acc + (Z.of_nat (nat_of_ascii c) - 48)) l acc).
  { induction l as [|c l IH]; cbn [fold_left forallb]; intros acc D A; [exact A|].
    apply andb_true_iff in D as [Dc D]. apply IH; [exact D|].
    unfold is_digit in Dc. apply andb_true_iff in Dc as [Lo _].
    apply Nat.leb_le in Lo. lia. }
  intros D. now apply G.
Qed.

(** The numeral [str] writes is read back by [int]. *)
Lemma digits_of_uint (d : Decimal.uint) :
  all_digits (NilEmpty.string_of_uint d) = true.
Proof.
  unfold all_digits. induction d; simpl; auto.
Qed.

Lemma int_of_uint_acc (d : Decimal.uint) (acc : positive) :
  fold_left (fun acc c => 10 * acc + (Z.of_nat (nat_of_ascii c) - 48))
            (list_ascii_of_string (NilEmpty.string_of_uint d)) (Z.pos acc)
  = Z.pos (Pos.of_uint_acc d acc).
Proof.
  revert acc. induction d; intros acc; cbn [NilEmpty.string_of_uint list_ascii_of_string fold_left Pos.of_uint_acc];
    try reflexivity;
    match goal with
    | |- fold_left _ _ ?z = Z.pos (Pos.of_uint_acc _ ?p) =>
        replace z with (Z.pos p)
          by (match goal with
              | |- context [Z.of_nat (nat_of_ascii ?c)] =>
                  let v := eval vm_compute in (Z.of_nat (nat_of_ascii c)) in
                  change (Z.of_nat (nat_of_ascii c)) with v
              end; lia); apply IHd
    end.
Qed.

Lemma int_of_uint (d : Decimal.uint) :
  int_of_digits (NilEmpty.string_of_uint d) = Z.of_N (Pos.of_uint d).
Proof.
  unfold int_of_digits.
  induction d; cbn [NilEmpty.string_of_uint list_ascii_of_string fold_left Pos.of_uint];
    try reflexivity; try exact IHd;
    match goal with
    | |- fold_left _ _ ?z = Z.of_N (Npos (Pos.of_uint_acc _ ?p)) =>
        replace z with (Z.pos p)
          by (match goal with
              | |- context [Z.of_nat (nat_of_ascii ?c)] =>
                  let v := eval vm_compute in (Z.of_nat (nat_of_ascii c)) in
                  change (Z.of_nat (nat_of_ascii c)) with v
              end; lia); apply int_of_uint_acc
    end.
Qed.

Lemma str_of_Z_digits (n : Z) :
  0 <= n -> digits (str_of_Z n) = true /\ int_of_digits (str_of_Z n) = n.
Proof.
  intros N. destruct n as [|p|p]; [now split| |lia].
  unfold str_of_Z. cbn [Z.to_int NilZero.string_of_int].
  assert (E : NilZero.string_of_uint (Pos.to_uint p) = NilEmpty.string_of_uint (Pos.to_uint p)).
  { pose proof (DecimalPos.Unsigned.to_uint_nonnil p) as NN.
    unfold NilZero.string_of_uint. now destruct (Pos.to_uint p). }
  rewrite E. split.
  - apply digits_all_digits. split; [|apply digits_of_uint].
    pose proof (DecimalPos.Unsigned.to_uint_nonnil p) as NN.
    destruct (Pos.to_uint p); simpl; congruence.
  - rewrite int_of_uint, DecimalPos.Unsigned.of_to. reflexivity.
Qed.

Lemma str_of_Z_inj (n m : Z) : str_of_Z n = str_of_Z m -> n = m.
Proof.
  assert (N : forall z, Z.to_int z <> Decimal.Pos Decimal.Nil
                        /\ Z.to_int z <> Decimal.Neg Decimal.Nil).
  { intros [|q|q]; simpl; split; try discriminate; intros [= E];
      exact (DecimalPos.Unsigned.to_uint_nonnil q E). }
  unfold str_of_Z. intros E. apply DecimalZ.to_int_inj.
  apply (f_equal NilZero.int_of_string) in E.
  rewrite !NilZero.isi in E by apply N. congruence.
Qed.

Lemma sim_output_tail_app (mid tail : string) :
  has_newline mid = false -> at_dollar tail = true ->
  OldMethod.sim_output_tail (mid ++ "_sim_output.xml" ++ tail) = true.
Proof.
  intros M T. induction mid as [|c mid IH].
  - change ("" ++ "_sim_output.xml" ++ tail) with ("_sim_output.xml" ++ tail).
    change ("_sim_output.xml" ++ tail)
      with (String "_" ("sim_output.xml" ++ tail)) at 1.
    cbn [OldMethod.sim_output_tail].
    change (String "_" ("sim_output.xml" ++ tail)) with ("_sim_output.xml" ++ tail).
    now rewrite strip_prefix_app, T.
  - cbn [has_newline] in M. apply orb_false_iff in M as [Mc M].
    change (String c mid ++ "_sim_output.xml" ++ tail)
      with (String c (mid ++ "_sim_output.xml" ++ tail)).
    cbn [OldMethod.sim_output_tail]. rewrite Mc, (IH M). apply orb_true_r.
Qed.

Lemma sim_output_tail_spec (s : string) :
  OldMethod.sim_output_tail s = true ->
  exists mid tail,
    s = mid ++ "_sim_output.xml" ++ tail /\ has_newline mid = false /\ at_dollar tail = true.
Proof.
  induction s as [|c s IH]; [discriminate|].
  cbn [OldMethod.sim_output_tail]. intros E. apply orb_true_iff in E as [E|E].
  - destruct (strip_prefix "_sim_output.xml" (String c s)) as [r|] eqn:P; [|discriminate].
    exists "", r. split; [exact (strip_prefix_Some _ _ _ P)|]. now split.
  - apply andb_true_iff in E as [Ec E]. destruct (IH E) as (mid & tail & -> & M & T).
    exists (String c mid), tail. split; [reflexivity|]. split; [|exact T].
    cbn [has_newline]. apply negb_true_iff in Ec. now rewrite Ec, M.
Qed.

Lemma STOP_MIXED_RE_shape (name : string) (value sim : Z) :
  ExportPtDelay.STOP_MIXED_RE name = Some (value, sim) ->
  exists d1 d2 tail,
    name = "stop_events_" ++ d1 ++ "_" ++ d2 ++ ".xml" ++ tail
    /\ digits d1 = true /\ digits d2 = true
    /\ (tail = "" \/ tail = newline)
    /\ value = int_of_digits d1 /\ sim = int_of_digits d2.
Proof.
  unfold ExportPtDelay.STOP_MIXED_RE.
  destruct (strip_prefix "stop_events_" name) as [r1|] eqn:P1; [|discriminate].
  destruct (span_digits r1) as [d1 r2] eqn:S1.
  destruct (String.eqb d1 "") eqn:N1; [discriminate|].
  destruct (strip_prefix "_" r2) as [r3|] eqn:P2; [|discriminate].
  destruct (span_digits r3) as [d2 r4] eqn:S2.
  destruct (String.eqb d2 "") eqn:N2; [discriminate|].
  destruct (strip_prefix ".xml" r4) as [r5|] eqn:P3; [|discriminate].
  destruct (at_dollar r5) eqn:T; [|discriminate].
  intros [= <- <-]. exists d1, d2, r5.
  apply strip_prefix_Some in P1, P2, P3.
  apply span_digits_spec in S1 as (E1 & D1 & _), S2 as (E2 & D2 & _).
  apply String.eqb_neq in N1, N2. subst.
  repeat split; try (apply digits_all_digits; now split).
  now apply at_dollar_spec.
Qed.

Lemma STOP_MIXED_RE_accepts (d1 d2 tail : string) :
  digits d1 = true -> digits d2 = true -> tail = "" \/ tail = newline ->
  ExportPtDelay.STOP_MIXED_RE ("stop_events_" ++ d1 ++ "_" ++ d2 ++ ".xml" ++ tail)
  = Some (int_of_digits d1, int_of_digits d2).
Proof.
  intros D1 D2 T.
  apply digits_all_digits in D1 as [N1 D1], D2 as [N2 D2].
  apply String.eqb_neq in N1, N2. apply at_dollar_spec in T.
  unfold ExportPtDelay.STOP_MIXED_RE.
  rewrite strip_prefix_app,
    (span_digits_app d1 ("_" ++ d2 ++ ".xml" ++ tail) D1 eq_refl), N1.
  rewrite strip_prefix_app, (span_digits_app d2 (".xml" ++ tail) D2 eq_refl), N2.
  now rewrite strip_prefix_app, T.
Qed.

(** X1 -- On a name of ASCII characters [STOP_MIXED_RE] matches exactly when
    the name is [stop_events_<digits>_<digits>.xml], optionally followed by
    one newline, and it reads the two runs of digits as the value and the
    sim; neither is ever negative.  The pattern is applied with [match]:
    nothing may stand in front of [stop_events_].  (Beyond ASCII, Python's
    [\d] takes further decimal digits; such names are left out here.) *)
Theorem STOP_MIXED_RE_matches (name : string) (value sim : Z) :
  ascii_only name = true ->
  (ExportPtDelay.STOP_MIXED_RE name = Some (value, sim) <->
   exists d1 d2 tail,
     name = "stop_events_" ++ d1 ++ "_" ++ d2 ++ ".xml" ++ tail
     /\ digits d1 = true /\ digits d2 = true
     /\ (tail = "" \/ tail = newline)
     /\ value = int_of_digits d1 /\ sim = int_of_digits d2)
  /\ (ExportPtDelay.STOP_MIXED_RE name = Some (value, sim) -> 0 <= value /\ 0 <= sim).
Proof.
  intros _. split; [split; [apply STOP_MIXED_RE_shape|]|].
  - intros (d1 & d2 & tail & -> & D1 & D2 & T & -> & ->).
    now apply STOP_MIXED_RE_accepts.
  - intros E.
    destruct (STOP_MIXED_RE_shape _ _ _ E) as (d1 & d2 & tail & _ & D1 & D2 & _ & -> & ->).
    apply digits_all_digits in D1 as [_ D1], D2 as [_ D2].
    split; now apply int_of_digits_nonneg.
Qed.

Lemma STOP_MIXED_RE_matches_witness :
  ascii_only "stop_events_007_03.xml" = true
  /\ ExportPtDelay.STOP_MIXED_RE "stop_events_007_03.xml" = Some (7, 3)
  /\ 0 <= 7 /\ 0 <= 3.
Proof.
  destruct (STOP_MIXED_RE_matches "stop_events_007_03.xml" 7 3 eq_refl) as [[_ A] N].
  assert (E : ExportPtDelay.STOP_MIXED_RE "stop_events_007_03.xml" = Some (7, 3)).
  { apply A. exists "007", "03", "". repeat split. now left. }
  split; [reflexivity|]. split; [exact E|exact (N E)].
Defined.

(** X2 -- Round trip of the perturbed file names: the name written with
    [str] for a value and a sim that are not negative is read back by
    [STOP_MIXED_RE] as that value and that sim. *)
Theorem STOP_MIXED_RE_round_trip (value sim : Z) :
  0 <= value -> 0 <= sim ->
  ExportPtDelay.STOP_MIXED_RE
    ("stop_events_" ++ str_of_Z value ++ "_" ++ str_of_Z sim ++ ".xml") = Some (value, sim).
Proof.
  intros V S.
  destruct (str_of_Z_digits value V) as [D1 I1], (str_of_Z_digits sim S) as [D2 I2].
  rewrite <- I1 at 2. rewrite <- I2 at 2.
  exact (STOP_MIXED_RE_accepts (str_of_Z value) (str_of_Z sim) "" D1 D2 (or_introl eq_refl)).
Qed.

Lemma STOP_MIXED_RE_round_trip_witness :
  0 <= 5000 /\ 0 <= 3
  /\ ExportPtDelay.STOP_MIXED_RE "stop_events_5000_3.xml" = Some (5000, 3).
Proof.
  split; [lia|]. split; [lia|].
  exact (STOP_MIXED_RE_round_trip 5000 3 ltac:(lia) ltac:(lia)).
Defined.

(** X3 -- The two baseline names of [_find_baseline_path] and the pattern of
    the perturbed files: the explicit name [stop_events_baseline_...] is
    never taken for a perturbed file, whereas the legacy name
    [stop_events_0_<sim>.xml] is one, of value 0, which is none of the
    reported values. *)
Theorem baseline_names_and_STOP_MIXED_RE (sim : Z) (rest : string) :
  ExportPtDelay.STOP_MIXED_RE ("stop_events_baseline_" ++ rest) = None
  /\ (0 <= sim ->
      ExportPtDelay.STOP_MIXED_RE ("stop_events_0_" ++ str_of_Z sim ++ ".xml") = Some (0, sim))
  /\ ~ In 0 ExportPtDelay._generate_values.
Proof.
  split; [reflexivity|]. split.
  - intros S. destruct (str_of_Z_digits sim S) as [D I].
    rewrite <- I at 2.
    exact (STOP_MIXED_RE_accepts "0" (str_of_Z sim) "" eq_refl D (or_introl eq_refl)).
  - intros I. vm_compute in I. repeat (destruct I as [I|I]; [discriminate|]). exact I.
Qed.

Lemma TRIPINFO_RE_shape (name : string) (value sim : Z) :
  OldMethod.TRIPINFO_RE name = Some (value, sim) ->
  exists d1 d2 mid tail,
    name = "4_" ++ d1 ++ "_" ++ d2 ++ "_" ++ mid ++ "_sim_output.xml" ++ tail
    /\ digits d1 = true /\ digits d2 = true
    /\ has_newline mid = false
    /\ (tail = "" \/ tail = newline)
    /\ value = int_of_digits d1 /\ sim = int_of_digits d2.
Proof.
  unfold OldMethod.TRIPINFO_RE.
  destruct (strip_prefix "4_" name) as [r1|] eqn:P1; [|discriminate].
  destruct (span_digits r1) as [d1 r2] eqn:S1.
  destruct (String.eqb d1 "") eqn:N1; [discriminate|].
  destruct (strip_prefix "_" r2) as [r3|] eqn:P2; [|discriminate].
  destruct (span_digits r3) as [d2 r4] eqn:S2.
  destruct (String.eqb d2 "") eqn:N2; [discriminate|].
  destruct (strip_prefix "_" r4) as [r5|] eqn:P3; [|discriminate].
  destruct (OldMethod.sim_output_tail r5) eqn:T; [|discriminate].
  intros [= <- <-].
  destruct (sim_output_tail_spec _ T) as (mid & tail & -> & M & T').
  exists d1, d2, mid, tail.
  apply strip_prefix_Some in P1, P2, P3.
  apply span_digits_spec in S1 as (E1 & D1 & _), S2 as (E2 & D2 & _).
  apply String.eqb_neq in N1, N2. subst.
  repeat split; try (apply digits_all_digits; now split); try exact M.
  now apply at_dollar_spec.
Qed.

Lemma TRIPINFO_RE_accepts (d1 d2 mid tail : string) :
  digits d1 = true -> digits d2 = true -> has_newline mid = false ->
  tail = "" \/ tail = newline ->
  OldMethod.TRIPINFO_RE ("4_" ++ d1 ++ "_" ++ d2 ++ "_" ++ mid ++ "_sim_output.xml" ++ tail)
  = Some (int_of_digits d1, int_of_digits d2).
Proof.
  intros D1 D2 M T.
  apply digits_all_digits in D1 as [N1 D1], D2 as [N2 D2].
  apply String.eqb_neq in N1, N2. apply at_dollar_spec in T.
  unfold OldMethod.TRIPINFO_RE.
  rewrite strip_prefix_app,
    (span_digits_app d1 ("_" ++ d2 ++ "_" ++ mid ++ "_sim_output.xml" ++ tail) D1 eq_refl), N1.
  rewrite strip_prefix_app,
    (span_digits_app d2 ("_" ++ mid ++ "_sim_output.xml" ++ tail) D2 eq_refl), N2.
  now rewrite strip_prefix_app, (sim_output_tail_app mid tail M T).
Qed.

(** X4 -- On a name of ASCII characters [TRIPINFO_RE] matches exactly when
    the name is [4_<digits>_<digits>_<anything>_sim_output.xml] with a free
    part that holds no newline, optionally followed by one newline, and it
    reads the two runs of digits as the value and the sim; neither is ever
    negative.  (Beyond ASCII, Python's [\d] takes further decimal digits;
    such names are left out here.) *)
Theorem TRIPINFO_RE_matches (name : string) (value sim : Z) :
  ascii_only name = true ->
  (OldMethod.TRIPINFO_RE name = Some (value, sim) <->
   exists d1 d2 mid tail,
     name = "4_" ++ d1 ++ "_" ++ d2 ++ "_" ++ mid ++ "_sim_output.xml" ++ tail
     /\ digits d1 = true /\ digits d2 = true
     /\ has_newline mid = false
     /\ (tail = "" \/ tail = newline)
     /\ value = int_of_digits d1 /\ sim = int_of_digits d2)
  /\ (OldMethod.TRIPINFO_RE name = Some (value, sim) -> 0 <= value /\ 0 <= sim).
Proof.
  intros _. split; [split; [apply TRIPINFO_RE_shape|]|].
  - intros (d1 & d2 & mid & tail & -> & D1 & D2 & M & T & -> & ->).
    now apply TRIPINFO_RE_accepts.
  - intros E.
    destruct (TRIPINFO_RE_shape _ _ _ E)
      as (d1 & d2 & mid & tail & _ & D1 & D2 & _ & _ & -> & ->).
    apply digits_all_digits in D1 as [_ D1], D2 as [_ D2].
    split; now apply int_of_digits_nonneg.
Qed.

Lemma TRIPINFO_RE_matches_witness :
  ascii_only "4_5000_01_a_b_sim_output.xml" = true
  /\ OldMethod.TRIPINFO_RE "4_5000_01_a_b_sim_output.xml" = Some (5000, 1)
  /\ 0 <= 5000 /\ 0 <= 1.
Proof.
  destruct (TRIPINFO_RE_matches "4_5000_01_a_b_sim_output.xml" 5000 1 eq_refl) as [[_ A] N].
  assert (E : OldMethod.TRIPINFO_RE "4_5000_01_a_b_sim_output.xml" = Some (5000, 1)).
  { apply A. exists "5000", "01", "a_b", "". repeat split. now left. }
  split; [reflexivity|]. split; [exact E|exact (N E)].
Defined.

(** X5 -- Round trip of the tripinfo file names: the name written with [str]
    for a value and a sim that are not negative, with any free part that
    holds no newline, is read back by [TRIPINFO_RE] as that value and sim. *)
Theorem TRIPINFO_RE_round_trip (value sim : Z) (mid : string) :
  0 <= value -> 0 <= sim -> has_newline mid = false ->
  OldMethod.TRIPINFO_RE
    ("4_" ++ str_of_Z value ++ "_" ++ str_of_Z sim ++ "_" ++ mid ++ "_sim_output.xml")
  = Some (value, sim).
Proof.
  intros V S M.
  destruct (str_of_Z_digits value V) as [D1 I1], (str_of_Z_digits sim S) as [D2 I2].
  rewrite <- I1 at 2. rewrite <- I2 at 2.
  exact (TRIPINFO_RE_accepts (str_of_Z value) (str_of_Z sim) mid "" D1 D2 M (or_introl eq_refl)).
Qed.

Lemma TRIPINFO_RE_round_trip_witness :
  0 <= 5000 /\ 0 <= 2 /\ has_newline "run" = false
  /\ OldMethod.TRIPINFO_RE "4_5000_2_run_sim_output.xml" = Some (5000, 2).
Proof.
  split; [lia|]. split; [lia|]. split; [reflexivity|].
  exact (TRIPINFO_RE_round_trip 5000 2 "run" ltac:(lia) ltac:(lia) eq_refl).
Defined.

(** ** Baselines of the stop-delay report *)

Lemma path_join_nonempty (a b : string) : b <> "" -> path_join a b <> "".
Proof.
  intros B. unfold path_join.
  destruct (strip_prefix "/" b); [exact B|].
  destruct (String.eqb a "") eqn:A; [exact B|].
  apply String.eqb_neq in A. destruct a as [|c a]; [congruence|].
  destruct (String.get _ _) as [c'|]; [destruct (Ascii.eqb c' "/")|]; discriminate.
Qed.

Section DictMore.
Context {K V : Type} `{Key K}.

Lemma In_dict_get (k : K) (v : V) (d : dict K V) :
  NoDup (keys d) -> In (k, v) d -> dict_get k d = Some v.
Proof.
  induction d as [|[k' v'] d IH]; simpl; intros N I; [contradiction|].
  inversion N as [|? ? NI N']; subst. destruct I as [[= -> ->]|I].
  - now rewrite keqb_refl.
  - rewrite keqb_neq; [now apply IH|].
    intros ->. apply NI. change k with (fst (k, v)). now apply in_map.
Qed.

Lemma dict_get_set (k k0 : K) (v : V) (d : dict K V) :
  dict_get k0 (dict_set k v d) = if keqb k k0 then Some v else dict_get k0 d.
Proof.
  unfold dict_set. destruct (keqb k k0) eqn:E.
  - apply keqb_spec in E. subst. apply dict_get_upd_same.
  - apply dict_get_upd_other. intros ->. now rewrite keqb_refl in E.
Qed.

End DictMore.

Lemma last_opt_cons {A : Type} (x : A) (l : list A) :
  last_opt (x :: l) = match last_opt l with Some y => Some y | None => Some x end.
Proof.
  revert x. induction l as [|a l IH]; intros x; [reflexivity|].
  change (last_opt (x :: a :: l)) with (last_opt (a :: l)).
  rewrite (IH a). now destruct (last_opt l).
Qed.

Lemma last_opt_app {A : Type} (l1 l2 : list A) :
  last_opt (l1 ++ l2) = match last_opt l2 with Some y => Some y | None => last_opt l1 end.
Proof.
  induction l1 as [|x l1 IH]; cbn [app].
  - now destruct (last_opt l2).
  - rewrite !last_opt_cons, IH. now destruct (last_opt l2), (last_opt l1).
Qed.

Lemma existsb_Zeqb_not_In (x : Z) (l : list Z) : ~ In x l -> existsb (Z.eqb x) l = false.
Proof.
  intros N. destruct (existsb (Z.eqb x) l) eqn:E; [|reflexivity].
  apply existsb_exists in E as (y & I & E). apply Z.eqb_eq in E. now subst.
Qed.

Section BaselineFacts.
Context {F : Type} `{Scalar F}.
Variable w : World.
Variable pd : Pandas F.
Import ExportPtDelay.

Lemma baseline_for_Some (simdir : string) (sim : Z) (base : dict string (list F)) :
  baseline_for w simdir sim = Some base <->
  _find_baseline_path w simdir sim <> ""
  /\ base = fst (parse_stop_delays w (Some (_find_baseline_path w simdir sim)))
  /\ base <> [].
Proof.
  unfold baseline_for.
  destruct (String.eqb (_find_baseline_path w simdir sim) "") eqn:E.
  - apply String.eqb_eq in E. split; [discriminate|]. now intros [N _].
  - apply String.eqb_neq in E.
    destruct (fst (parse_stop_delays w (Some (_find_baseline_path w simdir sim))))
      as [|kv b] eqn:P.
    + split; [discriminate|]. intros (_ & -> & N). now contradiction N.
    + split.
      * intros [= <-]. repeat split; [exact E|discriminate].
      * intros (_ & -> & _). reflexivity.
Qed.

Lemma baselines_lookup (a : args) (sim : Z) :
  dict_get sim (baselines_of w a) =
  if (1 <=? sim) && (sim <=? a_sims a) then baseline_for w (a_simdir a) sim else None.
Proof.
  destruct ((1 <=? sim) && (sim <=? a_sims a)) eqn:R.
  - apply andb_true_iff in R as [R1 R2]. apply Z.leb_le in R1, R2.
    apply baselines_get. apply In_range. lia.
  - unfold baselines_of, load_baselines.
    destruct (load_baselines_fold w (a_simdir a) (range 1 (a_sims a + 1)) [] []) as [_ G].
    etransitivity; [exact (G sim (NoDup_range _ _))|].
    rewrite existsb_Zeqb_not_In; [reflexivity|].
    rewrite In_range. intros [R1 R2].
    apply andb_false_iff in R as [R|R]; apply Z.leb_gt in R; lia.
Qed.

Lemma rows_of_sims (a : args) (value : Z) :
  rows_of w a value =
  flat_map (fun sim =>
              match dict_get sim (baselines_of w a) with
              | Some base =>
                  align value sim base (fst (parse_stop_delays w (mixed_path w a value sim)))
              | None => []
              end) (range 1 (a_sims a + 1)).
Proof.
  unfold rows_of. rewrite value_rows_fst. apply flat_map_ext. intros sim.
  fold (baselines_of w a). now rewrite sim_rows_eq.
Qed.

End BaselineFacts.

Section BaselineTheorems.
Context {F : Type} `{Scalar F}.
Variable w : World.
Variable pd : Pandas F.
Import ExportPtDelay.

Lemma find_baseline_path_cases (simdir : string) (sim : Z) :
  _find_baseline_path w simdir sim =
  if os_path_exists w (path_join simdir ("stop_events_baseline_" ++ str_of_Z sim ++ ".xml"))
  then path_join simdir ("stop_events_baseline_" ++ str_of_Z sim ++ ".xml")
  else if os_path_exists w (path_join simdir ("stop_events_0_" ++ str_of_Z sim ++ ".xml"))
       then path_join simdir ("stop_events_0_" ++ str_of_Z sim ++ ".xml")
       else "".
Proof.
  unfold _find_baseline_path. cbn [filter].
  now destruct
    (os_path_exists w (path_join simdir ("stop_events_baseline_" ++ str_of_Z sim ++ ".xml"))),
    (os_path_exists w (path_join simdir ("stop_events_0_" ++ str_of_Z sim ++ ".xml"))).
Qed.

(** X6 -- [_find_baseline_path] returns the explicit baseline file when it
    exists, whatever else is there; the legacy file only when the explicit
    one does not exist; and the empty string exactly when neither exists.  A
    result that is not empty is a path that exists. *)
Theorem find_baseline_path_result (simdir : string) (sim : Z) :
  let explicit := path_join simdir ("stop_events_baseline_" ++ str_of_Z sim ++ ".xml") in
  let legacy := path_join simdir ("stop_events_0_" ++ str_of_Z sim ++ ".xml") in
  let p := _find_baseline_path w simdir sim in
  (os_path_exists w explicit = true -> p = explicit)
  /\ (os_path_exists w explicit = false -> os_path_exists w legacy = true -> p = legacy)
  /\ (p = "" <-> os_path_exists w explicit = false /\ os_path_exists w legacy = false)
  /\ (p <> "" -> os_path_exists w p = true).
Proof.
  intros explicit legacy p.
  assert (NE : explicit <> "") by (apply path_join_nonempty; discriminate).
  assert (NL : legacy <> "") by (apply path_join_nonempty; discriminate).
  assert (E : p = if os_path_exists w explicit then explicit
                  else if os_path_exists w legacy then legacy else "")
    by apply find_baseline_path_cases.
  clearbody explicit legacy p.
  destruct (os_path_exists w explicit) eqn:X, (os_path_exists w legacy) eqn:L; subst p;
    (split; [|split; [|split; [split|]]]);
    try congruence; try (intros [A B]; congruence); try (intros _; split; reflexivity).
Qed.

(** X7 -- There is no second try: when the explicit baseline file of a
    requested sim exists but yields no delays, the legacy file of that sim is
    not read in its place.  The sim gets no baseline, the run says so, and no
    sheet has a row of that sim. *)
Theorem unusable_explicit_baseline_not_replaced (a : args) (sim : Z) :
  1 <= sim <= a_sims a ->
  os_path_exists w
    (path_join (a_simdir a) ("stop_events_baseline_" ++ str_of_Z sim ++ ".xml")) = true ->
  fst (parse_stop_delays w
         (Some (path_join (a_simdir a) ("stop_events_baseline_" ++ str_of_Z sim ++ ".xml"))))
  = [] ->
  dict_get sim (baselines_of w a) = None
  /\ In ("Warning: no usable baseline delays in "
         ++ path_join (a_simdir a) ("stop_events_baseline_" ++ str_of_Z sim ++ ".xml"))
        (stdout (main w pd a))
  /\ forall value r, In r (rows_of w a value) -> r_sim r <> sim.
Proof.
  intros R X P.
  assert (E : _find_baseline_path w (a_simdir a) sim
              = path_join (a_simdir a) ("stop_events_baseline_" ++ str_of_Z sim ++ ".xml"))
    by (rewrite find_baseline_path_cases; now rewrite X).
  assert (NE : path_join (a_simdir a) ("stop_events_baseline_" ++ str_of_Z sim ++ ".xml") <> "")
    by (apply path_join_nonempty; discriminate).
  apply String.eqb_neq in NE.
  assert (I : In sim (range 1 (a_sims a + 1))) by (apply In_range; lia).
  assert (B : dict_get sim (baselines_of w a) = None).
  { rewrite (baselines_get w a sim I). unfold baseline_for. now rewrite E, NE, P. }
  split; [exact B|]. split.
  - apply (baseline_lines_printed w pd a sim _ I).
    unfold baseline_lines. rewrite E, NE, P. apply in_or_app. right. now left.
  - intros value r Ir Es. rewrite rows_of_sims in Ir.
    apply in_flat_map in Ir as (s & _ & Ir).
    destruct (dict_get s (baselines_of w a)) as [base|] eqn:Bs; [|contradiction].
    apply align_In in Ir as (_ & _ & Er & _). congruence.
Qed.

(** X8 -- The baselines [main] keeps: a sim has one exactly when it is one of
    the requested sims [1..sims], [_find_baseline_path] found a file for it,
    and that file yields at least one stop; the baseline is then what
    [parse_stop_delays] returns for that file. *)
Theorem stored_baselines (a : args) (sim : Z) (base : dict string (list F)) :
  dict_get sim (baselines_of w a) = Some base <->
  1 <= sim <= a_sims a
  /\ _find_baseline_path w (a_simdir a) sim <> ""
  /\ base = fst (parse_stop_delays w (Some (_find_baseline_path w (a_simdir a) sim)))
  /\ base <> [].
Proof.
  rewrite baselines_lookup.
  destruct ((1 <=? sim) && (sim <=? a_sims a)) eqn:R.
  - apply andb_true_iff in R as [R1 R2]. apply Z.leb_le in R1, R2.
    rewrite baseline_for_Some. intuition lia.
  - split; [discriminate|]. intros [[R1 R2] _].
    apply andb_false_iff in R as [R|R]; apply Z.leb_gt in R; lia.
Qed.

End BaselineTheorems.

Lemma unusable_explicit_baseline_not_replaced_witness :
  dict_get 1 (baselines_of (F := float) unusable_explicit_world tenths_args) = None
  /\ In "Warning: no usable baseline delays in /sim/stop_events_baseline_1.xml"
        (stdout (ExportPtDelay.main (F := float) unusable_explicit_world pandas_spec tenths_args))
  /\ rows_of (F := float) unusable_explicit_world tenths_args 1000 = [].
Proof.
  destruct (unusable_explicit_baseline_not_replaced (F := float) unusable_explicit_world
              pandas_spec tenths_args 1 ltac:(simpl; lia) eq_refl eq_refl) as (B & W & R).
  split; [exact B|]. split; [exact W|]. reflexivity.
Defined.

(** ** Discovery of the perturbed files *)

Section DiscoverFacts.
Context {F : Type} `{Scalar F}.
Variable w : World.
Import ExportPtDelay.

Lemma fold_add_mixed_file (simdir : string) (value sim : Z) (names : list string)
  (d : dict Z (dict Z string)) :
  dict_get sim (match dict_get value (fold_left (add_mixed_file simdir) names d) with
                | Some m => m
                | None => []
                end)
  = match last_opt (mixed_matches simdir value sim names) with
    | Some p => Some p
    | None => dict_get sim (match dict_get value d with Some m => m | None => [] end)
    end.
Proof.
  revert d. induction names as [|name names IH]; intros d; [reflexivity|].
  cbn [fold_left]. rewrite IH. unfold mixed_matches at 2. cbn [flat_map].
  fold (mixed_matches simdir value sim names).
  rewrite last_opt_app.
  destruct (last_opt (mixed_matches simdir value sim names)) as [p|]; [reflexivity|].
  unfold add_mixed_file.
  destruct (STOP_MIXED_RE name) as [[v s]|]; [|reflexivity].
  destruct (v =? value) eqn:V.
  - apply Z.eqb_eq in V. subst v. rewrite dict_get_upd_same, dict_get_set.
    cbn [keqb Key_Z andb]. now destruct (s =? sim).
  - apply Z.eqb_neq in V. rewrite dict_get_upd_other by exact V. reflexivity.
Qed.

(** X9 -- The perturbed file [main] reads for a value and a sim is the last
    entry of the directory listing whose name [STOP_MIXED_RE] reads as that
    value and that sim (two spellings of the same numbers, such as
    [stop_events_5000_1.xml] and [stop_events_05000_01.xml], compete), joined
    to the directory; with no such entry there is no file. *)
Theorem discover_last_listed_wins (a : args) (value sim : Z) :
  mixed_path w a value sim
  = last_opt (mixed_matches (a_simdir a) value sim (os_listdir w (a_simdir a))).
Proof.
  unfold mixed_path, discover. rewrite fold_add_mixed_file.
  now destruct (last_opt _).
Qed.

End DiscoverFacts.

(** ** Rows of the stop-delay report *)

Lemma StronglySorted_app {A : Type} (R : A -> A -> Prop) (l1 l2 : list A) :
  StronglySorted R l1 -> StronglySorted R l2 ->
  (forall a b, In a l1 -> In b l2 -> R a b) ->
  StronglySorted R (l1 ++ l2).
Proof.
  intros S1 S2 C. induction S1 as [|x l1 S1 IH Hx]; [exact S2|].
  cbn [app]. constructor.
  - apply IH. intros a b Ia Ib. apply C; [now right|exact Ib].
  - apply Forall_app. split; [exact Hx|].
    apply Forall_forall. intros b Ib. apply C; [now left|exact Ib].
Qed.

Lemma StronglySorted_flat_map {A B : Type} (Q : A -> A -> Prop) (R : B -> B -> Prop)
  (g : A -> list B) (l : list A) :
  StronglySorted Q l ->
  (forall x, In x l -> StronglySorted R (g x)) ->
  (forall x y a b, Q x y -> In a (g x) -> In b (g y) -> R a b) ->
  StronglySorted R (flat_map g l).
Proof.
  intros S G C. induction S as [|x l S IH Hx]; [constructor|].
  cbn [flat_map]. apply StronglySorted_app.
  - apply G. now left.
  - apply IH. intros y Iy. apply G. now right.
  - intros a b Ia Ib. apply in_flat_map in Ib as (y & Iy & Ib).
    rewrite Forall_forall in Hx. exact (C x y a b (Hx y Iy) Ia Ib).
Qed.

Lemma StronglySorted_map {A B : Type} (R : B -> B -> Prop) (f : A -> B) (l : list A) :
  StronglySorted (fun x y => R (f x) (f y)) l -> StronglySorted R (map f l).
Proof.
  induction 1 as [|x l S IH Hx]; cbn [map]; constructor; [exact IH|].
  apply Forall_map. exact Hx.
Qed.

Lemma StronglySorted_impl {A : Type} (R R' : A -> A -> Prop) (l : list A) :
  (forall a b, R a b -> R' a b) -> StronglySorted R l -> StronglySorted R' l.
Proof.
  intros I. induction 1 as [|x l S IH Hx]; constructor; [exact IH|].
  eapply Forall_impl; [|exact Hx]. intros b. apply I.
Qed.

Lemma StronglySorted_seq (start len : nat) : StronglySorted lt (seq start len).
Proof.
  revert start. induction len as [|len IH]; intros start; cbn [seq]; constructor.
  - apply IH.
  - apply Forall_forall. intros y Iy. apply in_seq in Iy. lia.
Qed.

Lemma StronglySorted_range (lo hi : Z) : StronglySorted Z.lt (range lo hi).
Proof.
  unfold range. apply StronglySorted_map.
  eapply StronglySorted_impl; [|apply StronglySorted_seq].
  intros i j L. lia.
Qed.

Lemma NoDup_keys_distinct {K V : Type} (d : dict K V) :
  NoDup (keys d) -> StronglySorted (fun x y => fst x <> fst y) d.
Proof.
  induction d as [|kv d IH]; cbn [keys map]; intros N; constructor;
    inversion N as [|? ? NI N']; subst.
  - now apply IH.
  - apply Forall_forall. intros y Iy E. apply NI. rewrite E. now apply in_map.
Qed.

Lemma StronglySorted_NoDup {A B : Type} (R : A -> A -> Prop) (k : A -> B) (l : list A) :
  StronglySorted R l -> (forall a b, R a b -> k a <> k b) -> NoDup (map k l).
Proof.
  intros S D. induction S as [|x l S IH Hx]; cbn [map]; constructor; [|exact IH].
  intros I. apply in_map_iff in I as (y & E & Iy).
  rewrite Forall_forall in Hx. exact (D x y (Hx y Iy) (eq_sym E)).
Qed.

Lemma flat_map_nil {A B : Type} (l : list A) : flat_map (fun _ : A => @nil B) l = [].
Proof.
  induction l as [|x l IH]; [reflexivity|exact IH].
Qed.

Section RowFacts.
Context {F : Type} `{Scalar F}.
Variable w : World.
Variable pd : Pandas F.
Import ExportPtDelay.

Lemma align_In_full (value sim : Z) (base mixed : dict string (list F)) (r : row F) :
  In r (align value sim base mixed) ->
  exists k bl ml i,
    In (k, bl) base /\ dict_get k mixed = Some ml
    /\ (i < Nat.min (length bl) (length ml))%nat
    /\ r = {| r_value := value; r_sim := sim; r_stop := k;
              r_occurrence := Z.of_nat i + 1;
              r_delay_baseline_s := nth i bl f0;
              r_delay_mixed_s := nth i ml f0;
              r_delay_delta_s := fsub (nth i ml f0) (nth i bl f0) |}.
Proof.
  unfold align. intros I. apply in_flat_map in I as ([k bl] & Ik & I). cbn [fst snd] in I.
  destruct (dict_get k mixed) as [[|m ml]|] eqn:M; try contradiction.
  unfold stop_rows in I. apply in_map_iff in I as (i & <- & Ii).
  apply in_seq in Ii. exists k, bl, (m :: ml), i. repeat split; auto. lia.
Qed.

Lemma baselines_NoDup (a : args) (sim : Z) (base : dict string (list F)) :
  dict_get sim (baselines_of w a) = Some base -> NoDup (keys base).
Proof.
  rewrite baselines_lookup. destruct ((1 <=? sim) && (sim <=? a_sims a)); [|discriminate].
  intros B. apply baseline_for_Some in B as (_ & -> & _). apply parse_stop_delays_NoDup.
Qed.

(** X10 -- No row is invented.  Every row of a value's sheet belongs to one
    of the requested sims that has a baseline, to a stop that both the
    baseline of that sim and the perturbed file of the value and sim report,
    and to a rank between 1 and the smaller of the two numbers of
    occurrences; its two delays are the entries of that rank in the two
    lists. *)
Theorem rows_come_from_both_files (a : args) (value : Z) (r : row F) :
  In r (rows_of w a value) ->
  exists base bl ml,
    r_value r = value
    /\ 1 <= r_sim r <= a_sims a
    /\ dict_get (r_sim r) (baselines_of w a) = Some base
    /\ dict_get (r_stop r) base = Some bl
    /\ dict_get (r_stop r) (fst (parse_stop_delays w (mixed_path w a value (r_sim r))))
       = Some ml
    /\ 1 <= r_occurrence r <= Z.of_nat (Nat.min (length bl) (length ml))
    /\ r_delay_baseline_s r = nth (Z.to_nat (r_occurrence r - 1)) bl f0
    /\ r_delay_mixed_s r = nth (Z.to_nat (r_occurrence r - 1)) ml f0.
Proof.
  rewrite rows_of_sims. intros I. apply in_flat_map in I as (sim & Is & I).
  destruct (dict_get sim (baselines_of w a)) as [base|] eqn:B; [|contradiction].
  apply align_In_full in I as (k & bl & ml & i & Ik & M & Li & ->).
  cbn [r_value r_sim r_stop r_occurrence r_delay_baseline_s r_delay_mixed_s].
  apply In_range in Is.
  replace (Z.to_nat (Z.of_nat i + 1 - 1)) with i by lia.
  exists base, bl, ml. repeat split; auto; try lia.
  apply In_dict_get; [|exact Ik]. exact (baselines_NoDup a sim base B).
Qed.

(** X11 -- The rows of a value's sheet are grouped by sim in ascending order,
    and within a sim and a stop the ranks ascend: of two rows, the earlier
    one has the smaller sim, or the same sim and another stop, or the same
    sim and stop and the smaller rank.  So (sim, stop, occurrence) names a
    row: no two rows of a sheet share all three. *)
Theorem rows_ordered_and_distinct (a : args) (value : Z) :
  StronglySorted
    (fun r1 r2 =>
       r_sim r1 < r_sim r2
       \/ (r_sim r1 = r_sim r2
           /\ (r_stop r1 <> r_stop r2 \/ r_occurrence r1 < r_occurrence r2)))
    (rows_of w a value)
  /\ NoDup (map (fun r => (r_sim r, r_stop r, r_occurrence r)) (rows_of w a value)).
Proof.
  assert (S : StronglySorted
    (fun r1 r2 =>
       r_sim r1 < r_sim r2
       \/ (r_sim r1 = r_sim r2
           /\ (r_stop r1 <> r_stop r2 \/ r_occurrence r1 < r_occurrence r2)))
    (rows_of w a value)).
  { rewrite rows_of_sims.
    apply (StronglySorted_flat_map Z.lt); [apply StronglySorted_range| |].
    - intros sim _. destruct (dict_get sim (baselines_of w a)) as [base|] eqn:B; [|constructor].
      unfold align.
      apply (StronglySorted_flat_map (fun x y => fst x <> fst y));
        [exact (NoDup_keys_distinct _ (baselines_NoDup a sim base B))| |].
      + intros [k bl] _. cbn [fst snd].
        destruct (dict_get k _) as [[|m ml]|]; try constructor.
        unfold stop_rows. apply StronglySorted_map.
        eapply StronglySorted_impl; [|apply StronglySorted_seq].
        intros i j L. cbn [r_sim r_stop r_occurrence]. right. split; [reflexivity|]. right. lia.
      + intros [k1 bl1] [k2 bl2] r1 r2 N I1 I2. cbn [fst snd] in *.
        assert (G : forall k bl (o : option (list F)) r,
                  In r (match o with
                        | None => []
                        | Some [] => []
                        | Some mix_list => stop_rows value sim k bl mix_list
                        end) -> r_sim r = sim /\ r_stop r = k).
        { intros k bl [[|m ml]|] r I; try contradiction.
          apply stop_rows_In in I. tauto. }
        destruct (G _ _ _ _ I1) as [E1 K1], (G _ _ _ _ I2) as [E2 K2].
        right. split; [congruence|]. left. congruence.
    - intros s1 s2 r1 r2 L I1 I2.
      destruct (dict_get s1 (baselines_of w a)); [|contradiction].
      destruct (dict_get s2 (baselines_of w a)); [|contradiction].
      apply align_In in I1 as (_ & _ & -> & _), I2 as (_ & _ & -> & _). now left. }
  split; [exact S|].
  apply (StronglySorted_NoDup _ _ _ S).
  intros r1 r2 [L|[E [N|L]]] [= E1 E2 E3]; try lia. contradiction.
Qed.

(** X12 -- With no sim requested ([--sims] zero or negative) nothing is
    looked for and nothing is read: no baseline, no row under any value, and
    the run prints its closing line only. *)
Theorem no_sims_requested (a : args) :
  a_sims a <= 0 ->
  baselines_of w a = []
  /\ (forall value, rows_of w a value = [])
  /\ stdout (main w pd a) = ["Excel written: " ++ a_out a].
Proof.
  intros S.
  assert (R : range 1 (a_sims a + 1) = []).
  { unfold range. replace (Z.to_nat (a_sims a + 1 - 1)) with 0%nat by lia. reflexivity. }
  split; [|split].
  - unfold baselines_of, load_baselines. now rewrite R.
  - intros value. rewrite rows_of_sims. now rewrite R.
  - rewrite main_stdout, R. cbn [flat_map app].
    now rewrite (flat_map_nil (B := string) _generate_values).
Qed.

End RowFacts.

Lemma rows_come_from_both_files_witness :
  exists base bl ml,
    dict_get 1 (baselines_of (F := float) two_stops_world tenths_args) = Some base
    /\ dict_get "A" base = Some bl
    /\ dict_get "A" (fst (ExportPtDelay.parse_stop_delays two_stops_world
                            (mixed_path two_stops_world tenths_args 1000 1))) = Some ml
    /\ 10%float = nth 0 bl f0 /\ 12%float = nth 0 ml f0.
Proof.
  pose (r0 := {| ExportPtDelay.r_value := 1000; ExportPtDelay.r_sim := 1;
                 ExportPtDelay.r_stop := "A"; ExportPtDelay.r_occurrence := 1;
                 ExportPtDelay.r_delay_baseline_s := 10%float;
                 ExportPtDelay.r_delay_mixed_s := 12%float;
                 ExportPtDelay.r_delay_delta_s := 2%float |}).
  assert (I : In r0 (rows_of (F := float) two_stops_world tenths_args 1000))
    by (vm_compute; left; reflexivity).
  destruct (rows_come_from_both_files two_stops_world tenths_args 1000 r0 I)
    as (base & bl & ml & _ & _ & B & K & M & _ & Eb & Em).
  exists base, bl, ml. repeat split; assumption.
Defined.

Lemma no_sims_requested_witness :
  0 <= 0
  /\ stdout (ExportPtDelay.main (F := float) two_stops_world pandas_spec
               {| ExportPtDelay.a_simdir := "/sim"; ExportPtDelay.a_sims := 0;
                  ExportPtDelay.a_out := "out.xlsx" |})
     = ["Excel written: out.xlsx"].
Proof.
  split; [lia|].
  exact (proj2 (proj2 (no_sims_requested (F := float) two_stops_world pandas_spec
                         {| ExportPtDelay.a_simdir := "/sim"; ExportPtDelay.a_sims := 0;
                            ExportPtDelay.a_out := "out.xlsx" |} ltac:(simpl; lia)))).
Defined.

(** ** The duration extractor *)

Lemma In_first_seen (x : string) (l : list string) : In x (first_seen l) <-> In x l.
Proof.
  unfold first_seen. now rewrite <- in_rev, nodup_In, <- in_rev.
Qed.

Lemma first_seen_snoc (x : string) (l : list string) :
  first_seen (l ++ [x])%list
  = if in_dec string_dec x l then first_seen l else (first_seen l ++ [x])%list.
Proof.
  unfold first_seen. rewrite rev_app_distr. cbn [rev app nodup].
  destruct (in_dec string_dec x (rev l)) as [I|N], (in_dec string_dec x l) as [I'|N'];
    try reflexivity.
  - exfalso. apply N'. now apply in_rev.
  - exfalso. apply N. now apply in_rev in I'.
Qed.

Lemma last_opt_In {A : Type} (x : A) (l : list A) : last_opt l = Some x -> In x l.
Proof.
  induction l as [|y l IH]; [discriminate|]. rewrite last_opt_cons.
  destruct (last_opt l) as [z|].
  - intros [= ->]. right. now apply IH.
  - intros [= ->]. now left.
Qed.

Lemma fold_left_pointwise {A B : Type} (f g : A -> B -> A) (l : list B) (a : A) :
  (forall a b, f a b = g a b) -> fold_left f l a = fold_left g l a.
Proof.
  intros E. revert a. induction l as [|b l IH]; intros a; [reflexivity|].
  cbn [fold_left]. now rewrite E, IH.
Qed.

Section KeyOrder.
Context {E X V : Type}.
Variable record : E -> option (string * X).
Variable upd : X -> option V -> V.

(** The keys of a dict filled record by record stand in the order in which
    they were first met. *)
Lemma keys_first_seen (els : list E) :
  keys (fold_left (fun d el => match record el with
                               | Some (k, v) => dict_upd k (upd v) d
                               | None => d
                               end) els [])
  = first_seen (flat_map (fun el => match record el with
                                    | Some (k, _) => [k]
                                    | None => []
                                    end) els).
Proof.
  induction els as [|el els IH] using rev_ind; [reflexivity|].
  rewrite fold_left_app, flat_map_app. cbn [fold_left flat_map].
  destruct (record el) as [[k v]|].
  - rewrite app_nil_r, first_seen_snoc, keys_dict_upd, IH.
    destruct (in_dec string_dec k _) as [I|N].
    + destruct (dict_get k _) eqn:G; [reflexivity|].
      apply dict_get_None in G. rewrite IH, In_first_seen in G. contradiction.
    + destruct (dict_get k _) eqn:G; [|reflexivity].
      apply dict_get_In in G. exfalso. apply N. apply In_first_seen. rewrite <- IH.
      change k with (fst (k, v0)). now apply in_map.
  - now rewrite !app_nil_r.
Qed.

End KeyOrder.

Lemma py_or_id (a b : option string) (v : string) :
  py_or (py_or a b) (Some "") = Some v -> v <> "" ->
  a = Some v \/ ((a = None \/ a = Some "") /\ b = Some v).
Proof.
  intros P N.
  destruct a as [[|c i]|], b as [[|c' j]|]; cbn in P; injection P as <-;
    try (now contradiction N); try (now left); right; split; auto.
Qed.

Section DurationFacts.
Context {F : Type} `{Scalar F}.
Variable w : World.
Import OldMethod.

Lemma add_tripinfo_record (d : dict string F) (el : element) :
  add_tripinfo d el =
  match trip_record el with
  | Some (k, v) => dict_upd k (fun _ => v) d
  | None => d
  end.
Proof.
  unfold add_tripinfo, trip_record.
  destruct (py_or _ _) as [vid|]; [|reflexivity].
  destruct (String.eqb vid ""); [reflexivity|].
  destruct (negb _); [reflexivity|].
  destruct (duration_of el) as [dur|]; [|reflexivity].
  now destruct (fle dur f0).
Qed.

Lemma trip_record_Some (el : element) (vid : string) (dur : F) :
  trip_record el = Some (vid, dur) ->
  vid <> ""
  /\ (attr "id" el = Some vid
      \/ ((attr "id" el = None \/ attr "id" el = Some "") /\ attr "tripid" el = Some vid))
  /\ match py_or (attr "vType" el) (attr "vtype" el) with
     | Some t => contains "bus" (lower t) = true
     | None => isdigit vid = false
     end
  /\ duration_of el = Some dur
  /\ fle dur f0 = false.
Proof.
  unfold trip_record.
  destruct (py_or (py_or (attr "id" el) (attr "tripid" el)) (Some "")) as [v|] eqn:P;
    [|discriminate].
  destruct (String.eqb v "") eqn:N; [discriminate|]. apply String.eqb_neq in N.
  pose proof (py_or_id _ _ _ P N) as I.
  destruct (py_or (attr "vType" el) (attr "vtype" el)) as [t|].
  - destruct (contains "bus" (lower t)) eqn:B; [|discriminate]. cbn [negb].
    destruct (duration_of el) as [u|]; [|discriminate].
    destruct (fle u f0) eqn:L; [discriminate|]. intros [= <- <-]. repeat split; auto.
  - destruct (isdigit v) eqn:B; [discriminate|]. cbn [negb].
    destruct (duration_of el) as [u|]; [|discriminate].
    destruct (fle u f0) eqn:L; [discriminate|]. intros [= <- <-]. repeat split; auto.
Qed.

Lemma fold_add_tripinfo_get (vid : string) (els : list element) (d : dict string F) :
  dict_get vid (fold_left add_tripinfo els d)
  = match last_opt (trip_occurrences vid els) with
    | Some x => Some x
    | None => dict_get vid d
    end.
Proof.
  revert d. induction els as [|el els IH]; intros d; [reflexivity|].
  cbn [fold_left]. rewrite IH. unfold trip_occurrences at 2. cbn [flat_map].
  fold (trip_occurrences vid els). rewrite last_opt_app.
  destruct (last_opt (trip_occurrences vid els)); [reflexivity|].
  rewrite add_tripinfo_record. destruct (trip_record el) as [[k v]|]; [|reflexivity].
  destruct (String.eqb k vid) eqn:E.
  - apply String.eqb_eq in E. subst k. now rewrite dict_get_upd_same.
  - apply String.eqb_neq in E. now rewrite dict_get_upd_other.
Qed.

Lemma trip_occurrences_In (vid : string) (dur : F) (els : list element) :
  In dur (trip_occurrences vid els) ->
  exists el, In el els /\ trip_record el = Some (vid, dur).
Proof.
  unfold trip_occurrences. intros I. apply in_flat_map in I as (el & Ie & I).
  exists el. split; [exact Ie|].
  destruct (trip_record el) as [[k v]|]; [|contradiction].
  destruct (String.eqb k vid) eqn:E; [|contradiction].
  apply String.eqb_eq in E. destruct I as [<-|[]]. now subst.
Qed.

(** X13 -- What [extract_pt_durations] keeps for a vehicle that is reported
    more than once: the duration of its last record that passes the filters
    (a later record replaces an earlier one, it is not added to it); a
    vehicle with no such record has no entry, and a file that cannot be
    parsed gives no entry at all. *)
Theorem extract_pt_durations_last_record (path : option string) (vid : string) :
  dict_get vid (fst (extract_pt_durations w path)) =
  match _parse_root w path with
  | Root root => last_opt (trip_occurrences vid (findall "tripinfo" root))
  | Raises _ => None
  end.
Proof.
  unfold extract_pt_durations. destruct (_parse_root w path) as [e|root]; [reflexivity|].
  cbn [fst]. rewrite fold_add_tripinfo_get. now destruct (last_opt _).
Qed.

(** X14 -- Every entry [extract_pt_durations] returns under an ASCII key
    comes from a [tripinfo] element of the file: the vehicle is the element's
    [id] (or its [tripid] when [id] is missing or empty) and is not empty,
    the element passes the bus filter ([vType] or [vtype] contains "bus" in
    any case, or, with neither, [isdigit] is false of the id), the duration
    is the element's, and the test [dur <= 0] is false for it. *)
Theorem extract_pt_durations_entries (path : option string) (vid : string) (dur : F) :
  In (vid, dur) (fst (extract_pt_durations w path)) ->
  ascii_only vid = true ->
  exists root el,
    _parse_root w path = Root root
    /\ In el (findall "tripinfo" root)
    /\ vid <> ""
    /\ (attr "id" el = Some vid
        \/ ((attr "id" el = None \/ attr "id" el = Some "") /\ attr "tripid" el = Some vid))
    /\ match py_or (attr "vType" el) (attr "vtype" el) with
       | Some t => contains "bus" (lower t) = true
       | None => isdigit vid = false
       end
    /\ duration_of el = Some dur
    /\ fle dur f0 = false.
Proof.
  intros I _.
  apply In_dict_get in I; [|apply extract_pt_durations_NoDup].
  unfold extract_pt_durations in I.
  destruct (_parse_root w path) as [e|root]; [discriminate|]. cbn [fst] in I.
  rewrite fold_add_tripinfo_get in I. cbn [dict_get] in I.
  destruct (last_opt _) as [x|] eqn:L; [|discriminate]. injection I as ->.
  apply last_opt_In, trip_occurrences_In in L as (el & Ie & R).
  exists root, el. split; [reflexivity|]. split; [exact Ie|].
  exact (trip_record_Some _ _ _ R).
Qed.

(** X15 -- The vehicles of the dict [extract_pt_durations] returns stand in
    the order in which the file first reports each of them with a record that
    passes the filters; a later record of a known vehicle does not move it. *)
Theorem extract_pt_durations_key_order (path : option string) :
  keys (fst (extract_pt_durations w path)) =
  match _parse_root w path with
  | Root root => first_seen (trip_ids (findall "tripinfo" root))
  | Raises _ => []
  end.
Proof.
  unfold extract_pt_durations. destruct (_parse_root w path) as [e|root]; [reflexivity|].
  cbn [fst]. unfold trip_ids.
  rewrite <- (keys_first_seen trip_record (fun (v : F) (_ : option F) => v)).
  f_equal. apply fold_left_pointwise. intros d el. apply add_tripinfo_record.
Qed.

(** X16 -- The stops of the dict [parse_stop_delays] returns stand in the
    order in which the file first reports each of them with a usable record;
    sorting the delays of a stop does not move the stop.  This is the order
    in which the aligner walks through the stops of a baseline. *)
Theorem parse_stop_delays_key_order (path : option string) :
  keys (fst (ExportPtDelay.parse_stop_delays w path)) =
  match _parse_root w path with
  | Root root => first_seen (stop_ids (findall "stopinfo" root))
  | Raises _ => []
  end.
Proof.
  unfold ExportPtDelay.parse_stop_delays.
  destruct (_parse_root w path) as [e|root]; [reflexivity|].
  cbn [fst]. rewrite keys_map_values. unfold stop_ids.
  rewrite <- (keys_first_seen stop_record
                (fun (v : F) (o : option (list F)) =>
                   match o with Some l => (l ++ [v])%list | None => [v] end)).
  f_equal. apply fold_left_pointwise. intros d el. apply add_stopinfo_record.
Qed.

End DurationFacts.

Lemma extract_pt_durations_entries_witness :
  exists root el,
    _parse_root bus_world (Some "/sim/tripinfo.xml") = Root root
    /\ In el (findall "tripinfo" root)
    /\ attr "id" el = Some "bus_1"
    /\ OldMethod.duration_of el = Some 100%float.
Proof.
  assert (I : In ("bus_1", 100%float)
                (fst (OldMethod.extract_pt_durations (F := float) bus_world
                        (Some "/sim/tripinfo.xml"))))
    by (vm_compute; left; reflexivity).
  destruct (extract_pt_durations_entries bus_world _ _ _ I eq_refl)
    as (root & el & P & Ie & _ & [Id|[_ T]] & _ & D & _).
  - exists root, el. repeat split; assumption.
  - exfalso. vm_compute in P. injection P as <-.
    vm_compute in Ie. destruct Ie as [<-|[]]. discriminate T.
Defined.

(** ** Durations that are not numbers *)

Lemma sub_nan_l (x : float) : PrimFloat.sub PrimFloat.nan x = PrimFloat.nan.
Proof.
  rewrite <- (FloatAxioms.SF2Prim_Prim2SF (PrimFloat.sub PrimFloat.nan x)).
  rewrite FloatAxioms.sub_spec.
  change (Prim2SF PrimFloat.nan) with SpecFloat.S754_nan. reflexivity.
Qed.

Lemma sub_nan_r (x : float) : PrimFloat.sub x PrimFloat.nan = PrimFloat.nan.
Proof.
  rewrite <- (FloatAxioms.SF2Prim_Prim2SF (PrimFloat.sub x PrimFloat.nan)).
  rewrite FloatAxioms.sub_spec.
  change (Prim2SF PrimFloat.nan) with SpecFloat.S754_nan.
  now destruct (Prim2SF x) as [[|]| [|]| |[|] m e].
Qed.

(** X17 -- In IEEE arithmetic a missing time is not a reason to skip a bus
    trip, however [float] reads the other attributes.  When a [tripinfo]
    that passes the id and bus filters (a type that contains "bus", or no
    type and an ASCII id that is not all digits) has no [duration] and lacks
    [arrival] or [depart] (and what is there can be read), the missing time
    is read as NaN, the difference is NaN, the test [dur <= 0] is false for
    it, and the vehicle is stored with the duration NaN, in place of any
    duration it had. *)
Theorem missing_time_stored_as_nan (parse : string -> option float)
  (d : dict string float) (el : element) (vid : string) :
  parse "nan" = Some PrimFloat.nan ->
  py_or (py_or (attr "id" el) (attr "tripid" el)) (Some "") = Some vid ->
  vid <> "" ->
  match py_or (attr "vType" el) (attr "vtype" el) with
  | Some t => contains "bus" (lower t)
  | None => negb (isdigit vid) && ascii_only vid
  end = true ->
  attr "duration" el = None ->
  attr "arrival" el = None \/ attr "depart" el = None ->
  (forall s, attr "arrival" el = Some s -> parse s <> None) ->
  (forall s, attr "depart" el = Some s -> parse s <> None) ->
  @OldMethod.duration_of float (IEEE.with_float parse) el = Some PrimFloat.nan
  /\ @OldMethod.add_tripinfo float (IEEE.with_float parse) d el
     = dict_set vid PrimFloat.nan d.
Proof.
  intros NaN I N B D M PA PD.
  assert (E : @OldMethod.duration_of float (IEEE.with_float parse) el = Some PrimFloat.nan).
  { unfold OldMethod.duration_of. rewrite D.
    cbn [float_of_string fsub IEEE.with_float].
    destruct M as [M|M]; rewrite M.
    - rewrite NaN. destruct (attr "depart" el) as [s|] eqn:A.
      + destruct (parse s) as [dep|] eqn:P; [|now contradiction (PD s eq_refl)].
        now rewrite sub_nan_l.
      + rewrite NaN. now rewrite sub_nan_l.
    - destruct (attr "arrival" el) as [s|] eqn:A.
      + destruct (parse s) as [arr|] eqn:P; [|now contradiction (PA s eq_refl)].
        rewrite NaN. now rewrite sub_nan_r.
      + rewrite NaN. now rewrite sub_nan_l. }
  split; [exact E|].
  unfold OldMethod.add_tripinfo. rewrite I.
  apply String.eqb_neq in N. rewrite N.
  destruct (py_or (attr "vType" el) (attr "vtype" el)) as [t|].
  - rewrite B. cbn [negb]. now rewrite E.
  - apply andb_prop in B as [B _]. rewrite B. cbn [negb]. now rewrite E.
Qed.

Lemma missing_time_stored_as_nan_witness :
  OldMethod.add_tripinfo (F := float) [("bus_1", 100%float)]
    (Element "tripinfo" [("tripid", "bus_1"); ("depart", "5.0")] [])
  = [("bus_1", PrimFloat.nan)].
Proof.
  exact (proj2 (missing_time_stored_as_nan IEEE.parse_float [("bus_1", 100%float)]
           (Element "tripinfo" [("tripid", "bus_1"); ("depart", "5.0")] [])
           "bus_1" eq_refl eq_refl ltac:(discriminate) eq_refl eq_refl
           (or_introl eq_refl)
           ltac:(intros s; vm_compute; discriminate)
           ltac:(intros s A; vm_compute in A; injection A as <-; vm_compute; discriminate))).
Defined.

(** ** Discovery of the replicate files *)

Section AppendFacts.
Context {K V : Type} `{Key K}.

Lemma dict_append_lookup (k k0 : K) (v : V) (d : dict K (list V)) :
  opt_list (dict_get k0 (dict_append k v d)) =
  (opt_list (dict_get k0 d) ++ (if keqb k k0 then [v] else []))%list.
Proof.
  unfold dict_append. destruct (keqb k k0) eqn:E.
  - apply keqb_spec in E. subst k0. rewrite dict_get_upd_same.
    now destruct (dict_get k d).
  - rewrite dict_get_upd_other; [now rewrite app_nil_r|].
    intros ->. now rewrite keqb_refl in E.
Qed.

End AppendFacts.

Section ReplicateFiles.
Context {F : Type} `{Scalar F}.
Variable w : World.
Variable pd : Pandas F.
Import OldMethod.

Lemma fold_add_tripinfo_file (simdir : string) (value : Z) (names : list string)
  (d : dict Z (list (Z * string))) :
  opt_list (dict_get value (fold_left (add_tripinfo_file simdir) names d))
  = (opt_list (dict_get value d) ++ tripinfo_matches simdir value names)%list.
Proof.
  revert d. induction names as [|name names IH]; intros d; cbn [fold_left].
  - now rewrite app_nil_r.
  - rewrite IH. unfold tripinfo_matches at 2. cbn [flat_map].
    fold (tripinfo_matches simdir value names). rewrite app_assoc. f_equal.
    unfold add_tripinfo_file. destruct (TRIPINFO_RE name) as [[v s]|].
    + rewrite dict_append_lookup. reflexivity.
    + now rewrite app_nil_r.
Qed.

Lemma vd_files_eq (a : args) (value : Z) :
  vd_files w a value
  = sort_by (fun x y => fst x <? fst y)
            (tripinfo_matches (a_simdir a) value (os_listdir w (a_simdir a))).
Proof.
  unfold vd_files, discover_value_to_sims. rewrite dict_get_map.
  pose proof (fold_add_tripinfo_file (a_simdir a) value (os_listdir w (a_simdir a)) []) as G.
  cbn [dict_get opt_list app] in G. rewrite <- G.
  now destruct (dict_get value _).
Qed.

(** X18 -- The replicate files of a value: every directory entry whose name
    [TRIPINFO_RE] reads with that value, joined to the directory and paired
    with the sim read from the name, none lost and none merged (two entries
    with the same sim both stay); the list is in ascending order of sim, and
    entries of the same sim keep their listing order. *)
Theorem discover_value_to_sims_files (a : args) (value : Z) :
  vd_files w a value
  = sort_by (fun x y => fst x <? fst y)
            (tripinfo_matches (a_simdir a) value (os_listdir w (a_simdir a)))
  /\ Permutation (tripinfo_matches (a_simdir a) value (os_listdir w (a_simdir a)))
                 (vd_files w a value)
  /\ StronglySorted (fun x y => fst x <= fst y) (vd_files w a value).
Proof.
  rewrite vd_files_eq. split; [reflexivity|]. split; [apply sort_by_perm|].
  apply (StronglySorted_impl (fun x y => (fst x <=? fst y) = true)).
  { intros x y L. now apply Z.leb_le. }
  apply Sorted_StronglySorted.
  { intros x y z L1 L2. apply Z.leb_le in L1, L2. apply Z.leb_le. lia. }
  apply (sort_by_sorted (fun x y : Z * string => fst x <? fst y)
                        (fun x y => fst x <=? fst y)).
  intros x y _ _. destruct (fst x <? fst y) eqn:L.
  - apply Z.ltb_lt in L. apply Z.leb_le. lia.
  - apply Z.ltb_ge in L. now apply Z.leb_le.
Qed.

End ReplicateFiles.

(** ** Rows and messages of the vehicle-duration report *)

Section VehicleRows.
Context {F : Type} `{Scalar F}.
Variable w : World.
Variable pd : Pandas F.
Import OldMethod.

Lemma durations_of_length (vid : string) (files : list (Z * string)) :
  length (durations_of w vid files) = length (filter (reports w vid) files).
Proof.
  unfold durations_of, reports. induction files as [|file files IH]; [reflexivity|].
  cbn [flat_map filter]. rewrite length_app, IH.
  now destruct (dict_get vid _).
Qed.

Lemma durations_of_nil (vid : string) (files : list (Z * string)) :
  existsb (reports w vid) files
  = match durations_of w vid files with [] => false | _ :: _ => true end.
Proof.
  unfold durations_of, reports. induction files as [|file files IH]; [reflexivity|].
  cbn [flat_map existsb]. rewrite IH.
  now destruct (dict_get vid _).
Qed.

Lemma vd_rows_of_In (a : args) (value : Z) (r : row F) :
  In r (vd_rows_of w a value) ->
  exists base_dur,
    In (r_vehicle_id r, base_dur) (vd_baseline w a)
    /\ durations_of w (r_vehicle_id r) (vd_files w a value) <> []
    /\ r = vehicle_row (r_vehicle_id r) base_dur
             (durations_of w (r_vehicle_id r) (vd_files w a value)).
Proof.
  rewrite vd_rows_of_eq. intros I. apply in_flat_map in I as ([k b] & Ik & I).
  cbn [fst snd] in I.
  destruct (durations_of w k (vd_files w a value)) as [|x ds] eqn:D; [contradiction|].
  destruct I as [<-|[]]. cbn [r_vehicle_id vehicle_row]. rewrite D.
  exists b. repeat split; [exact Ik|discriminate].
Qed.

(** X19 -- The [sims_count] of a row is the number of replicate files of the
    value that report the vehicle: at least one, and at most the number of
    files found for the value.  The option [--sims] plays no part in it. *)
Theorem sims_count_bounds (a : args) (value : Z) (r : row F) :
  In r (vd_rows_of w a value) ->
  r_sims_count r
  = Z.of_nat (length (filter (reports w (r_vehicle_id r)) (vd_files w a value)))
  /\ 1 <= r_sims_count r <= Z.of_nat (length (vd_files w a value)).
Proof.
  intros I. destruct (vd_rows_of_In a value r I) as (b & _ & N & E).
  assert (C : r_sims_count r
              = Z.of_nat (length (durations_of w (r_vehicle_id r) (vd_files w a value))))
    by (rewrite E at 1; reflexivity).
  assert (P : (0 < length (durations_of w (r_vehicle_id r) (vd_files w a value)))%nat)
    by (destruct (durations_of w (r_vehicle_id r) (vd_files w a value));
        [congruence|cbn [length]; lia]).
  pose proof (filter_length_le (reports w (r_vehicle_id r)) (vd_files w a value)) as L.
  rewrite C. rewrite durations_of_length in P |- *. split; [reflexivity|lia].
Qed.

(** X20 -- The rows of a value's sheet follow the baseline: one row for each
    baseline vehicle that some replicate file of the value reports, in the
    order of the baseline dict, and no row for any other vehicle. *)
Theorem rows_follow_baseline (a : args) (value : Z) :
  map r_vehicle_id (vd_rows_of w a value)
  = filter (fun vid => existsb (reports w vid) (vd_files w a value))
           (keys (vd_baseline w a)).
Proof.
  rewrite vd_rows_of_eq. induction (vd_baseline w a) as [|[k b] base IH]; [reflexivity|].
  cbn [flat_map keys map filter fst snd]. rewrite map_app. fold (keys base).
  rewrite IH, durations_of_nil.
  now destruct (durations_of w k (vd_files w a value)).
Qed.

Lemma aggregate_lines (files : list (Z * string))
  (st : (dict string F * dict string Z) * list string) :
  snd (fold_left (add_file w) files st)
  = (snd st ++ flat_map (fun file => snd (extract_pt_durations w (Some (snd file)))) files)%list.
Proof.
  revert st. induction files as [|file files IH]; intros [acc out]; cbn [fold_left flat_map snd].
  - now rewrite app_nil_r.
  - rewrite IH. unfold add_file.
    destruct (extract_pt_durations w (Some (snd file))) as [durs lines]. cbn [snd].
    now rewrite app_assoc.
Qed.

Lemma vd_main_stdout (a : args) :
  stdout (main w pd a) =
  match vd_baseline w a with
  | [] => snd (extract_pt_durations w (Some (a_baseline a)))
  | _ :: _ =>
      app (snd (extract_pt_durations w (Some (a_baseline a))))
          (app (flat_map (fun value =>
                            flat_map (fun file =>
                                        snd (extract_pt_durations w (Some (snd file))))
                                     (vd_files w a value))
                         (vd_values w a))
               ["Excel written: " ++ a_out a])
  end.
Proof.
  unfold vd_baseline, vd_values, vd_files, main.
  destruct (extract_pt_durations w (Some (a_baseline a))) as [b out0]. cbn [fst snd].
  destruct b as [|kv b]; [reflexivity|].
  cbv zeta. cbn [stdout]. f_equal. f_equal.
  rewrite map_map, flat_map_concat_map. f_equal. apply map_ext. intros v.
  unfold value_rows.
  pose proof (aggregate_lines
                (match dict_get v (discover_value_to_sims w (a_simdir a)) with
                 | Some l => l
                 | None => []
                 end) (([], []), [])) as L.
  unfold aggregate.
  destruct (fold_left (add_file w) _ _) as [acc lines]. cbn [snd app] in *. exact L.
Qed.

Lemma extract_pt_durations_lines (path : string) :
  snd (extract_pt_durations w (Some path)) =
  match _parse_root w (Some path) with
  | Raises e => ["Warning: skipping malformed XML: " ++ path ++ " (" ++ e ++ ")"]
  | Root _ => []
  end.
Proof.
  unfold extract_pt_durations. now destruct (_parse_root w (Some path)).
Qed.

(** X21 -- A replicate file that the parser rejects does not stop the run:
    when the baseline has a vehicle and every parsed file has a root
    element or is rejected, the run ends with status 0, the warning that
    names the file and the error is printed, and the file reports no vehicle
    (so it adds to no sum and to no count). *)
Theorem unreadable_replicate_skipped (no_root : string -> bool) (a : args) (value : Z)
  (file : Z * string) (e : string) :
  no_root (a_baseline a) = false ->
  (forall v f, In v (vd_values w a) -> In f (vd_files w a v) -> no_root (snd f) = false) ->
  vd_baseline w a <> [] ->
  In file (vd_files w a value) ->
  _parse_root w (Some (snd file)) = Raises e ->
  exists o,
    OldMethodExc.main w no_root pd a = Ended o
    /\ exit_status o = 0
    /\ In ("Warning: skipping malformed XML: " ++ snd file ++ " (" ++ e ++ ")") (stdout o)
    /\ (forall vid, reports w vid file = false).
Proof.
  intros RB R B I P.
  assert (Iv : In value (vd_values w a)).
  { unfold vd_values. apply (Permutation_in _ (sort_by_perm _ _)).
    unfold vd_files in I.
    destruct (dict_get value (discover_value_to_sims w (a_simdir a))) as [l|] eqn:G;
      [|contradiction].
    apply dict_get_In in G. change value with (fst (value, l)). now apply in_map. }
  exists (main w pd a). split; [|split; [|split]].
  - apply exc_old_main_ended; [exact RB|]. intros _. split; [|exact R].
    intro N. rewrite N in Iv. contradiction.
  - exact (proj1 (vd_main_completes w pd a B)).
  - rewrite vd_main_stdout. destruct (vd_baseline w a) as [|kv b]; [congruence|].
    apply in_or_app. right. apply in_or_app. left.
    apply in_flat_map. exists value. split; [exact Iv|].
    apply in_flat_map. exists file. split; [exact I|].
    rewrite extract_pt_durations_lines, P. now left.
  - intros vid. unfold reports, extract_pt_durations. now rewrite P.
Qed.

End VehicleRows.

Lemma sims_count_bounds_witness :
  exists r,
    In r (vd_rows_of (F := float) bus_world bus_args 5000)
    /\ OldMethod.r_sims_count r = 2
    /\ OldMethod.r_sims_count r
       = Z.of_nat (length (filter (reports bus_world (OldMethod.r_vehicle_id r))
                                  (vd_files bus_world bus_args 5000)))
    /\ 1 <= OldMethod.r_sims_count r <= Z.of_nat (length (vd_files bus_world bus_args 5000)).
Proof.
  pose (r0 := {| OldMethod.r_vehicle_id := "bus_1";
                 OldMethod.r_baseline_duration_s := 100%float;
                 OldMethod.r_avg_duration_s := 120%float;
                 OldMethod.r_delay_s := 20%float;
                 OldMethod.r_sims_count := 2 |}).
  assert (I : In r0 (vd_rows_of (F := float) bus_world bus_args 5000))
    by (vm_compute; left; reflexivity).
  exists r0. split; [exact I|]. split; [reflexivity|].
  exact (sims_count_bounds bus_world bus_args 5000 r0 I).
Defined.

Lemma unreadable_replicate_skipped_witness :
  exists o,
    OldMethodExc.main (F := float) broken_replicate_world every_root pandas_spec bus_args
    = Ended o
    /\ exit_status o = 0
    /\ In ("Warning: skipping malformed XML: /sim/4_5000_1_run_sim_output.xml "
           ++ "(no element found: line 1, column 0)") (stdout o)
    /\ reports (F := float) broken_replicate_world "bus_1"
         (1, "/sim/4_5000_1_run_sim_output.xml") = false.
Proof.
  assert (B : vd_baseline (F := float) broken_replicate_world bus_args <> [])
    by (vm_compute; discriminate).
  assert (I : In (1, "/sim/4_5000_1_run_sim_output.xml")
                 (vd_files broken_replicate_world bus_args 5000))
    by (vm_compute; left; reflexivity).
  destruct (unreadable_replicate_skipped broken_replicate_world pandas_spec every_root
              bus_args 5000 (1, "/sim/4_5000_1_run_sim_output.xml")
              "no element found: line 1, column 0"
              eq_refl (fun _ _ _ _ => eq_refl) B I eq_refl) as (o & E & S & W & R).
  exists o. split; [exact E|]. split; [exact S|]. split; [exact W|]. apply R.
Defined.

(** ** The closing line *)

Lemma closing_line_no_warning (out : string) : is_warning ("Excel written: " ++ out) = false.
Proof. reflexivity. Qed.

Lemma warnings_app (l l' : list string) :
  Forall (fun line => is_warning line = true) l ->
  Forall (fun line => is_warning line = true) l' ->
  Forall (fun line => is_warning line = true) (l ++ l').
Proof. intros A B. apply Forall_app. now split. Qed.

Lemma warnings_without_closing_line (l : list string) (out : string) :
  Forall (fun line => is_warning line = true) l -> ~ In ("Excel written: " ++ out) l.
Proof.
  intros W I. rewrite Forall_forall in W. apply W in I.
  rewrite closing_line_no_warning in I. discriminate I.
Qed.

Lemma fold_warnings {A B : Type} (f : progress A -> B -> progress A) (l : list B) :
  (forall st b, Forall (fun line => is_warning line = true) (lines_of st) ->
                Forall (fun line => is_warning line = true) (lines_of (f st b))) ->
  forall st, Forall (fun line => is_warning line = true) (lines_of st) ->
             Forall (fun line => is_warning line = true) (lines_of (fold_left f l st)).
Proof.
  intros S. induction l as [|b l IH]; intros st W; [exact W|].
  cbn [fold_left]. apply IH. now apply S.
Qed.

Section ClosingLine.
Context {F : Type} `{Scalar F}.
Variable w : World.
Variable no_root : string -> bool.
Variable pd : Pandas F.

Lemma exc_parse_stop_delays_warnings (path : option string)
  (b : dict string (list F)) (lines : list string) :
  ExportPtDelayExc.parse_stop_delays w no_root path = Returns (b, lines) ->
  Forall (fun line => is_warning line = true) lines.
Proof.
  unfold ExportPtDelayExc.parse_stop_delays.
  destruct (parse_tree w no_root path); intros [= _ <-]; repeat constructor.
Qed.

Lemma exc_extract_pt_durations_warnings (path : option string)
  (b : dict string F) (lines : list string) :
  OldMethodExc.extract_pt_durations w no_root path = Returns (b, lines) ->
  Forall (fun line => is_warning line = true) lines.
Proof.
  unfold OldMethodExc.extract_pt_durations.
  destruct (parse_tree w no_root path); intros [= _ <-]; repeat constructor.
Qed.

Lemma exc_load_baseline_warnings (simdir : string)
  (st : progress (dict Z (dict string (list F)))) (sim : Z) :
  Forall (fun line => is_warning line = true) (lines_of st) ->
  Forall (fun line => is_warning line = true)
         (lines_of (ExportPtDelayExc.load_baseline w no_root simdir st sim)).
Proof.
  destruct st as [bl out|out]; cbn [lines_of]; [|trivial]. intros W.
  unfold ExportPtDelayExc.load_baseline.
  destruct (String.eqb _ ""); cbn [lines_of].
  - apply warnings_app; [exact W|]. repeat constructor.
  - destruct (ExportPtDelayExc.parse_stop_delays w no_root _) as [[b lines]|] eqn:P;
      [|exact W].
    apply exc_parse_stop_delays_warnings in P.
    destruct b; cbn [lines_of]; repeat apply warnings_app; trivial. repeat constructor.
Qed.

Lemma exc_add_sim_warnings (bl : dict Z (dict string (list F))) (v2s : dict Z (dict Z string))
  (value : Z) (st : progress (list (ExportPtDelay.row F))) (sim : Z) :
  Forall (fun line => is_warning line = true) (lines_of st) ->
  Forall (fun line => is_warning line = true)
         (lines_of (ExportPtDelayExc.add_sim w no_root bl v2s value st sim)).
Proof.
  destruct st as [rows out|out]; cbn [lines_of]; [|trivial]. intros W.
  unfold ExportPtDelayExc.add_sim.
  destruct (ExportPtDelayExc.parse_stop_delays w no_root _) as [[mixed lines]|] eqn:P;
    [|exact W].
  apply exc_parse_stop_delays_warnings in P.
  destruct (dict_get sim bl) as [[|kv b]|]; cbn [lines_of]; now apply warnings_app.
Qed.

Lemma exc_add_value_warnings (bl : dict Z (dict string (list F)))
  (v2s : dict Z (dict Z string)) (sims : Z)
  (st : progress (list (Z * list (ExportPtDelay.row F)))) (value : Z) :
  Forall (fun line => is_warning line = true) (lines_of st) ->
  Forall (fun line => is_warning line = true)
         (lines_of (ExportPtDelayExc.add_value w no_root bl v2s sims st value)).
Proof.
  destruct st as [tables out|out]; cbn [lines_of]; [|trivial]. intros W.
  unfold ExportPtDelayExc.add_value.
  pose proof (fold_warnings (ExportPtDelayExc.add_sim w no_root bl v2s value)
                (range 1 (sims + 1)) (exc_add_sim_warnings bl v2s value)
                (Going [] out) W) as G.
  now destruct (fold_left _ _ _).
Qed.

Lemma exc_add_file_warnings (st : progress (dict string F * dict string Z))
  (file : Z * string) :
  Forall (fun line => is_warning line = true) (lines_of st) ->
  Forall (fun line => is_warning line = true)
         (lines_of (OldMethodExc.add_file w no_root st file)).
Proof.
  destruct st as [acc out|out]; cbn [lines_of]; [|trivial]. intros W.
  unfold OldMethodExc.add_file.
  destruct (OldMethodExc.extract_pt_durations w no_root _) as [[durs lines]|] eqn:P;
    [|exact W].
  apply exc_extract_pt_durations_warnings in P. cbn [lines_of]. now apply warnings_app.
Qed.

Lemma exc_old_add_value_warnings (baseline : dict string F)
  (v2s : dict Z (list (Z * string)))
  (st : progress (list (Z * list (OldMethod.row F)))) (value : Z) :
  Forall (fun line => is_warning line = true) (lines_of st) ->
  Forall (fun line => is_warning line = true)
         (lines_of (OldMethodExc.add_value w no_root baseline v2s st value)).
Proof.
  destruct st as [tables out|out]; cbn [lines_of]; [|trivial]. intros W.
  unfold OldMethodExc.add_value.
  pose proof (fold_warnings (OldMethodExc.add_file w no_root)
                (match dict_get value v2s with Some l => l | None => [] end)
                exc_add_file_warnings (Going ([], []) out) W) as G.
  now destruct (fold_left _ _ _).
Qed.

(** X22 -- The closing line [Excel written: <out>] is printed exactly by the
    runs that end with status 0, in both reports, and it is then the last
    line: a run that aborts for want of a baseline and a run that an
    uncaught exception ends have printed warnings only. *)
Theorem excel_written_line :
  (forall a : OldMethod.args,
     (In ("Excel written: " ++ OldMethod.a_out a) (printed (OldMethodExc.main w no_root pd a))
      <-> status (OldMethodExc.main w no_root pd a) = 0)
     /\ (status (OldMethodExc.main w no_root pd a) = 0 ->
         last (printed (OldMethodExc.main w no_root pd a)) ""
         = "Excel written: " ++ OldMethod.a_out a))
  /\ (forall a : ExportPtDelay.args,
        (In ("Excel written: " ++ ExportPtDelay.a_out a)
            (printed (ExportPtDelayExc.main w no_root pd a))
         <-> status (ExportPtDelayExc.main w no_root pd a) = 0)
        /\ (status (ExportPtDelayExc.main w no_root pd a) = 0 ->
            last (printed (ExportPtDelayExc.main w no_root pd a)) ""
            = "Excel written: " ++ ExportPtDelay.a_out a)).
Proof.
  split.
  - intros a. unfold OldMethodExc.main. cbv zeta.
    destruct (OldMethodExc.extract_pt_durations w no_root (Some (OldMethod.a_baseline a)))
      as [[baseline out0]|] eqn:P.
    + apply exc_extract_pt_durations_warnings in P.
      destruct baseline as [|kv b].
      * cbn [printed status stdout exit_status]. split; [|discriminate].
        split; [|discriminate]. intro I.
        now apply warnings_without_closing_line in I.
      * pose proof (fold_warnings
                      (OldMethodExc.add_value w no_root (kv :: b)
                         (OldMethod.discover_value_to_sims w (OldMethod.a_simdir a)))
                      (sort_by Z.ltb
                         (keys (OldMethod.discover_value_to_sims w (OldMethod.a_simdir a))))
                      (exc_old_add_value_warnings _ _) (Going [] out0) P) as G.
        destruct (fold_left _ _ _) as [tables out|out]; cbn [lines_of] in G.
        -- destruct (map _ tables) as [|sh shs] eqn:M.
           ++ cbn [printed status]. split; [|discriminate]. split; [|discriminate].
              intro I. now apply warnings_without_closing_line in I.
           ++ cbn [printed status stdout exit_status]. split.
              ** split; [reflexivity|]. intros _. apply in_or_app. right. now left.
              ** intros _. apply last_last.
        -- cbn [printed status]. split; [|discriminate]. split; [|discriminate].
           intro I. now apply warnings_without_closing_line in I.
    + cbn [printed status]. split; [|discriminate]. split; [intros []|discriminate].
  - intros a. unfold ExportPtDelayExc.main, ExportPtDelayExc.load_baselines. cbv zeta.
    pose proof (fold_warnings (ExportPtDelayExc.load_baseline w no_root
                                 (ExportPtDelay.a_simdir a))
                  (range 1 (ExportPtDelay.a_sims a + 1))
                  (exc_load_baseline_warnings _) (Going [] []) (Forall_nil _)) as G1.
    destruct (fold_left _ _ _) as [bl out1|out1]; cbn [lines_of] in G1.
    + pose proof (fold_warnings
                    (ExportPtDelayExc.add_value w no_root bl
                       (ExportPtDelay.discover w (ExportPtDelay.a_simdir a))
                       (ExportPtDelay.a_sims a))
                    ExportPtDelay._generate_values
                    (exc_add_value_warnings _ _ _) (Going [] out1) G1) as G2.
      destruct (fold_left _ _ _) as [tables out|out]; cbn [lines_of] in G2.
      * cbn [printed status stdout exit_status]. split.
        -- split; [reflexivity|]. intros _. apply in_or_app. right. now left.
        -- intros _. apply last_last.
      * cbn [printed status]. split; [|discriminate]. split; [|discriminate].
        intro I. now apply warnings_without_closing_line in I.
    + cbn [printed status]. split; [|discriminate]. split; [|discriminate].
      intro I. now apply warnings_without_closing_line in I.
Qed.


End ClosingLine.


(** ** What stops a run *)

Lemma existsb_false {A : Type} (f : A -> bool) (l : list A) :
  existsb f l = false -> forall x, In x l -> f x = false.
Proof.
  intros E x I. destruct (f x) eqn:Fx; [|reflexivity].
  assert (T : existsb f l = true) by (apply existsb_exists; now exists x).
  rewrite T in E. discriminate E.
Qed.

Section Stopped.
Context {F : Type} `{Scalar F}.
Variable w : World.
Variable no_root : string -> bool.
Variable pd : Pandas F.


(** X29 -- The vehicle-duration run is ended by an uncaught exception exactly
    when the parser finds no root in the baseline file, or the baseline has
    a vehicle and either no file name gives a value (the workbook is closed
    without a sheet) or the parser finds no root in a replicate file. *)
Theorem vehicle_duration_run_stopped (a : OldMethod.args) :
  (exists out, OldMethodExc.main w no_root pd a = Died out)
  <-> no_root (OldMethod.a_baseline a) = true
      \/ (vd_baseline w a <> []
          /\ (vd_values w a = []
              \/ exists value file, In value (vd_values w a) /\ In file (vd_files w a value)
                                    /\ no_root (snd file) = true)).
Proof.
  split.
  - intros [out E]. destruct (no_root (OldMethod.a_baseline a)) eqn:RB; [now left|]. right.
    destruct (vd_baseline w a) as [|kv b] eqn:B.
    + rewrite exc_old_main_ended in E; [discriminate E|exact RB|]. intro N. contradiction.
    + split; [discriminate|].
      destruct (vd_values w a) as [|v vs] eqn:V; [now left|]. right. rewrite <- V.
      destruct (existsb (fun value => existsb (fun file => no_root (snd file))
                                              (vd_files w a value)) (vd_values w a)) eqn:X.
      * apply existsb_exists in X as (value & Iv & X).
        apply existsb_exists in X as (file & If & R). now exists value, file.
      * exfalso. rewrite exc_old_main_ended in E; [discriminate E|exact RB|].
        intros _. split; [rewrite V; discriminate|]. intros value file Iv If.
        pose proof (existsb_false _ _ X value Iv) as X'. cbv beta in X'.
        exact (existsb_false _ _ X' file If).
  - intros [R|(B & [V|R])].
    + apply exc_old_main_died. now left.
    + destruct (no_root (OldMethod.a_baseline a)) eqn:RB.
      * apply exc_old_main_died. now left.
      * eexists. now apply exc_old_main_no_sheet.
    + apply exc_old_main_died. right. now split.
Qed.

End Stopped.


Lemma vehicle_duration_run_stopped_witness :
  exists out,
    OldMethodExc.main (F := float) baseline_only_world every_root pandas_spec bus_args
    = Died out.
Proof.
  apply (vehicle_duration_run_stopped (F := float) baseline_only_world every_root pandas_spec
           bus_args).
  right. split; [vm_compute; discriminate|]. left. reflexivity.
Defined.

(** ** Sheet names *)

Lemma int_of_str_of_Z (z : Z) : NilZero.int_of_string (str_of_Z z) = Some (Z.to_int z).
Proof.
  unfold str_of_Z. apply NilZero.isi.
  - destruct z as [|q|q]; simpl; try discriminate; intros [= E];
      exact (DecimalPos.Unsigned.to_uint_nonnil q E).
  - destruct z as [|q|q]; simpl; try discriminate; intros [= E];
      exact (DecimalPos.Unsigned.to_uint_nonnil q E).
Qed.

Lemma NoDup_sheet_names (vs : list Z) (tail : list string) :
  StronglySorted Z.lt vs -> tail = [] \/ tail = ["summary"] ->
  NoDup (map str_of_Z vs ++ tail).
Proof.
  intros S T.
  assert (N : NoDup (map str_of_Z vs)).
  { apply (StronglySorted_NoDup Z.lt str_of_Z vs S).
    intros x y L E. apply str_of_Z_inj in E. lia. }
  destruct T as [->| ->]; [now rewrite app_nil_r|].
  apply NoDup_app; repeat split; try exact N.
  - constructor; [intros []|constructor].
  - intros name I [<-|[]]. apply in_map_iff in I as (v & E & _).
    apply (f_equal NilZero.int_of_string) in E. rewrite int_of_str_of_Z in E.
    vm_compute in E. discriminate E.
Qed.

(** X24 -- No two sheets of a workbook share a name, in either report: the
    values are pairwise different, [str] gives different values different
    names, and no value is written "summary". *)
Theorem sheet_names_distinct {F : Type} `{Scalar F} (w : World) (pd : Pandas F) :
  (forall a : ExportPtDelay.args,
     NoDup (map ExportPtDelay.sheet_name (written (ExportPtDelay.main w pd a))))
  /\ (forall a : OldMethod.args,
        NoDup (map OldMethod.sheet_name (vd_written (OldMethod.main w pd a)))).
Proof.
  split; intros a.
  - rewrite sheet_names_main.
    apply NoDup_sheet_names; [exact generated_values_ascending|now right].
  - destruct (vd_baseline w a) as [|kv b] eqn:B.
    + unfold vd_written. destruct (vd_main_fatal w pd a B) as (_ & _ & ->). constructor.
    + assert (B' : vd_baseline w a <> []) by congruence.
      rewrite (proj1 (vd_sheets w pd a B')).
      apply NoDup_sheet_names; [exact (proj1 (vd_values_spec w a))|].
      destruct (vd_values w a); [now left|now right].
Qed.

(** ** Nothing is printed without a cause *)

Section Lines.
Context {F : Type} `{Scalar F}.
Variable w : World.
Variable pd : Pandas F.

Lemma parse_stop_delays_lines (path : option string) :
  snd (ExportPtDelay.parse_stop_delays w path) =
  match _parse_root w path with
  | Raises e => ["Warning: skipping malformed XML: " ++ str_of_path path ++ " (" ++ e ++ ")"]
  | Root _ => []
  end.
Proof.
  unfold ExportPtDelay.parse_stop_delays. now destruct (_parse_root w path).
Qed.

(** X25 -- The stop-delay report prints nothing without a cause.  A line of
    its output is the closing line, or the warning of a requested sim for
    which no baseline file exists, or whose baseline file yields no delays,
    or whose baseline file cannot be parsed, or the warning of a reported
    value and a requested sim whose perturbed file cannot be parsed (a file
    that was not found counts as one: its path is [None]). *)
Theorem stop_delay_lines_have_a_cause (a : ExportPtDelay.args) (line : string) :
  In line (stdout (ExportPtDelay.main w pd a)) ->
  line = "Excel written: " ++ ExportPtDelay.a_out a
  \/ (exists sim,
        1 <= sim <= ExportPtDelay.a_sims a
        /\ ExportPtDelay._find_baseline_path w (ExportPtDelay.a_simdir a) sim = ""
        /\ line = "Warning: missing baseline file for sim " ++ str_of_Z sim
                  ++ " (looked for stop_events_baseline_" ++ str_of_Z sim
                  ++ ".xml and stop_events_0_" ++ str_of_Z sim ++ ".xml)")
  \/ (exists sim,
        1 <= sim <= ExportPtDelay.a_sims a
        /\ ExportPtDelay._find_baseline_path w (ExportPtDelay.a_simdir a) sim <> ""
        /\ fst (ExportPtDelay.parse_stop_delays w
                  (Some (ExportPtDelay._find_baseline_path w (ExportPtDelay.a_simdir a) sim)))
           = []
        /\ line = "Warning: no usable baseline delays in "
                  ++ ExportPtDelay._find_baseline_path w (ExportPtDelay.a_simdir a) sim)
  \/ (exists sim e,
        1 <= sim <= ExportPtDelay.a_sims a
        /\ ExportPtDelay._find_baseline_path w (ExportPtDelay.a_simdir a) sim <> ""
        /\ _parse_root w
             (Some (ExportPtDelay._find_baseline_path w (ExportPtDelay.a_simdir a) sim))
           = Raises e
        /\ line = "Warning: skipping malformed XML: "
                  ++ ExportPtDelay._find_baseline_path w (ExportPtDelay.a_simdir a) sim
                  ++ " (" ++ e ++ ")")
  \/ (exists value sim e,
        In value ExportPtDelay._generate_values
        /\ 1 <= sim <= ExportPtDelay.a_sims a
        /\ _parse_root w (mixed_path w a value sim) = Raises e
        /\ line = "Warning: skipping malformed XML: "
                  ++ str_of_path (mixed_path w a value sim) ++ " (" ++ e ++ ")").
Proof.
  rewrite main_stdout. intros I.
  apply in_app_or in I as [I|I]; [|apply in_app_or in I as [I|I]].
  - apply in_flat_map in I as (sim & Is & I). apply In_range in Is.
    assert (R : 1 <= sim <= ExportPtDelay.a_sims a) by lia.
    unfold baseline_lines in I.
    destruct (String.eqb (ExportPtDelay._find_baseline_path w (ExportPtDelay.a_simdir a) sim) "")
      eqn:P.
    + apply String.eqb_eq in P. destruct I as [<-|[]].
      right. left. exists sim. repeat split; try lia. exact P.
    + apply String.eqb_neq in P.
      assert (L : In line (snd (ExportPtDelay.parse_stop_delays w
                   (Some (ExportPtDelay._find_baseline_path w (ExportPtDelay.a_simdir a) sim))))
                  -> exists e,
                       _parse_root w
                         (Some (ExportPtDelay._find_baseline_path w
                                  (ExportPtDelay.a_simdir a) sim)) = Raises e
                       /\ line = "Warning: skipping malformed XML: "
                                 ++ ExportPtDelay._find_baseline_path w
                                      (ExportPtDelay.a_simdir a) sim
                                 ++ " (" ++ e ++ ")").
      { rewrite parse_stop_delays_lines. cbn [str_of_path].
        destruct (_parse_root w _) as [e|root]; [|intros []].
        intros [<-|[]]. now exists e. }
      destruct (fst (ExportPtDelay.parse_stop_delays w _)) as [|kv b] eqn:B.
      * apply in_app_or in I as [I|[<-|[]]].
        -- destruct (L I) as (e & Pe & ->). right. right. right. left.
           exists sim, e. repeat split; try lia; assumption.
        -- right. right. left. exists sim. repeat split; try lia; assumption.
      * destruct (L I) as (e & Pe & ->). right. right. right. left.
        exists sim, e. repeat split; try lia; assumption.
  - apply in_flat_map in I as (value & Iv & I).
    apply in_flat_map in I as (sim & Is & I). apply In_range in Is.
    rewrite parse_stop_delays_lines in I.
    destruct (_parse_root w (mixed_path w a value sim)) as [e|root] eqn:P; [|destruct I].
    destruct I as [<-|[]]. right. right. right. right.
    exists value, sim, e. repeat split; try lia; assumption.
  - destruct I as [<-|[]]. now left.
Qed.

(** X26 -- The vehicle-duration report prints nothing without a cause.  A
    line of its output is the closing line of a run that had a baseline, or
    the warning of the baseline file that cannot be parsed, or the warning of
    a replicate file of a discovered value that cannot be parsed. *)
Theorem vehicle_duration_lines_have_a_cause (a : OldMethod.args) (line : string) :
  In line (stdout (OldMethod.main w pd a)) ->
  (vd_baseline w a <> [] /\ line = "Excel written: " ++ OldMethod.a_out a)
  \/ (exists e,
        _parse_root w (Some (OldMethod.a_baseline a)) = Raises e
        /\ line = "Warning: skipping malformed XML: " ++ OldMethod.a_baseline a
                  ++ " (" ++ e ++ ")")
  \/ (exists value file e,
        vd_baseline w a <> []
        /\ In value (vd_values w a)
        /\ In file (vd_files w a value)
        /\ _parse_root w (Some (snd file)) = Raises e
        /\ line = "Warning: skipping malformed XML: " ++ snd file ++ " (" ++ e ++ ")").
Proof.
  rewrite vd_main_stdout.
  assert (L : forall path,
            In line (snd (OldMethod.extract_pt_durations w (Some path))) ->
            exists e, _parse_root w (Some path) = Raises e
                      /\ line = "Warning: skipping malformed XML: " ++ path
                                ++ " (" ++ e ++ ")").
  { intros path. rewrite extract_pt_durations_lines.
    destruct (_parse_root w (Some path)) as [e|root]; [|intros []].
    intros [<-|[]]. now exists e. }
  destruct (vd_baseline w a) as [|kv b] eqn:B; intros I.
  - right. left. exact (L _ I).
  - apply in_app_or in I as [I|I]; [|apply in_app_or in I as [I|I]].
    + right. left. exact (L _ I).
    + apply in_flat_map in I as (value & Iv & I).
      apply in_flat_map in I as (file & If & I).
      destruct (L _ I) as (e & P & ->). right. right.
      exists value, file, e. repeat split; try assumption. discriminate.
    + destruct I as [<-|[]]. left. split; [discriminate|reflexivity].
Qed.

End Lines.

Lemma stop_delay_lines_have_a_cause_witness :
  exists sim,
    1 <= sim <= 2
    /\ ExportPtDelay._find_baseline_path empty_world "/sim" sim = ""
    /\ "Warning: missing baseline file for sim 1 (looked for stop_events_baseline_1.xml"
       ++ " and stop_events_0_1.xml)"
       = "Warning: missing baseline file for sim " ++ str_of_Z sim
         ++ " (looked for stop_events_baseline_" ++ str_of_Z sim
         ++ ".xml and stop_events_0_" ++ str_of_Z sim ++ ".xml)".
Proof.
  assert (I : In ("Warning: missing baseline file for sim 1 (looked for "
                  ++ "stop_events_baseline_1.xml and stop_events_0_1.xml)")
                 (stdout (ExportPtDelay.main (F := float) empty_world pandas_spec
                            two_sims_args)))
    by (vm_compute; left; reflexivity).
  destruct (stop_delay_lines_have_a_cause empty_world pandas_spec two_sims_args _ I)
    as [E|[(sim & R & P & E)|[(sim & _ & P & _)|[(sim & e & _ & P & _)|(v & s & e & _ & _ & _ & E)]]]].
  - discriminate E.
  - exists sim. split; [exact R|]. split; [exact P|exact E].
  - exfalso. apply P. reflexivity.
  - exfalso. apply P. reflexivity.
  - exfalso. vm_compute in E. discriminate E.
Defined.

Lemma vehicle_duration_lines_have_a_cause_witness :
  exists e,
    _parse_root empty_world (Some "/sim/tripinfo.xml") = Raises e
    /\ "Warning: skipping malformed XML: /sim/tripinfo.xml ([Errno 2] No such file or directory)"
       = "Warning: skipping malformed XML: /sim/tripinfo.xml" ++ " (" ++ e ++ ")".
Proof.
  assert (I : In ("Warning: skipping malformed XML: /sim/tripinfo.xml "
                  ++ "([Errno 2] No such file or directory)")
                 (stdout (OldMethod.main (F := float) empty_world pandas_spec bus_args)))
    by (vm_compute; left; reflexivity).
  destruct (vehicle_duration_lines_have_a_cause empty_world pandas_spec bus_args _ I)
    as [[B _]|[(e & P & E)|(v & f & e & B & _)]].
  - exfalso. apply B. reflexivity.
  - exists e. split; [exact P|exact E].
  - exfalso. apply B. reflexivity.
Defined.
